(** * CanstaTelemetry: the serial session engine of [temperature_ui.py]

    A shallow embedding of the [SerialWorker] class (connection life cycle,
    AT-command configuration, the poll/transmit loop, the temperature read and
    the packet decode) and the properties of its behaviour.

    Conventions of the embedding.
    - A Python [str] is a [string]; a character is its code point, which the
      8-bit [ascii] covers up to 255.  Every line read from the port is
      decoded with [decode('ascii', errors='ignore')] and so only holds code
      points below 128.  [bytes] are strings of 8-bit values as well.
    - A method is a computation in the monad [M]: it reads and updates the
      fields of the worker, may raise an exception, and appends to the trace
      of observable effects (signals emitted, bytes written, sleeps, ...).
    - What the outside world does (whether the port opens, what it delivers,
      what the clock reads, whether a write fails) is an argument of the
      method that consumes it. *)

From Stdlib Require Import String Ascii List Bool Arith NArith ZArith QArith Lia.
From Stdlib Require Import DecimalString.
Import ListNotations.
Local Open Scope string_scope.
Local Open Scope list_scope.
Local Open Scope nat_scope.

(** ** Python string primitives *)

Module Py.

(** [str.isspace] on the code points below 256: the ASCII white space
    (TAB, LF, VT, FF, CR, FS, GS, RS, US, SPACE) and NEL, NBSP. *)
Definition isspace (c : ascii) : bool :=
  let n := nat_of_ascii c in
  ((9 <=? n) && (n <=? 13)) || ((28 <=? n) && (n <=? 32))
  || (n =? 133) || (n =? 160).

(** [Py_ISSPACE], the white space [bytes.fromhex] skips. *)
Definition c_isspace (c : ascii) : bool :=
  let n := nat_of_ascii c in
  ((9 <=? n) && (n <=? 13)) || (n =? 32).

Definition is_empty (s : string) : bool :=
  match s with EmptyString => true | String _ _ => false end.

Fixpoint lstrip (s : string) : string :=
  match s with
  | EmptyString => EmptyString
  | String c s' => if isspace c then lstrip s' else s
  end.

Fixpoint rstrip (s : string) : string :=
  match s with
  | EmptyString => EmptyString
  | String c s' =>
      let r := rstrip s' in
      if isspace c && is_empty r then EmptyString else String c r
  end.

(** [s.strip()] *)
Definition strip (s : string) : string := rstrip (lstrip s).

(** [sub in s] *)
Fixpoint contains (sub s : string) : bool :=
  String.prefix sub s
  || match s with
     | EmptyString => false
     | String _ s' => contains sub s'
     end.

(** The field that starts at the head of [s] and the fields after it;
    [skip] counts the characters of a separator just matched that are still
    to be passed over. *)
Fixpoint fields (sep s : string) (skip : nat) : string * list string :=
  match s with
  | EmptyString => (EmptyString, [])
  | String c s' =>
      match skip with
      | S k => fields sep s' k
      | O =>
          if String.prefix sep s
          then let '(f, fs) := fields sep s' (String.length sep - 1) in
               (EmptyString, f :: fs)
          else let '(f, fs) := fields sep s' 0 in
               (String c f, fs)
      end
  end.

(** [s.split(sep)] for a non-empty separator. *)
Definition split (sep s : string) : list string :=
  let '(f, fs) := fields sep s 0 in f :: fs.

(** The word that starts at the head of [s] (empty when [s] starts with white
    space) and the words after it. *)
Fixpoint words (s : string) : string * list string :=
  match s with
  | EmptyString => (EmptyString, [])
  | String c s' =>
      let '(w, ws) := words s' in
      if isspace c
      then (EmptyString, if is_empty w then ws else w :: ws)
      else (String c w, ws)
  end.

(** [s.split()] *)
Definition split_ws (s : string) : list string :=
  let '(w, ws) := words s in if is_empty w then ws else w :: ws.

(** [all(p(c) for c in s)] *)
Fixpoint all (p : ascii -> bool) (s : string) : bool :=
  match s with
  | EmptyString => true
  | String c s' => p c && all p s'
  end.

(** [c in s] for a single character [c]. *)
Fixpoint char_in (c : ascii) (s : string) : bool :=
  match s with
  | EmptyString => false
  | String d s' => Ascii.eqb c d || char_in c s'
  end.

(** [''.join(f(c) for c in s)] *)
Fixpoint join_map (f : ascii -> string) (s : string) : string :=
  match s with
  | EmptyString => EmptyString
  | String c s' => f c ++ join_map f s'
  end.

(** [str(n)] for a natural number. *)
Definition str_nat (n : nat) : string := NilZero.string_of_uint (Nat.to_uint n).

Definition LF : string := String (ascii_of_nat 10) EmptyString.
Definition CRLF : string := String (ascii_of_nat 13) LF.
Definition QUOTE : string := String (ascii_of_nat 34) EmptyString.
(** The degree sign, U+00B0. *)
Definition DEGREE : string := String (ascii_of_nat 176) EmptyString.

End Py.

(** ** Exceptions *)

Inductive exn : Type :=
| IndexError (msg : string)
| ValueError (msg : string)
| UnicodeDecodeError (msg : string)
| SerialException (msg : string).

(** [str(e)] *)
Definition str (e : exn) : string :=
  match e with
  | IndexError m | ValueError m | UnicodeDecodeError m | SerialException m => m
  end.

Inductive result (A : Type) : Type :=
| Ok (a : A)
| Raise (e : exn).
Arguments Ok {A} a.
Arguments Raise {A} e.

(** ** Hexadecimal payloads *)

Module Hex.

(** The digit of value [n] in ['0123456789ABCDEF']. *)
Definition upper_digit (n : nat) : ascii :=
  match String.get n "0123456789ABCDEF" with
  | Some c => c
  | None => "0"%char
  end.

(** [f'{ord(c):02X}'] for a code point below 256. *)
Definition format_02X (c : ascii) : string :=
  let n := nat_of_ascii c in
  String (upper_digit (n / 16)) (String (upper_digit (n mod 16)) EmptyString).

(** Leading zeros are dropped down to two digits. *)
Fixpoint two_at_least (digits : list ascii) : list ascii :=
  match digits with
  | d :: ((_ :: _ :: _) as rest) =>
      if (d =? "0")%char then two_at_least rest else digits
  | _ => digits
  end.

(** [f'{n:02X}'] for a code point of any size, [ord(c)] being below
    0x110000: the upper-case digits of [n], two at least. *)
Definition format_02X_ord (n : N) : string :=
  string_of_list_ascii
    (two_at_least
       (map (fun k => upper_digit (N.to_nat ((n / 16 ^ k) mod 16)))
            [5; 4; 3; 2; 1; 0]%N)).

(** The value of a hexadecimal digit, [None] for any other character. *)
Definition digit_value (c : ascii) : option nat :=
  let n := nat_of_ascii c in
  if (48 <=? n) && (n <=? 57) then Some (n - 48)
  else if (65 <=? n) && (n <=? 70) then Some (n - 55)
  else if (97 <=? n) && (n <=? 102) then Some (n - 87)
  else None.

Definition fromhex_error (pos : nat) : exn :=
  ValueError ("non-hexadecimal number found in fromhex() arg at position "
              ++ Py.str_nat pos).

(** [bytes.fromhex(s)] from position [pos] on: white space is skipped before
    a byte, the two digits of a byte are adjacent. *)
Fixpoint fromhex_from (pos : nat) (s : string) : result string :=
  match s with
  | EmptyString => Ok EmptyString
  | String c s' =>
      if Py.c_isspace c then fromhex_from (S pos) s'
      else
        match digit_value c with
        | None => Raise (fromhex_error pos)
        | Some top =>
            match s' with
            | EmptyString => Raise (fromhex_error (S pos))
            | String d s'' =>
                match digit_value d with
                | None => Raise (fromhex_error (S pos))
                | Some bot =>
                    match fromhex_from (S (S pos)) s'' with
                    | Ok bs => Ok (String (ascii_of_nat (top * 16 + bot)) bs)
                    | Raise e => Raise e
                    end
                end
            end
        end
  end.

Definition fromhex (s : string) : result string := fromhex_from 0 s.

Definition is_ascii (c : ascii) : bool := nat_of_ascii c <? 128.

(** The digit of value [n] in ['0123456789abcdef']. *)
Definition lower_digit (n : nat) : ascii :=
  match String.get n "0123456789abcdef" with
  | Some c => c
  | None => "0"%char
  end.

(** The first byte of [b] that is not ASCII, with its position. *)
Fixpoint first_non_ascii (pos : nat) (b : string) : option (ascii * nat) :=
  match b with
  | EmptyString => None
  | String c b' => if is_ascii c then first_non_ascii (S pos) b' else Some (c, pos)
  end.

(** [b.decode('ascii')] *)
Definition decode_ascii (b : string) : result string :=
  match first_non_ascii 0 b with
  | None => Ok b
  | Some (c, pos) =>
      let n := nat_of_ascii c in
      Raise (UnicodeDecodeError
               ("'ascii' codec can't decode byte 0x"
                ++ String (lower_digit (n / 16))
                     (String (lower_digit (n mod 16)) EmptyString)
                ++ " in position " ++ Py.str_nat pos
                ++ ": ordinal not in range(128)"))
  end.

(** [b.decode('ascii', errors='ignore')] *)
Fixpoint decode_ascii_ignore (b : string) : string :=
  match b with
  | EmptyString => EmptyString
  | String c b' =>
      if is_ascii c then String c (decode_ascii_ignore b')
      else decode_ascii_ignore b'
  end.

(** [readline().decode('ascii', errors='ignore').strip()] on the bytes
    [readline] returns. *)
Definition decode_line (raw : string) : string :=
  Py.strip (decode_ascii_ignore raw).

(** A character that is neither a hexadecimal digit nor white space. *)
Definition stray (c : ascii) : bool :=
  match digit_value c with
  | Some _ => false
  | None => negb (Py.c_isspace c)
  end.

(** [bytes.fromhex(hex_data).decode('ascii')] *)
Definition decode_payload (hex_data : string) : result string :=
  match fromhex hex_data with
  | Ok b => decode_ascii b
  | Raise e => Raise e
  end.

(** [c in '0123456789ABCDEFabcdef'] *)
Definition is_hex_char (c : ascii) : bool :=
  Py.char_in c "0123456789ABCDEFabcdef".

(** The payload of the transmit command ([run], the transmit branch):
    a message made of hexadecimal digits only is taken as it is, any other
    one is turned into the two upper-case digits of each character. *)
Definition hex_message (message_to_send : string) : string :=
  if Py.all is_hex_char message_to_send then message_to_send
  else Py.join_map format_02X message_to_send.

End Hex.

(** ** Signals, effects and the worker *)

(** The three signals of the worker. *)
Inductive event : Type :=
| status_update (device message : string)
| message_received (device message : string)
| connection_status (device : string) (status : bool).

(** What a method does to the outside world, in the order it does it. *)
Inductive effect : Type :=
| Emit (ev : event)
| Open (port : string)
| Write (data : string)
| ResetInput
| ResetOutput
| Close
| Sleep (seconds : Q).

(** The connection handle, [serial.Serial]. *)
Record Serial : Type := { is_open : bool }.

Record SerialWorker : Type := {
  port : string;
  device_type : string;
  running : bool;
  serial : option Serial;
  message_to_send : option string;
  send_interval : Q;
  last_send_time : Q;
  (** The thread of [run] is inside [while self.running]; outside of it
      [wait] returns at once. *)
  looping : bool
}.

(** [SerialWorker.__init__] *)
Definition init (port device_type : string) : SerialWorker :=
  {| port := port; device_type := device_type; running := false;
     serial := None; message_to_send := None; send_interval := 5%Q;
     last_send_time := 0%Q; looping := false |}.

Definition set_running (b : bool) (w : SerialWorker) : SerialWorker :=
  {| port := port w; device_type := device_type w; running := b;
     serial := serial w; message_to_send := message_to_send w;
     send_interval := send_interval w; last_send_time := last_send_time w;
     looping := looping w |}.

Definition set_serial (p : option Serial) (w : SerialWorker) : SerialWorker :=
  {| port := port w; device_type := device_type w; running := running w;
     serial := p; message_to_send := message_to_send w;
     send_interval := send_interval w; last_send_time := last_send_time w;
     looping := looping w |}.

Definition set_message_to_send (m : option string) (w : SerialWorker) : SerialWorker :=
  {| port := port w; device_type := device_type w; running := running w;
     serial := serial w; message_to_send := m;
     send_interval := send_interval w; last_send_time := last_send_time w;
     looping := looping w |}.

Definition set_last_send_time (t : Q) (w : SerialWorker) : SerialWorker :=
  {| port := port w; device_type := device_type w; running := running w;
     serial := serial w; message_to_send := message_to_send w;
     send_interval := send_interval w; last_send_time := t;
     looping := looping w |}.

Definition set_looping (b : bool) (w : SerialWorker) : SerialWorker :=
  {| port := port w; device_type := device_type w; running := running w;
     serial := serial w; message_to_send := message_to_send w;
     send_interval := send_interval w; last_send_time := last_send_time w;
     looping := b |}.

(** [self.serial and self.serial.is_open] *)
Definition is_connected (w : SerialWorker) : bool :=
  match serial w with
  | Some p => is_open p
  | None => false
  end.

(** The truth value of [self.message_to_send]: [None] and the empty string
    are false. *)
Definition pending (w : SerialWorker) : option string :=
  match message_to_send w with
  | Some m => if Py.is_empty m then None else Some m
  | None => None
  end.

(** ** The monad of methods *)

Definition M (A : Type) : Type :=
  SerialWorker -> result A * SerialWorker * list effect.

Definition ret {A} (a : A) : M A := fun w => (Ok a, w, []).

Definition bind {A B} (m : M A) (k : A -> M B) : M B :=
  fun w =>
    match m w with
    | (Ok a, w1, t1) => let '(r, w2, t2) := k a w1 in (r, w2, t1 ++ t2)
    | (Raise e, w1, t1) => (Raise e, w1, t1)
    end.

Definition raise {A} (e : exn) : M A := fun w => (Raise e, w, []).

Definition lift {A} (r : result A) : M A := fun w => (r, w, []).

(** [try: body  except <catches> as e: handler e] *)
Definition try_except {A} (catches : exn -> bool) (body : M A)
    (handler : exn -> M A) : M A :=
  fun w =>
    match body w with
    | (Ok a, w1, t1) => (Ok a, w1, t1)
    | (Raise e, w1, t1) =>
        if catches e
        then let '(r, w2, t2) := handler e w1 in (r, w2, t1 ++ t2)
        else (Raise e, w1, t1)
    end.

Definition gets {A} (f : SerialWorker -> A) : M A := fun w => (Ok (f w), w, []).
Definition modify (f : SerialWorker -> SerialWorker) : M unit :=
  fun w => (Ok tt, f w, []).
Definition tell (t : list effect) : M unit := fun w => (Ok tt, w, t).

Declare Scope py_scope.
Delimit Scope py_scope with py.
Notation "x <- m ;; k" := (bind m (fun x => k))
  (at level 61, m at next level, right associativity) : py_scope.
Notation "m ;; k" := (bind m (fun _ => k))
  (at level 61, right associativity) : py_scope.
Local Open Scope py_scope.

(** [except Exception] *)
Definition Exception (e : exn) : bool := true.

(** [except (IndexError, ValueError)] *)
Definition IndexError_or_ValueError (e : exn) : bool :=
  match e with
  | IndexError _ | ValueError _ => true
  | UnicodeDecodeError _ | SerialException _ => false
  end.

Definition emit (ev : event) : M unit := tell [Emit ev].
Definition sleep (seconds : Q) : M unit := tell [Sleep seconds].

(** A call on the port that either fails with the exception the port raises
    or has its effect. *)
Definition port_call (fault : option exn) (e : effect) : M unit :=
  match fault with
  | Some ex => raise ex
  | None => tell [e]
  end.

(** [self.serial.write(data)] *)
Definition serial_write (fault : option exn) (data : string) : M unit :=
  port_call fault (Write data).

(** [l[i]] *)
Definition index {A} (l : list A) (i : nat) : result A :=
  match nth_error l i with
  | Some a => Ok a
  | None => Raise (IndexError "list index out of range")
  end.

(** What one look at the port finds: [in_waiting] fails, or is zero, or is
    positive and then [readline] fails or returns bytes. *)
Inductive poll : Type :=
| InWaitingFails (e : exn)
| NoData
| ReadlineFails (e : exn)
| Line (raw : string).

(** ** Configuration constants *)

Record LoraParams : Type := {
  frequency : string;
  spreading_factor : string;
  bandwidth : string;
  coding_rate : string;
  power : string;
  preamble : string;
  crc : string
}.

Definition LORA_PARAMS : LoraParams :=
  {| frequency := "868"; spreading_factor := "SF7"; bandwidth := "125";
     coding_rate := "12"; power := "15"; preamble := "8"; crc := "ON" |}.

(** ** Methods of [SerialWorker] *)

Record config_env : Type := {
  mode_fault : option exn;      (** the write of the mode command fails *)
  rfcfg_fault : option exn;     (** the write of the RF configuration fails *)
  rxlrpkt_fault : option exn    (** the write of the receive command fails *)
}.

Definition rf_config : string :=
  "AT+TEST=RFCFG," ++ frequency LORA_PARAMS ++ "," ++
  spreading_factor LORA_PARAMS ++ "," ++ bandwidth LORA_PARAMS ++ "," ++
  coding_rate LORA_PARAMS ++ "," ++ power LORA_PARAMS ++ "," ++
  preamble LORA_PARAMS ++ "," ++ crc LORA_PARAMS ++ Py.CRLF.

Definition configure_device (env : config_env) : M bool :=
  dev <- gets device_type ;;
  try_except Exception
    (serial_write (mode_fault env) ("AT+MODE=TEST" ++ Py.CRLF) ;;
     sleep (1#2) ;;
     emit (status_update dev "Set TEST mode") ;;
     serial_write (rfcfg_fault env) rf_config ;;
     sleep (1#2) ;;
     emit (status_update dev "Configured LoRa parameters") ;;
     (if (dev =? "Receiver")%string
      then serial_write (rxlrpkt_fault env) ("AT+TEST=RXLRPKT" ++ Py.CRLF) ;;
           sleep (1#2) ;;
           emit (status_update dev "Started listening for packets")
      else ret tt) ;;
     ret true)
    (fun e =>
       emit (status_update dev ("Configuration error: " ++ str e)) ;;
       ret false).

(** [open_fault] is the exception of [serial.Serial(...)], if it raises. *)
Definition connect (open_fault : option exn) : M bool :=
  dev <- gets device_type ;;
  p <- gets port ;;
  try_except Exception
    (port_call open_fault (Open p) ;;
     modify (set_serial (Some {| is_open := true |})) ;;
     emit (status_update dev ("Connected to " ++ p)) ;;
     emit (connection_status dev true) ;;
     ret true)
    (fun e =>
       emit (status_update dev ("Connection error: " ++ str e)) ;;
       emit (connection_status dev false) ;;
       ret false).

Definition disconnect : M unit :=
  dev <- gets device_type ;;
  connected <- gets is_connected ;;
  if connected
  then tell [Close] ;;
       modify (set_serial (Some {| is_open := false |})) ;;
       emit (status_update dev "Disconnected") ;;
       emit (connection_status dev false)
  else ret tt.

Definition send_message (message : string) : M unit :=
  dev <- gets device_type ;;
  modify (set_message_to_send (Some message)) ;;
  emit (status_update dev ("Queued message for sending: " ++ message)).

(** *** The receive and transmit halves of an iteration of [run] *)

(** The command that transmits [message_to_send]. *)
Definition transmit_command (message_to_send : string) : string :=
  "AT+TEST=TXLRPKT," ++ Py.QUOTE ++ Hex.hex_message message_to_send
  ++ Py.QUOTE ++ Py.CRLF.

(** What an iteration of the loop meets: what the port holds, what the clock
    reads, and whether a write to the port fails. *)
Record tick : Type := {
  rx : poll;
  now : Q;
  tx_fault : option exn
}.

(** The packet branch: the second field of the response split at the quote
    character, read as hexadecimal bytes and decoded as ASCII. *)
Definition decode_packet (response : string) : result string :=
  match index (Py.split Py.QUOTE response) 1 with
  | Ok hex_data => Hex.decode_payload hex_data
  | Raise e => Raise e
  end.

Definition receive (p : poll) : M unit :=
  dev <- gets device_type ;;
  match p with
  | InWaitingFails e => raise e
  | NoData => ret tt
  | ReadlineFails e => raise e
  | Line raw =>
      let response := Hex.decode_line raw in
      if Py.is_empty response then ret tt
      else
        emit (status_update dev ("Received: " ++ response)) ;;
        if (dev =? "Receiver")%string && Py.contains "+TEST: RX" response
        then try_except Exception
               (ascii_text <- lift (decode_packet response) ;;
                emit (message_received dev ("Received message: " ++ ascii_text)))
               (fun e =>
                  emit (status_update dev ("Failed to decode message: " ++ str e)))
        else ret tt
  end.

Definition transmit (env : tick) : M unit :=
  dev <- gets device_type ;;
  if (dev =? "Transmitter")%string
  then
    let current_time := now env in
    msg <- gets pending ;;
    last <- gets last_send_time ;;
    interval <- gets send_interval ;;
    match msg with
    | Some message =>
        if Qle_bool interval (current_time - last)
        then serial_write (tx_fault env) (transmit_command message) ;;
             emit (message_received dev ("Sent message: " ++ message)) ;;
             modify (set_last_send_time current_time)
        else ret tt
    | None => ret tt
    end
  else ret tt.

(** The body of [while self.running]. *)
Definition iteration (env : tick) : M unit :=
  dev <- gets device_type ;;
  try_except Exception
    (receive (rx env) ;;
     transmit env ;;
     sleep (1#10))
    (fun e =>
       emit (status_update dev ("Error: " ++ str e)) ;;
       sleep 1).

(** Leaving the loop: the clean-up after it, and [run] returns. *)
Definition exit_loop : M unit :=
  disconnect ;;
  modify (set_looping false).

(** One test of [while self.running] by the thread of [run], with the body
    when the test holds and the exit when it does not. *)
Definition loop_step (env : tick) : M unit :=
  alive <- gets looping ;;
  if alive
  then r <- gets running ;;
       if r then iteration env else exit_loop
  else ret tt.

(** The loop over the ticks the thread is given. *)
Fixpoint loop (ticks : list tick) : M unit :=
  match ticks with
  | [] => ret tt
  | env :: rest => loop_step env ;; loop rest
  end.

(** [run] up to its loop: [true] when the loop is entered. *)
Definition startup (open_fault : option exn) (cfg : config_env) : M bool :=
  modify (set_running true) ;;
  connected <- connect open_fault ;;
  if negb connected
  then modify (set_running false) ;; ret false
  else
    configured <- configure_device cfg ;;
    if negb configured
    then disconnect ;; modify (set_running false) ;; ret false
    else modify (set_looping true) ;; ret true.

Definition run (open_fault : option exn) (cfg : config_env)
    (ticks : list tick) : M unit :=
  entered <- startup open_fault cfg ;;
  if entered then loop ticks else ret tt.

(** [stop] with the thread in its loop or outside of [run]: the flag is
    cleared and [wait] returns once [run] has returned; a thread still in its
    loop then finds the flag cleared and leaves.  [stop_from] below is [stop]
    with the thread at any position of [run]. *)
Definition stop : M unit :=
  modify (set_running false) ;;
  alive <- gets looping ;;
  if alive then exit_loop else ret tt.

(** *** [read_temperature] *)

(** The variables of the polling loop of [read_temperature]. *)
Record accumulator (number : Type) : Type := {
  response : string;
  complete_response : bool;
  temperature_value : option number
}.
Arguments response {number} _.
Arguments complete_response {number} _.
Arguments temperature_value {number} _.

Record temperature_env : Type := {
  reset_input_fault : option exn;
  reset_output_fault : option exn;
  query_fault : option exn;
  (** What each turn of the polling loop finds at the port, for as many
      turns as the five seconds leave room for. *)
  polls : list poll
}.

Section Temperature.

(** Python's floating-point numbers, the value [float] reads from a string
    ([None] when it is no numeric literal), and their rendering in an
    f-string. *)
Variable number : Type.
Variable float : string -> option number.
Variable repr : number -> string.

(** [float(s)], which raises [ValueError] on a malformed literal.  The
    message quotes the literal the way Python does when it holds no
    apostrophe, backslash or control character. *)
Definition to_float (s : string) : result number :=
  match float s with
  | Some v => Ok v
  | None => Raise (ValueError ("could not convert string to float: '" ++ s ++ "'"))
  end.

(** [f'{temperature_value}'] *)
Definition format_value (temperature_value : option number) : string :=
  match temperature_value with
  | Some v => repr v
  | None => "None"
  end.

(** The [for i, part in enumerate(parts)] loop: the result is the new
    [temperature_value]. *)
Fixpoint scan_parts (parts : list string) (temperature_value : option number)
  : result (option number) :=
  match parts with
  | [] => Ok temperature_value
  | part :: rest =>
      match (part =? "TEMP")%string, rest with
      | true, next :: _ =>
          match to_float next with
          | Ok v => Ok (Some v)
          | Raise e => Raise e
          end
      | _, _ => scan_parts rest temperature_value
      end
  end.

(** The body of the [try] that extracts the value of a line holding the
    marker: the result is the new [temperature_value]. *)
Definition parse_temperature (line : string) (temperature_value : option number)
  : result (option number) :=
  if Py.contains "TEMP," line
  then
    match index (Py.split "TEMP," line) 1 with
    | Ok part =>
        let temp_part := Py.strip part in
        match to_float temp_part with
        | Ok v => Ok (Some v)
        | Raise e => Raise e
        end
    | Raise e => Raise e
    end
  else if Py.contains ":" line && Py.contains "TEMP" line
  then scan_parts (Py.split_ws line) temperature_value
  else Ok temperature_value.

(** What the polling loop does with a non-empty line. *)
Definition handle_line (line : string) (a : accumulator number)
  : M (accumulator number) :=
  dev <- gets device_type ;;
  let response := (response a ++ "RAW> " ++ line ++ Py.LF)%string in
  emit (status_update dev ("Response line: '" ++ line ++ "'")) ;;
  let complete_response :=
    if (line =? "OK")%string || Py.contains "ERROR" line then true
    else complete_response a in
  if Py.contains "TEMP" line
  then
    emit (status_update dev ("Found temperature data: '" ++ line ++ "'")) ;;
    try_except IndexError_or_ValueError
      (v <- lift (parse_temperature line (temperature_value a)) ;;
       emit (status_update dev
               ("Parsed temperature: " ++ format_value v ++ Py.DEGREE ++ "C")) ;;
       ret {| response := response; complete_response := complete_response;
              temperature_value := v |})
      (fun e =>
         emit (status_update dev
                 ("Parse error: " ++ str e ++ " in '" ++ line ++ "'")) ;;
         ret {| response := response; complete_response := complete_response;
                temperature_value := temperature_value a |})
  else
    ret {| response := response; complete_response := complete_response;
           temperature_value := temperature_value a |}.

(** [while time.time() - start_time < 5 and not complete_response]: the time
    is up when the polls are used up. *)
Fixpoint poll_loop (polls : list poll) (a : accumulator number)
  : M (accumulator number) :=
  match polls with
  | [] => ret a
  | p :: rest =>
      if complete_response a then ret a
      else
        match p with
        | InWaitingFails e => raise e
        | NoData => sleep (1#10) ;; poll_loop rest a
        | ReadlineFails e => raise e
        | Line raw =>
            let line := Hex.decode_line raw in
            if Py.is_empty line then poll_loop rest a
            else
              a' <- handle_line line a ;;
              sleep (1#10) ;;
              poll_loop rest a'
        end
  end.

Definition read_temperature (env : temperature_env) : M (option number) :=
  dev <- gets device_type ;;
  connected <- gets is_connected ;;
  if negb connected
  then emit (status_update dev "Error: Device not connected") ;; ret None
  else
    try_except Exception
      (port_call (reset_input_fault env) ResetInput ;;
       port_call (reset_output_fault env) ResetOutput ;;
       emit (status_update dev "Sending temperature read command...") ;;
       serial_write (query_fault env) ("AT+TEST=TEMP" ++ Py.CRLF) ;;
       sleep (1#2) ;;
       a <- poll_loop (polls env)
              {| response := ""; complete_response := false;
                 temperature_value := None |} ;;
       emit (status_update dev ("Complete response:" ++ Py.LF ++ response a)) ;;
       match temperature_value a with
       | Some v =>
           emit (status_update dev
                   ("Final temperature: " ++ repr v ++ Py.DEGREE ++ "C")) ;;
           ret (Some v)
       | None =>
           (if complete_response a
            then emit (status_update dev "Temperature data not found in response")
            else emit (status_update dev "Timeout waiting for complete response")) ;;
           ret None
       end)
      (fun e =>
         emit (status_update dev ("Temperature reading error: " ++ str e)) ;;
         ret None).

(** *** What a read is expected to return *)

(** The line a poll delivers to the loop, if any. *)
Definition line_of (p : poll) : option string :=
  match p with
  | Line raw =>
      let line := Hex.decode_line raw in
      if Py.is_empty line then None else Some line
  | InWaitingFails _ | NoData | ReadlineFails _ => None
  end.

(** A line that completes the response: the plain acknowledgement or an
    error indicator. *)
Definition completes (line : string) : bool :=
  (line =? "OK")%string || Py.contains "ERROR" line.

(** The lines the loop reads: those delivered up to and including the first
    that completes the response. *)
Fixpoint lines_read (polls : list poll) : list string :=
  match polls with
  | [] => []
  | p :: rest =>
      match line_of p with
      | Some line => line :: (if completes line then [] else lines_read rest)
      | None => lines_read rest
      end
  end.

(** The value a line yields, when it holds the marker and its extraction
    succeeds. *)
Definition parsed (line : string) : option number :=
  if Py.contains "TEMP" line
  then match parse_temperature line None with
       | Ok v => v
       | Raise _ => None
       end
  else None.

(** The value of the last line, among [lines], that yields one. *)
Definition last_parsed (lines : list string) : option number :=
  fold_left (fun acc line =>
               match parsed line with
               | Some v => Some v
               | None => acc
               end) lines None.

(** The last diagnostic of a read that met no I/O failure. *)
Definition diagnostic (lines : list string) : string :=
  match last_parsed lines with
  | Some v => "Final temperature: " ++ repr v ++ Py.DEGREE ++ "C"
  | None =>
      if existsb completes lines
      then "Temperature data not found in response"
      else "Timeout waiting for complete response"
  end.

(** A poll at which neither [in_waiting] nor [readline] fails. *)
Definition quiet (p : poll) : bool :=
  match p with
  | NoData | Line _ => true
  | InWaitingFails _ | ReadlineFails _ => false
  end.

(** What the extraction does with a line does not depend on the value held
    so far: it yields a value, or raises an exception that the line handler
    catches, or leaves the value as it is. *)
Definition uniform (f : option number -> result (option number)) : Prop :=
  (exists v, forall tv, f tv = Ok (Some v))
  \/ (exists e, IndexError_or_ValueError e = true /\ forall tv, f tv = Raise e)
  \/ (forall tv, f tv = Ok tv).

End Temperature.

Arguments to_float {number} float s.
Arguments format_value {number} repr temperature_value.
Arguments scan_parts {number} float parts temperature_value.
Arguments parse_temperature {number} float line temperature_value.
Arguments handle_line {number} float repr line a.
Arguments poll_loop {number} float repr polls a.
Arguments read_temperature {number} float repr env.
Arguments parsed {number} float line.
Arguments last_parsed {number} float lines.
Arguments diagnostic {number} float repr lines.
Arguments uniform {number} f.

(** *** A [float] to run the model with

    A plain decimal literal, an optional sign, digits and an optional
    fraction, with white space around it, read as the exact rational.
    Python's [float] accepts more (exponents, [inf], [nan], underscores) and
    rounds to a binary64; the theorems on [read_temperature] hold for any
    [float], this one serves the examples. *)

Module Decimal_float.

Definition digit (c : ascii) : option Z :=
  let n := nat_of_ascii c in
  if (48 <=? n) && (n <=? 57) then Some (Z.of_nat (n - 48)) else None.

(** The longest run of digits at the head of [s], appended to the digits that
    gave [acc]: the value, the number of digits read, and the rest. *)
Fixpoint digits (s : string) (acc : Z) (count : nat) : Z * nat * string :=
  match s with
  | EmptyString => (acc, count, EmptyString)
  | String c s' =>
      match digit c with
      | Some d => digits s' (acc * 10 + d)%Z (S count)
      | None => (acc, count, s)
      end
  end.

Definition unsigned (s : string) : option Q :=
  let '(whole, n1, rest) := digits s 0%Z 0 in
  match rest with
  | EmptyString => if n1 =? 0 then None else Some (whole # 1)
  | String c rest' =>
      if Ascii.eqb c "."%char
      then
        let '(mantissa, n2, rest'') := digits rest' whole 0 in
        if Py.is_empty rest'' && negb (n1 + n2 =? 0)
        then Some (mantissa # Z.to_pos (10 ^ Z.of_nat n2))
        else None
      else None
  end.

Definition float (s : string) : option Q :=
  let t := Py.strip s in
  match t with
  | String c t' =>
      if Ascii.eqb c "-"%char then option_map Qopp (unsigned t')
      else if Ascii.eqb c "+"%char then unsigned t'
      else unsigned t
  | EmptyString => None
  end.

Definition repr (q : Q) : string :=
  NilZero.string_of_int (Z.to_int (Qnum q)) ++ "/"
  ++ NilZero.string_of_uint (Pos.to_uint (Qden q)).

End Decimal_float.

(** ** Observations on a trace of effects *)

(** The data written to the port, in order. *)
Fixpoint writes (t : list effect) : list string :=
  match t with
  | [] => []
  | Write data :: t' => data :: writes t'
  | _ :: t' => writes t'
  end.

(** The [message_received] signals emitted, in order. *)
Fixpoint received (t : list effect) : list event :=
  match t with
  | [] => []
  | Emit (message_received d m) :: t' => message_received d m :: received t'
  | _ :: t' => received t'
  end.

(** The sleeps, in order. *)
Fixpoint sleeps (t : list effect) : list Q :=
  match t with
  | [] => []
  | Sleep d :: t' => d :: sleeps t'
  | _ :: t' => sleeps t'
  end.

(** The send-interval gate of the transmit branch at a tick. *)
Definition gate_open (env : tick) (w : SerialWorker) : bool :=
  Qle_bool (send_interval w) (now env - last_send_time w).

(** The message the transmit branch sends at a tick, when it fires: the
    worker is the transmitter, a message is pending and the gate is open. *)
Definition transmits (env : tick) (w : SerialWorker) : option string :=
  if (device_type w =? "Transmitter")%string
  then match pending w with
       | Some m => if gate_open env w then Some m else None
       | None => None
       end
  else None.

(** The exception an iteration meets at a tick, if any: a failure of the
    look at the port, or of the write when the transmit branch fires. *)
Definition fault (env : tick) (w : SerialWorker) : option exn :=
  match rx env with
  | InWaitingFails e | ReadlineFails e => Some e
  | NoData | Line _ =>
      match transmits env w with
      | Some _ => tx_fault env
      | None => None
      end
  end.

(** The exception the configuration sequence meets, if any: that of the
    first of its writes to fail. *)
Definition config_fault (device_type : string) (cfg : config_env) : option exn :=
  match mode_fault cfg with
  | Some e => Some e
  | None =>
      match rfcfg_fault cfg with
      | Some e => Some e
      | None =>
          if (device_type =? "Receiver")%string then rxlrpkt_fault cfg else None
      end
  end.

(** The result, the worker and the trace of a computation. *)
Definition result_of {A} (x : result A * SerialWorker * list effect) : result A :=
  fst (fst x).
Definition worker_of {A} (x : result A * SerialWorker * list effect) : SerialWorker :=
  snd (fst x).
Definition trace_of {A} (x : result A * SerialWorker * list effect) : list effect :=
  snd x.

(** The workers whose thread is in the active loop: [run] has connected and
    configured, and since then the loop has made some iterations and the
    caller has queued some messages. *)
Inductive in_loop : SerialWorker -> Prop :=
| in_loop_entered (w0 : SerialWorker) (cfg : config_env) :
    result_of (startup None cfg w0) = Ok true ->
    in_loop (worker_of (startup None cfg w0))
| in_loop_step (w : SerialWorker) (env : tick) :
    in_loop w -> in_loop (worker_of (loop_step env w))
| in_loop_send_message (w : SerialWorker) (message : string) :
    in_loop w -> in_loop (worker_of (send_message message w)).

(** A worker whose [run] has connected, configured and entered its loop. *)
Definition active (port device_type : string) : SerialWorker :=
  set_looping true
    (set_running true
       (set_serial (Some {| is_open := true |}) (init port device_type))).

(** A configuration sequence none of whose writes fails. *)
Definition no_faults : config_env :=
  {| mode_fault := None; rfcfg_fault := None; rxlrpkt_fault := None |}.

(** A temperature read at which the port does not fail and delivers
    [polls]. *)
Definition delivers (polls : list poll) : temperature_env :=
  {| reset_input_fault := None; reset_output_fault := None;
     query_fault := None; polls := polls |}.

(** A tick at which nothing arrives and nothing fails. *)
Definition idle (t : Q) : tick := {| rx := NoData; now := t; tx_fault := None |}.

(** A tick at which [readline] fails. *)
Definition unplugged (t : Q) : tick :=
  {| rx := ReadlineFails (SerialException "device disconnected");
     now := t; tx_fault := None |}.

(** A transmitter in its loop. *)
Definition transmitter : SerialWorker := active "/dev/cu.usbserial-10" "Transmitter".

(** A transmitter in its loop that has last sent at time 100. *)
Definition sent_at_100 : SerialWorker := set_last_send_time 100 transmitter.

(** ** Further observations *)

(** The [connection_status] signals of a trace, in order. *)
Fixpoint connection_events (t : list effect) : list bool :=
  match t with
  | [] => []
  | Emit (connection_status _ status) :: t' => status :: connection_events t'
  | _ :: t' => connection_events t'
  end.

(** The signals emitted in a trace, in order. *)
Fixpoint signals (t : list effect) : list event :=
  match t with
  | [] => []
  | Emit ev :: t' => ev :: signals t'
  | _ :: t' => signals t'
  end.

(** The clock readings of the ticks at which the loop writes to the port. *)
Fixpoint send_times (ticks : list tick) (w : SerialWorker) : list Q :=
  match ticks with
  | [] => []
  | env :: rest =>
      let x := loop_step env w in
      match writes (trace_of x) with
      | [] => send_times rest (worker_of x)
      | _ :: _ => now env :: send_times rest (worker_of x)
      end
  end.

(** Each of [times] is at least [interval] after the one before it, the
    first after [last]. *)
Fixpoint spaced (interval last : Q) (times : list Q) : Prop :=
  match times with
  | [] => True
  | t :: rest => (interval <= t - last)%Q /\ spaced interval t rest
  end.

(** The exception a poll of the port raises, if any. *)
Definition poll_fault (p : poll) : option exn :=
  match p with
  | InWaitingFails e | ReadlineFails e => Some e
  | NoData | Line _ => None
  end.

(** The first exception the polling loop of a temperature read meets before
    a line completes the response, if any. *)
Fixpoint polls_fault (polls : list poll) : option exn :=
  match polls with
  | [] => None
  | p :: rest =>
      match p with
      | InWaitingFails e | ReadlineFails e => Some e
      | NoData => polls_fault rest
      | Line raw =>
          if completes (Hex.decode_line raw) then None else polls_fault rest
      end
  end.

(** The first exception a temperature read meets at the port, if any. *)
Definition read_fault (env : temperature_env) : option exn :=
  match reset_input_fault env with
  | Some e => Some e
  | None =>
      match reset_output_fault env with
      | Some e => Some e
      | None =>
          match query_fault env with
          | Some e => Some e
          | None => polls_fault (polls env)
          end
      end
  end.

(** A temperature read that differs from [env] in its polls only. *)
Definition with_polls (env : temperature_env) (polls : list poll)
  : temperature_env :=
  {| reset_input_fault := reset_input_fault env;
     reset_output_fault := reset_output_fault env;
     query_fault := query_fault env; polls := polls |}.

(** A character of a line that leaves nothing of it: white space, or a byte
    the decoding drops. *)
Definition blank (c : ascii) : bool := Py.isspace c || negb (Hex.is_ascii c).

(** The line a receiving module reports for a packet of payload
    [hex_data], as the port delivers it. *)
Definition rx_report (hex_data : string) : string :=
  "+TEST: RX " ++ Py.QUOTE ++ hex_data ++ Py.QUOTE ++ Py.CRLF.

(** ** The thread of [run], statement by statement

    [run] taken as one step from its start to its loop hides the worker as
    it is while the port is being opened and the module configured.  These
    are its positions from the first assignment of [run] on. *)







(** ** The window, [LoraTransceiverUI]

    The window is the state of its widgets that the handlers read or set:
    the style sheet of the status label of each indicator, the lines of the
    two logs, the message of the status bar, the text and the style sheet of
    the temperature label, and which buttons are enabled; with them the two
    workers, and how many times the handlers have read the clock. *)

Definition TRANSMITTER_PORT : string := "/dev/cu.usbserial-10".
Definition RECEIVER_PORT : string := "/dev/cu.usbserial-1120".

(** The device a signal names. *)
Definition device_of (ev : event) : string :=
  match ev with
  | status_update device _ | message_received device _
  | connection_status device _ => device
  end.

Module UI.

Record Window : Type := {
  transmitter : option SerialWorker;
  receiver : option SerialWorker;
  tx_status : string;
  rx_status : string;
  tx_log : list string;
  rx_log : list string;
  status_bar : string;
  temp_label : string;
  temp_style : string;
  start_btn : bool;
  stop_btn : bool;
  send_btn : bool;
  clock_reads : nat
}.

Definition set_transmitter (w : option SerialWorker) (ui : Window) : Window :=
  {| transmitter := w; receiver := receiver ui; tx_status := tx_status ui;
     rx_status := rx_status ui; tx_log := tx_log ui; rx_log := rx_log ui;
     status_bar := status_bar ui; temp_label := temp_label ui;
     temp_style := temp_style ui; start_btn := start_btn ui;
     stop_btn := stop_btn ui; send_btn := send_btn ui;
     clock_reads := clock_reads ui |}.

Definition set_receiver (w : option SerialWorker) (ui : Window) : Window :=
  {| transmitter := transmitter ui; receiver := w; tx_status := tx_status ui;
     rx_status := rx_status ui; tx_log := tx_log ui; rx_log := rx_log ui;
     status_bar := status_bar ui; temp_label := temp_label ui;
     temp_style := temp_style ui; start_btn := start_btn ui;
     stop_btn := stop_btn ui; send_btn := send_btn ui;
     clock_reads := clock_reads ui |}.

Definition set_tx_status (style : string) (ui : Window) : Window :=
  {| transmitter := transmitter ui; receiver := receiver ui;
     tx_status := style; rx_status := rx_status ui; tx_log := tx_log ui;
     rx_log := rx_log ui; status_bar := status_bar ui;
     temp_label := temp_label ui; temp_style := temp_style ui;
     start_btn := start_btn ui; stop_btn := stop_btn ui;
     send_btn := send_btn ui; clock_reads := clock_reads ui |}.

Definition set_rx_status (style : string) (ui : Window) : Window :=
  {| transmitter := transmitter ui; receiver := receiver ui;
     tx_status := tx_status ui; rx_status := style; tx_log := tx_log ui;
     rx_log := rx_log ui; status_bar := status_bar ui;
     temp_label := temp_label ui; temp_style := temp_style ui;
     start_btn := start_btn ui; stop_btn := stop_btn ui;
     send_btn := send_btn ui; clock_reads := clock_reads ui |}.

Definition set_tx_log (log : list string) (ui : Window) : Window :=
  {| transmitter := transmitter ui; receiver := receiver ui;
     tx_status := tx_status ui; rx_status := rx_status ui; tx_log := log;
     rx_log := rx_log ui; status_bar := status_bar ui;
     temp_label := temp_label ui; temp_style := temp_style ui;
     start_btn := start_btn ui; stop_btn := stop_btn ui;
     send_btn := send_btn ui; clock_reads := clock_reads ui |}.

Definition set_rx_log (log : list string) (ui : Window) : Window :=
  {| transmitter := transmitter ui; receiver := receiver ui;
     tx_status := tx_status ui; rx_status := rx_status ui;
     tx_log := tx_log ui; rx_log := log; status_bar := status_bar ui;
     temp_label := temp_label ui; temp_style := temp_style ui;
     start_btn := start_btn ui; stop_btn := stop_btn ui;
     send_btn := send_btn ui; clock_reads := clock_reads ui |}.

Definition set_status_bar (message : string) (ui : Window) : Window :=
  {| transmitter := transmitter ui; receiver := receiver ui;
     tx_status := tx_status ui; rx_status := rx_status ui;
     tx_log := tx_log ui; rx_log := rx_log ui; status_bar := message;
     temp_label := temp_label ui; temp_style := temp_style ui;
     start_btn := start_btn ui; stop_btn := stop_btn ui;
     send_btn := send_btn ui; clock_reads := clock_reads ui |}.

Definition set_temp (text : string) (style : string) (ui : Window) : Window :=
  {| transmitter := transmitter ui; receiver := receiver ui;
     tx_status := tx_status ui; rx_status := rx_status ui;
     tx_log := tx_log ui; rx_log := rx_log ui; status_bar := status_bar ui;
     temp_label := text; temp_style := style; start_btn := start_btn ui;
     stop_btn := stop_btn ui; send_btn := send_btn ui;
     clock_reads := clock_reads ui |}.

Definition set_buttons (start : bool) (stop : bool) (send : bool) (ui : Window) : Window :=
  {| transmitter := transmitter ui; receiver := receiver ui;
     tx_status := tx_status ui; rx_status := rx_status ui;
     tx_log := tx_log ui; rx_log := rx_log ui; status_bar := status_bar ui;
     temp_label := temp_label ui; temp_style := temp_style ui;
     start_btn := start; stop_btn := stop; send_btn := send;
     clock_reads := clock_reads ui |}.

Definition set_clock_reads (n : nat) (ui : Window) : Window :=
  {| transmitter := transmitter ui; receiver := receiver ui;
     tx_status := tx_status ui; rx_status := rx_status ui;
     tx_log := tx_log ui; rx_log := rx_log ui; status_bar := status_bar ui;
     temp_label := temp_label ui; temp_style := temp_style ui;
     start_btn := start_btn ui; stop_btn := stop_btn ui;
     send_btn := send_btn ui; clock_reads := n |}.

(** The window [init_ui] leaves. *)
Definition init_ui : Window :=
  {| transmitter := None; receiver := None;
     tx_status := "color: red;"; rx_status := "color: red;";
     tx_log := []; rx_log := []; status_bar := "Ready";
     temp_label := "Temperature: --.-" ++ Py.DEGREE ++ "C";
     temp_style := "font-weight: bold; color: blue;";
     start_btn := true; stop_btn := false; send_btn := false;
     clock_reads := 0 |}.

Definition update_status_indicator (device : string) (connected : bool)
    (ui : Window) : Window :=
  let style := if connected then "color: green;" else "color: red;" in
  if (device =? "Transmitter")%string
  then set_tx_status style ui
  else set_rx_status style ui.

Section Handlers.

(** The text of the [n]-th reading of the clock by the window,
    [datetime.now().strftime("%H:%M:%S.%f")[:-3]]. *)
Variable timestamp : nat -> string.

(** Python's floating-point numbers, as for [read_temperature], and their
    rendering by [f"{temperature:.2f}"]. *)
Variable number : Type.
Variable float : string -> option number.
Variable repr : number -> string.
Variable format_2f : number -> string.

Definition log_message (device message : string) (ui : Window) : Window :=
  let formatted_msg := ("[" ++ timestamp (clock_reads ui) ++ "] " ++ message)%string in
  let ui := set_clock_reads (S (clock_reads ui)) ui in
  if (device =? "Transmitter")%string
  then set_tx_log (tx_log ui ++ [formatted_msg]) ui
  else set_rx_log (rx_log ui ++ [formatted_msg]) ui.

Definition update_status (device message : string) (ui : Window) : Window :=
  log_message device message (set_status_bar (device ++ ": " ++ message) ui).

Definition clear_logs (ui : Window) : Window :=
  log_message "System" "Logs cleared" (set_rx_log [] (set_tx_log [] ui)).

(** The slot each signal of a worker is connected to in
    [start_communication]. *)
Definition deliver (ev : event) (ui : Window) : Window :=
  match ev with
  | status_update device message => update_status device message ui
  | message_received device message => log_message device message ui
  | connection_status device status => update_status_indicator device status ui
  end.

(** The signals of a trace, delivered in order. *)
Definition deliver_all (t : list effect) (ui : Window) : Window :=
  fold_left (fun ui ev => deliver ev ui) (signals t) ui.

(** The two workers are created and their threads started; what the threads
    do comes after the handler has returned. *)
Definition start_communication (ui : Window) : Window :=
  set_buttons false true true
    (set_receiver (Some (init RECEIVER_PORT "Receiver"))
       (set_transmitter (Some (init TRANSMITTER_PORT "Transmitter")) ui)).

(** [if worker and worker.isRunning(): worker.stop()] for a worker whose
    thread is in its loop or has returned: the worker after it, and what the
    call has done.  A thread that is still opening or configuring its port
    is the matter of [stop_from]. *)
Definition stop_if_running (worker : option SerialWorker)
  : option SerialWorker * list effect :=
  match worker with
  | Some w =>
      if looping w
      then let '(_, w', t) := stop w in (Some w', t)
      else (Some w, [])
  | None => (None, [])
  end.

(** The handler, followed by the delivery of the signals the two threads
    have emitted on their way out. *)
Definition stop_communication (ui : Window) : Window * list effect :=
  let '(tx, t1) := stop_if_running (transmitter ui) in
  let '(rx, t2) := stop_if_running (receiver ui) in
  let ui := set_buttons true false false
              (set_receiver rx (set_transmitter tx ui)) in
  (deliver_all (t1 ++ t2) ui, t1 ++ t2).

(** The handler of the button that reads and sends the temperature: the
    result, the window, and what the calls on the worker have done.  The
    signals a call emits reach their slots before the call returns.
    [isRunning] is the answer of [self.transmitter.isRunning()]: Qt holds it
    true from [start()] to the return of [run], whatever the worker has
    reached in between. *)
Definition send_temperature (isRunning : bool) (env : temperature_env)
    (ui : Window) : result unit * Window * list effect :=
  let not_running :=
    (Ok tt, log_message "Transmitter" "Error: Transmitter not running" ui, []) in
  match transmitter ui with
  | None => not_running
  | Some tx =>
      if negb isRunning then not_running
      else
        let ui :=
          set_temp "Temperature: Reading..." "font-weight: bold; color: orange;"
            ui in
        let '(r, tx, t1) := read_temperature float repr env tx in
        let ui := deliver_all t1 (set_transmitter (Some tx) ui) in
        match r with
        | Raise e => (Raise e, ui, t1)
        | Ok (Some temperature) =>
            let temp_str := format_2f temperature in
            let ui :=
              set_temp ("Temperature: " ++ temp_str ++ Py.DEGREE ++ "C")
                "font-weight: bold; color: green;" ui in
            let '(r', tx, t2) := send_message temp_str tx in
            let ui := deliver_all t2 (set_transmitter (Some tx) ui) in
            match r' with
            | Raise e => (Raise e, ui, t1 ++ t2)
            | Ok _ =>
                (Ok tt,
                 log_message "System"
                   ("Sending actual temperature: " ++ temp_str
                    ++ Py.DEGREE ++ "C") ui,
                 t1 ++ t2)
            end
        | Ok None =>
            (Ok tt,
             log_message "System" "Failed to read temperature from device"
               (set_temp "Temperature: Error" "font-weight: bold; color: red;"
                  ui),
             t1)
        end
  end.

End Handlers.

End UI.

(** The signals of a trace all name [device]. *)
Definition named (device : string) (t : list effect) : Prop :=
  Forall (fun ev => device_of ev = device) (signals t).

(** The style sheet of an indicator for a connection state. *)
Definition indicator (connected : bool) : string :=
  if connected then "color: green;" else "color: red;".

(** The number of signals of a trace that a slot writes to a log: the
    status and the message signals. *)
Fixpoint logged (t : list effect) : nat :=
  match t with
  | [] => 0
  | Emit (status_update _ _) :: t' | Emit (message_received _ _) :: t' =>
      S (logged t')
  | _ :: t' => logged t'
  end.

(** The window once both threads started by [start_communication] have
    entered their loops. *)
Definition both_running : UI.Window :=
  UI.set_receiver (Some (active RECEIVER_PORT "Receiver"))
    (UI.set_transmitter (Some (active TRANSMITTER_PORT "Transmitter"))
       (UI.start_communication UI.init_ui)).

(** A clock for the examples: the [n]-th reading is [n] milliseconds past
    noon, for [n] below ten. *)
Definition noon (n : nat) : string := "12:00:00.00" ++ Py.str_nat n.

Example split_quote :
  Py.split Py.QUOTE ("+TEST: RX " ++ Py.QUOTE ++ "48" ++ Py.QUOTE ++ " tail")
  = ["+TEST: RX "; "48"; " tail"].
Proof. reflexivity. Qed.

Example split_temp : Py.split "TEMP," "a TEMP,1 TEMP,2" = ["a "; "1 "; "2"].
Proof. reflexivity. Qed.

Example split_ws_ex : Py.split_ws "  +TEST:  TEMP 23.50 " = ["+TEST:"; "TEMP"; "23.50"].
Proof. reflexivity. Qed.

Example strip_ex : Py.strip "  a b  " = "a b".
Proof. reflexivity. Qed.

Example hex_hello : Hex.hex_message "Hello" = "48656C6C6F".
Proof. reflexivity. Qed.

Example decode_hello : Hex.decode_payload "48656C6C6F" = Ok "Hello".
Proof. reflexivity. Qed.

Example decode_odd : Hex.decode_payload "486" = Raise (Hex.fromhex_error 3).
Proof. reflexivity. Qed.

Example decode_dead :
  Hex.decode_payload "DEAD"
  = Raise (UnicodeDecodeError
             "'ascii' codec can't decode byte 0xde in position 0: ordinal not in range(128)").
Proof. reflexivity. Qed.

Example float_23_50 : Decimal_float.float "23.50" = Some (2350 # 100).
Proof. reflexivity. Qed.

Example float_bad : Decimal_float.float "23.5C" = None.
Proof. reflexivity. Qed.

Example float_no_fraction : Decimal_float.float "23." = Some (23 # 1).
Proof. reflexivity. Qed.

Example format_02X_ord_wide :
  map Hex.format_02X_ord [0; 15; 255; 256; 1114111]%N
  = ["00"; "0F"; "FF"; "100"; "10FFFF"].
Proof. reflexivity. Qed.

(** * Properties *)

(** ** Hexadecimal payloads *)

Module Hex_facts.
Import Hex.

Lemma fromhex_format_02X (c : ascii) (pos : nat) (rest : string) :
  fromhex_from pos (format_02X c ++ rest)
  = match fromhex_from (S (S pos)) rest with
    | Ok bs => Ok (String c bs)
    | Raise e => Raise e
    end.
Proof.
  destruct c as [[] [] [] [] [] [] [] []]; reflexivity.
Qed.

Lemma fromhex_join_format (s : string) :
  forall pos, fromhex_from pos (Py.join_map format_02X s) = Ok s.
Proof.
  induction s as [|c s IH]; intros pos; cbn [Py.join_map].
  - reflexivity.
  - rewrite fromhex_format_02X, IH. reflexivity.
Qed.

Lemma hex_char_digit (c : ascii) :
  is_hex_char c = true ->
  Py.c_isspace c = false /\ exists v, digit_value c = Some v.
Proof.
  destruct c as [[] [] [] [] [] [] [] []]; simpl; intros H;
    try discriminate H; split; try reflexivity; eexists; reflexivity.
Qed.

Lemma decode_ascii_text (b : string) :
  Py.all is_ascii b = true -> decode_ascii b = Ok b.
Proof.
  intros H. unfold decode_ascii.
  assert (E : forall pos, first_non_ascii pos b = None).
  { induction b as [|c b IH]; intros pos; [reflexivity |].
    cbn [Py.all] in H. apply andb_prop in H as [Hc Hb].
    cbn [first_non_ascii]. rewrite Hc. apply IH. exact Hb. }
  rewrite E. reflexivity.
Qed.

(** Bytes one of which is not ASCII are rejected. *)
Lemma decode_ascii_bytes (b : string) :
  Py.all is_ascii b = false ->
  exists m, decode_ascii b = Raise (UnicodeDecodeError m).
Proof.
  intros H. unfold decode_ascii.
  assert (E : forall pos, exists c p, first_non_ascii pos b = Some (c, p)).
  { induction b as [|c b IH]; intros pos; [discriminate H |].
    cbn [Py.all] in H. cbn [first_non_ascii].
    destruct (is_ascii c); [apply IH; exact H |].
    eexists; eexists; reflexivity. }
  destruct (E 0) as [c [pos ->]]. eexists; reflexivity.
Qed.

(** An odd number of hexadecimal digits is rejected. *)
Lemma fromhex_odd (n : nat) :
  forall s pos,
    String.length s = S (2 * n) ->
    Py.all is_hex_char s = true ->
    exists e, fromhex_from pos s = Raise e.
Proof.
  induction n as [|n IH]; intros s pos Hlen Hall.
  - destruct s as [|c [|d s]]; simpl in Hlen; try discriminate.
    simpl in Hall. apply andb_prop in Hall as [Hc _].
    destruct (hex_char_digit c Hc) as [Hsp [v Hv]].
    simpl. rewrite Hsp, Hv. eexists; reflexivity.
  - destruct s as [|c [|d s]]; simpl in Hlen; try discriminate.
    simpl in Hall.
    apply andb_prop in Hall as [Hc Hall]. apply andb_prop in Hall as [Hd Hall].
    destruct (hex_char_digit c Hc) as [Hsp [v Hv]].
    destruct (hex_char_digit d Hd) as [_ [u Hu]].
    destruct (IH s (S (S pos))) as [e He]; [lia | exact Hall |].
    exists e. simpl. rewrite Hsp, Hv, Hu.
    simpl in He. rewrite He. reflexivity.
Qed.

End Hex_facts.

(** C2, as the code has it: the round trip holds for the ASCII payloads that
    hold at least one character other than a hexadecimal digit, and a
    payload made of hexadecimal digits only is sent unchanged. *)
Theorem hex_round_trip :
  (forall text : string,
      Py.all Hex.is_ascii text = true ->
      Py.all Hex.is_hex_char text = false ->
      Hex.decode_payload (Hex.hex_message text) = Ok text)
  /\ (forall payload : string,
         Py.all Hex.is_hex_char payload = true ->
         Hex.hex_message payload = payload).
Proof.
  split.
  - intros text Hascii Hhex.
    unfold Hex.decode_payload, Hex.hex_message, Hex.fromhex.
    rewrite Hhex, Hex_facts.fromhex_join_format.
    apply Hex_facts.decode_ascii_text. exact Hascii.
  - intros payload Hhex. unfold Hex.hex_message. rewrite Hhex. reflexivity.
Qed.

Lemma hex_round_trip_witness :
  Hex.decode_payload (Hex.hex_message "23.50") = Ok "23.50"
  /\ Hex.hex_message "DEAD" = "DEAD".
Proof.
  split.
  - apply (proj1 hex_round_trip); reflexivity.
  - apply (proj2 hex_round_trip); reflexivity.
Defined.

(** C2, as stated, fails on an ASCII text made of hexadecimal digits: it
    is sent as it is, and what the receiver decodes is not the text. *)
Lemma hex_round_trip_counterexample :
  Py.all Hex.is_ascii "41" = true
  /\ Hex.decode_payload (Hex.hex_message "41") = Ok "A"
  /\ Hex.decode_payload (Hex.hex_message "41") <> Ok "41".
Proof.
  repeat split; try reflexivity. discriminate.
Qed.

(** ** Splitting strings *)

Module Py_facts.
Import Py.

Lemma append_assoc (a b c : string) : ((a ++ b) ++ c = a ++ (b ++ c))%string.
Proof. induction a as [|x a IH]; simpl; [reflexivity | now rewrite IH]. Qed.

Lemma append_empty_r (a : string) : (a ++ "")%string = a.
Proof. induction a as [|x a IH]; simpl; [reflexivity | now rewrite IH]. Qed.

Lemma length_append (a b : string) :
  String.length (a ++ b) = String.length a + String.length b.
Proof. induction a as [|x a IH]; simpl; [reflexivity | now rewrite IH]. Qed.

Lemma prefix_self_append (sep post : string) :
  String.prefix sep (sep ++ post) = true.
Proof.
  induction sep as [|x sep IH]; simpl.
  - destruct post; reflexivity.
  - destruct (ascii_dec x x) as [_|N]; [exact IH | now elim N].
Qed.

(** Whether [sep] is a prefix only depends on the first [length sep]
    characters. *)
Lemma prefix_append_long (sep : string) :
  forall a b, String.length sep <= String.length a ->
              String.prefix sep (a ++ b) = String.prefix sep a.
Proof.
  induction sep as [|x sep IH]; intros a b Hlen.
  - destruct a, b; reflexivity.
  - destruct a as [|y a]; simpl in Hlen; [lia |].
    simpl. destruct (ascii_dec x y); [apply IH; lia | reflexivity].
Qed.

Lemma contains_false_inv (sep : string) (c : ascii) (s : string) :
  contains sep (String c s) = false ->
  String.prefix sep (String c s) = false /\ contains sep s = false.
Proof.
  cbn [contains]. intros H. apply orb_false_elim in H. exact H.
Qed.

Lemma contains_append (sep post : string) :
  forall pre, contains sep (pre ++ sep ++ post) = true.
Proof.
  induction pre as [|x pre IH].
  - cbn [append]. destruct (sep ++ post)%string eqn:E.
    + cbn [contains]. rewrite <- E, prefix_self_append. reflexivity.
    + cbn [contains]. rewrite <- E, prefix_self_append. reflexivity.
  - cbn [append contains]. rewrite IH. apply orb_true_r.
Qed.

(** The characters of a separator just matched are passed over. *)
Lemma fields_skip (sep post : string) :
  forall x, fields sep (x ++ post) (String.length x) = fields sep post 0.
Proof.
  induction x as [|c x IH]; [reflexivity | exact IH].
Qed.

(** Without an occurrence of the separator there is one field. *)
Lemma fields_none (sep : string) :
  forall s, contains sep s = false -> fields sep s 0 = (s, []).
Proof.
  induction s as [|c s IH]; intros H.
  - reflexivity.
  - apply contains_false_inv in H as [Hp Hc].
    cbn [fields]. rewrite Hp, (IH Hc). reflexivity.
Qed.

Lemma split_none (sep s : string) :
  contains sep s = false -> split sep s = [s].
Proof. intros H. unfold split. rewrite (fields_none _ _ H). reflexivity. Qed.

(** The first field ends at the first occurrence of the separator
    [sep0 ++ c]: no occurrence starts inside [pre]. *)
Lemma split_first (sep0 : string) (c : ascii) (post : string) :
  let sep := (sep0 ++ String c EmptyString)%string in
  forall pre,
    contains sep (pre ++ sep0) = false ->
    split sep (pre ++ sep ++ post) = pre :: split sep post.
Proof.
  intros sep. unfold split.
  assert (Hlen : String.length sep = S (String.length sep0)).
  { unfold sep. rewrite length_append. simpl. lia. }
  induction pre as [|b pre IH]; intros H.
  - cbn [append].
    destruct sep as [|a sep'] eqn:E; [discriminate Hlen |].
    cbn [append fields].
    replace (String.prefix (String a sep') (String a (sep' ++ post)))
      with true by (symmetry; apply (prefix_self_append (String a sep') post)).
    simpl in Hlen. injection Hlen as Hlen.
    replace (String.length (String a sep') - 1) with (String.length sep')
      by (simpl; lia).
    rewrite fields_skip. destruct (fields (String a sep') post 0). reflexivity.
  - cbn [append] in H. apply contains_false_inv in H as [Hp Hc].
    cbn [append fields].
    assert (Hp' : String.prefix sep (String b (pre ++ sep ++ post)) = false).
    { assert (E : (pre ++ sep ++ post
                   = (pre ++ sep0) ++ (String c "" ++ post))%string)
        by (unfold sep; rewrite !append_assoc; reflexivity).
      rewrite E, <- Hp.
      change (String b ((pre ++ sep0) ++ String c "" ++ post))%string
        with (String b (pre ++ sep0) ++ (String c "" ++ post))%string.
      apply prefix_append_long. rewrite Hlen. simpl. rewrite length_append. lia. }
    rewrite Hp'. specialize (IH Hc).
    destruct (fields sep (pre ++ sep ++ post) 0) as [f fs].
    injection IH as -> ->. reflexivity.
Qed.

Lemma contains_nonempty (sep s : string) :
  sep <> EmptyString -> contains sep s = true -> is_empty s = false.
Proof.
  intros Hsep H. destruct s; [| reflexivity].
  destruct sep; [now elim Hsep | discriminate H].
Qed.

End Py_facts.

(** ** Received packets *)

Module Packet_facts.
Import Py Hex.

Lemma char_in_cons (b c : ascii) (s : string) :
  char_in b (String c s) = true -> stray b = true -> stray c = false ->
  char_in b s = true.
Proof.
  cbn [char_in]. intros H Hb Hc.
  destruct (Ascii.eqb b c) eqn:E; [| exact H].
  apply Ascii.eqb_eq in E. subst. congruence.
Qed.

(** A payload with a stray character is rejected. *)
Lemma fromhex_malformed (n : nat) :
  forall s pos b,
    String.length s <= n -> char_in b s = true -> stray b = true ->
    exists e, fromhex_from pos s = Raise e.
Proof.
  induction n as [|n IH]; intros s pos b Hlen Hin Hb.
  - destruct s; [discriminate Hin | simpl in Hlen; lia].
  - destruct s as [|c s]; [discriminate Hin |].
    simpl in Hlen. cbn [fromhex_from].
    destruct (c_isspace c) eqn:Hsp.
    + apply (IH s (S pos) b); [lia | | exact Hb].
      apply (char_in_cons b c); auto.
      unfold stray. rewrite Hsp. now destruct (digit_value c).
    + destruct (digit_value c) as [top|] eqn:Hc; [| eexists; reflexivity].
      destruct s as [|d s]; [eexists; reflexivity |].
      destruct (digit_value d) as [bot|] eqn:Hd; [| eexists; reflexivity].
      simpl in Hlen.
      destruct (IH s (S (S pos)) b) as [e He]; [lia | | exact Hb |].
      * apply (char_in_cons b d); [| exact Hb | unfold stray; now rewrite Hd].
        apply (char_in_cons b c); [exact Hin | exact Hb |].
        unfold stray. now rewrite Hc.
      * exists e. rewrite He. reflexivity.
Qed.

(** The payload is the text between the first two quote characters. *)
Lemma decode_packet_between_quotes (a p b : string) :
  contains QUOTE a = false -> contains QUOTE p = false ->
  decode_packet (a ++ QUOTE ++ p ++ QUOTE ++ b) = decode_payload p.
Proof.
  intros Ha Hp. unfold decode_packet.
  assert (F : forall post pre,
             contains QUOTE pre = false ->
             split QUOTE (pre ++ QUOTE ++ post) = pre :: split QUOTE post).
  { intros post pre H.
    apply (Py_facts.split_first EmptyString (ascii_of_nat 34) post pre).
    rewrite Py_facts.append_empty_r. exact H. }
  rewrite (F _ a Ha), (F _ p Hp). reflexivity.
Qed.

Lemma decode_packet_no_quote (response : string) :
  contains QUOTE response = false ->
  decode_packet response = Raise (IndexError "list index out of range").
Proof.
  intros H. unfold decode_packet. rewrite (Py_facts.split_none _ _ H).
  reflexivity.
Qed.

End Packet_facts.

(** C5: a receiver turns a packet line into a message signal holding the
    decoded payload, the text between the first two quote characters, read as
    hexadecimal byte pairs and then as ASCII; when the decoding fails (no
    quote, a stray character, an odd number of digits, a byte that is not
    ASCII) it emits the failure as a status instead and no message signal,
    and the worker is left as it was. *)
Theorem packet_receipt :
  forall (w : SerialWorker) (raw : string),
    device_type w = "Receiver" ->
    Py.contains "+TEST: RX" (Hex.decode_line raw) = true ->
    receive (Line raw) w
    = (Ok tt, w,
       [Emit (status_update "Receiver" ("Received: " ++ Hex.decode_line raw));
        match decode_packet (Hex.decode_line raw) with
        | Ok ascii_text =>
            Emit (message_received "Receiver" ("Received message: " ++ ascii_text))
        | Raise e =>
            Emit (status_update "Receiver" ("Failed to decode message: " ++ str e))
        end])
    /\ (forall a p b : string,
           Hex.decode_line raw = (a ++ Py.QUOTE ++ p ++ Py.QUOTE ++ b)%string ->
           Py.contains Py.QUOTE a = false ->
           Py.contains Py.QUOTE p = false ->
           decode_packet (Hex.decode_line raw) = Hex.decode_payload p
           /\ (forall n, String.length p = S (2 * n) ->
                         Py.all Hex.is_hex_char p = true ->
                         exists e, decode_packet (Hex.decode_line raw) = Raise e)
           /\ (forall c, Py.char_in c p = true ->
                         Hex.stray c = true ->
                         exists e, decode_packet (Hex.decode_line raw) = Raise e)
           /\ (forall text,
                  p = Py.join_map Hex.format_02X text ->
                  Py.all Hex.is_ascii text = true ->
                  decode_packet (Hex.decode_line raw) = Ok text)
           /\ (forall bytes,
                  Hex.fromhex p = Ok bytes ->
                  (Py.all Hex.is_ascii bytes = true ->
                   decode_packet (Hex.decode_line raw) = Ok bytes)
                  /\ (Py.all Hex.is_ascii bytes = false ->
                      exists m,
                        decode_packet (Hex.decode_line raw)
                        = Raise (UnicodeDecodeError m)))
           /\ (forall bytes,
                  p = Py.join_map Hex.format_02X bytes ->
                  Py.all Hex.is_ascii bytes = false ->
                  exists m,
                    decode_packet (Hex.decode_line raw)
                    = Raise (UnicodeDecodeError m)))
    /\ (Py.contains Py.QUOTE (Hex.decode_line raw) = false ->
        exists e, decode_packet (Hex.decode_line raw) = Raise e).
Proof.
  intros w raw Hdev Hrx. set (response := Hex.decode_line raw) in *.
  split; [| split].
  - unfold receive, bind, gets, emit, tell, try_except, lift, ret.
    rewrite Hdev. fold response.
    rewrite (Py_facts.contains_nonempty "+TEST: RX" response);
      [| discriminate | exact Hrx].
    rewrite Hrx. cbn [String.eqb Ascii.eqb Bool.eqb andb app Exception].
    destruct (decode_packet response); reflexivity.
  - intros a p b E Ha Hp.
    rewrite E, (Packet_facts.decode_packet_between_quotes a p b Ha Hp).
    assert (Hbytes : forall bytes,
               Hex.fromhex p = Ok bytes ->
               (Py.all Hex.is_ascii bytes = true ->
                Hex.decode_payload p = Ok bytes)
               /\ (Py.all Hex.is_ascii bytes = false ->
                   exists m, Hex.decode_payload p = Raise (UnicodeDecodeError m))).
    { intros bytes Hf. unfold Hex.decode_payload. rewrite Hf. split.
      - apply Hex_facts.decode_ascii_text.
      - apply Hex_facts.decode_ascii_bytes. }
    split; [reflexivity | split; [| split; [| split; [| split]]]].
    + intros n Hlen Hall. unfold Hex.decode_payload, Hex.fromhex.
      destruct (Hex_facts.fromhex_odd n p 0 Hlen Hall) as [e He].
      exists e. rewrite He. reflexivity.
    + intros c Hin Hc. unfold Hex.decode_payload, Hex.fromhex.
      destruct (Packet_facts.fromhex_malformed (String.length p) p 0 c
                  (le_n _) Hin Hc) as [e He].
      exists e. rewrite He. reflexivity.
    + intros text -> Hascii.
      exact (proj1 (Hbytes text (Hex_facts.fromhex_join_format text 0)) Hascii).
    + exact Hbytes.
    + intros bytes -> Hascii.
      exact (proj2 (Hbytes bytes (Hex_facts.fromhex_join_format bytes 0)) Hascii).
  - intros H. eexists. apply Packet_facts.decode_packet_no_quote. exact H.
Qed.

Lemma packet_receipt_witness :
  receive (Line ("+TEST: RX " ++ Py.QUOTE ++ "48656C6C6F" ++ Py.QUOTE ++ Py.CRLF))
          (init "/dev/cu.usbserial-1120" "Receiver")
  = (Ok tt, init "/dev/cu.usbserial-1120" "Receiver",
     [Emit (status_update "Receiver"
              ("Received: +TEST: RX " ++ Py.QUOTE ++ "48656C6C6F" ++ Py.QUOTE));
      Emit (message_received "Receiver" "Received message: Hello")])
  /\ receive (Line ("+TEST: RX " ++ Py.QUOTE ++ "DEAD" ++ Py.QUOTE ++ Py.CRLF))
             (init "/dev/cu.usbserial-1120" "Receiver")
     = (Ok tt, init "/dev/cu.usbserial-1120" "Receiver",
        [Emit (status_update "Receiver"
                 ("Received: +TEST: RX " ++ Py.QUOTE ++ "DEAD" ++ Py.QUOTE));
         Emit (status_update "Receiver"
                 "Failed to decode message: 'ascii' codec can't decode byte 0xde in position 0: ordinal not in range(128)")])
  /\ (exists m,
         decode_packet
           (Hex.decode_line
              ("+TEST: RX " ++ Py.QUOTE ++ "DEAD" ++ Py.QUOTE ++ Py.CRLF))
         = Raise (UnicodeDecodeError m)).
Proof.
  split; [| split].
  - exact (proj1 (packet_receipt (init "/dev/cu.usbserial-1120" "Receiver")
                    ("+TEST: RX " ++ Py.QUOTE ++ "48656C6C6F" ++ Py.QUOTE ++ Py.CRLF)
                    eq_refl eq_refl)).
  - exact (proj1 (packet_receipt (init "/dev/cu.usbserial-1120" "Receiver")
                    ("+TEST: RX " ++ Py.QUOTE ++ "DEAD" ++ Py.QUOTE ++ Py.CRLF)
                    eq_refl eq_refl)).
  - destruct (proj1 (proj2 (packet_receipt
                              (init "/dev/cu.usbserial-1120" "Receiver")
                              ("+TEST: RX " ++ Py.QUOTE ++ "DEAD" ++ Py.QUOTE
                               ++ Py.CRLF)
                              eq_refl eq_refl))
                "+TEST: RX " "DEAD" "" eq_refl eq_refl eq_refl)
      as (_ & _ & _ & _ & _ & H).
    exact (H (String (ascii_of_nat 222) (String (ascii_of_nat 173) ""))
             eq_refl eq_refl).
Defined.

(** ** The active loop *)

Module Loop_facts.

Lemma writes_app (t u : list effect) : writes (t ++ u) = writes t ++ writes u.
Proof.
  induction t as [|[] t IH]; simpl; try exact IH; [reflexivity | now rewrite IH].
Qed.

Lemma received_app (t u : list effect) :
  received (t ++ u) = received t ++ received u.
Proof.
  induction t as [|[[]| | | | | |] t IH]; simpl; try exact IH;
    [reflexivity | now rewrite IH].
Qed.

Lemma sleeps_app (t u : list effect) : sleeps (t ++ u) = sleeps t ++ sleeps u.
Proof.
  induction t as [|[] t IH]; simpl; try exact IH; [reflexivity | now rewrite IH].
Qed.

(** The receive half leaves the worker as it is, writes nothing and does not
    sleep; only a receiver emits a message signal there; only a failure of
    the port makes it raise. *)
Lemma receive_cases (p : poll) (w : SerialWorker) :
  match p with
  | InWaitingFails e | ReadlineFails e => receive p w = (Raise e, w, [])
  | NoData | Line _ =>
      exists t, receive p w = (Ok tt, w, t)
                /\ writes t = [] /\ sleeps t = []
                /\ ((device_type w =? "Receiver")%string = false -> received t = [])
  end.
Proof.
  destruct p as [e| |e|raw]; try reflexivity.
  - exists []. repeat split; reflexivity.
  - unfold receive, bind, gets, emit, tell, try_except, lift, ret.
    destruct (Py.is_empty _).
    + exists []. repeat split; reflexivity.
    + destruct (device_type w =? "Receiver")%string eqn:Hdev; cbn [andb].
      * destruct (Py.contains _ _).
        -- destruct (decode_packet _); eexists; (split; [reflexivity |]);
             repeat split; try reflexivity; intros; discriminate.
        -- eexists; split; [reflexivity |]. repeat split; reflexivity.
      * eexists; split; [reflexivity |]. repeat split; reflexivity.
Qed.

Lemma transmit_cases (env : tick) (w : SerialWorker) :
  transmit env w
  = match transmits env w with
    | Some m =>
        match tx_fault env with
        | Some e => (Raise e, w, [])
        | None =>
            (Ok tt, set_last_send_time (now env) w,
             [Write (transmit_command m);
              Emit (message_received (device_type w) ("Sent message: " ++ m))])
        end
    | None => (Ok tt, w, [])
    end.
Proof.
  unfold transmit, transmits, gate_open, bind, gets, emit, tell, modify, ret,
    serial_write, port_call, raise.
  destruct (device_type w =? "Transmitter")%string; [| reflexivity].
  destruct (pending w) as [m|]; [| reflexivity].
  destruct (Qle_bool _ _); [| reflexivity].
  destruct (tx_fault env); reflexivity.
Qed.

(** An iteration, case by case: [tr] is the trace of its receive half. *)
Lemma iteration_cases (env : tick) (w : SerialWorker) :
  exists tr,
    writes tr = [] /\ sleeps tr = []
    /\ ((device_type w =? "Receiver")%string = false -> received tr = [])
    /\ iteration env w
       = match fault env w with
         | Some e =>
             (Ok tt, w,
              tr ++ [Emit (status_update (device_type w) ("Error: " ++ str e));
                     Sleep 1])
         | None =>
             match transmits env w with
             | Some m =>
                 (Ok tt, set_last_send_time (now env) w,
                  tr ++ [Write (transmit_command m);
                         Emit (message_received (device_type w)
                                 ("Sent message: " ++ m));
                         Sleep (1#10)])
             | None => (Ok tt, w, tr ++ [Sleep (1#10)])
             end
         end.
Proof.
  pose proof (receive_cases (rx env) w) as R.
  pose proof (transmit_cases env w) as T.
  unfold iteration, fault, bind, gets, try_except, Exception, emit, sleep, tell.
  destruct (rx env) as [e| |e|raw].
  - exists []. rewrite R. repeat split; reflexivity.
  - destruct R as [tr (R & Hw & Hs & Hr)]. exists tr. rewrite R, T.
    repeat split; try assumption.
    destruct (transmits env w); [destruct (tx_fault env) |];
      cbn [app]; rewrite ?app_nil_r; reflexivity.
  - exists []. rewrite R. repeat split; reflexivity.
  - destruct R as [tr (R & Hw & Hs & Hr)]. exists tr. rewrite R, T.
    repeat split; try assumption.
    destruct (transmits env w); [destruct (tx_fault env) |];
      cbn [app]; rewrite ?app_nil_r; reflexivity.
Qed.

End Loop_facts.

Module Survival.
Import Loop_facts.

(** Whatever it meets, an iteration returns, touches at most the time of the
    last send, and ends with its one sleep. *)
Lemma iteration_returns (env : tick) (w : SerialWorker) :
  exists w' t,
    iteration env w = (Ok tt, w', t)
    /\ (w' = w \/ w' = set_last_send_time (now env) w)
    /\ length (sleeps t) = 1.
Proof.
  destruct (iteration_cases env w) as [tr (Hw & Hs & _ & E)].
  rewrite E.
  destruct (fault env w); [| destruct (transmits env w)];
    eexists; eexists; (split; [reflexivity |]);
    rewrite sleeps_app, Hs; (split; [auto | reflexivity]).
Qed.

Lemma loop_runs_every_tick (ticks : list tick) :
  forall w, running w = true -> looping w = true ->
    exists w' t,
      loop ticks w = (Ok tt, w', t)
      /\ running w' = true /\ looping w' = true
      /\ length (sleeps t) = length ticks.
Proof.
  induction ticks as [|env ticks IH]; intros w Hrun Halive.
  - exists w, []. repeat split; assumption.
  - destruct (iteration_returns env w) as [w1 [t1 (E1 & Hw1 & Hs1)]].
    assert (Hrun1 : running w1 = true) by (destruct Hw1; subst; exact Hrun).
    assert (Halive1 : looping w1 = true) by (destruct Hw1; subst; exact Halive).
    destruct (IH w1 Hrun1 Halive1) as [w2 [t2 (E2 & Hrun2 & Halive2 & Hs2)]].
    exists w2, (t1 ++ t2).
    cbn [loop]. unfold bind at 1, loop_step, bind, gets.
    rewrite Halive, Hrun. cbn [app]. rewrite E1, E2.
    repeat split; try assumption.
    rewrite sleeps_app, length_app. cbn [length]. lia.
Qed.

End Survival.

(** C8: an iteration that meets an exception emits it as an error status,
    sleeps one second and leaves the worker, its [running] flag included, as
    it was; and a loop that is running executes every iteration it is given
    the time for, whatever exceptions they meet. *)
Theorem loop_survives_exceptions :
  forall (ticks : list tick) (w : SerialWorker),
    running w = true -> looping w = true ->
    (forall env e,
        fault env w = Some e ->
        exists tr,
          loop_step env w
          = (Ok tt, w,
             tr ++ [Emit (status_update (device_type w) ("Error: " ++ str e));
                    Sleep 1]))
    /\ (exists w' t,
           loop ticks w = (Ok tt, w', t)
           /\ running w' = true /\ looping w' = true
           /\ length (sleeps t) = length ticks).
Proof.
  intros ticks w Hrun Halive. split.
  - intros env e Hf.
    destruct (Loop_facts.iteration_cases env w) as [tr (_ & _ & _ & E)].
    exists tr. unfold loop_step, bind, gets. rewrite Halive, Hrun.
    cbn [app]. rewrite E, Hf. reflexivity.
  - apply Survival.loop_runs_every_tick; assumption.
Qed.

Lemma loop_survives_exceptions_witness :
  (exists tr,
      loop_step (unplugged 10) transmitter
      = (Ok tt, transmitter,
         tr ++ [Emit (status_update "Transmitter" "Error: device disconnected");
                Sleep 1]))
  /\ (exists w' t,
         loop [unplugged 10; idle 11; unplugged 12] transmitter = (Ok tt, w', t)
         /\ running w' = true /\ looping w' = true
         /\ length (sleeps t) = 3).
Proof.
  destruct (loop_survives_exceptions [unplugged 10; idle 11; unplugged 12]
              transmitter eq_refl eq_refl)
    as [H1 H2].
  split; [exact (H1 (unplugged 10) _ eq_refl) | exact H2].
Defined.

(** ** The pending message *)

Module Pending_facts.
Import Loop_facts.

Lemma exit_loop_cases (w : SerialWorker) :
  exit_loop w
  = if is_connected w
    then (Ok tt, set_looping false (set_serial (Some {| is_open := false |}) w),
          [Close; Emit (status_update (device_type w) "Disconnected");
           Emit (connection_status (device_type w) false)])
    else (Ok tt, set_looping false w, []).
Proof.
  unfold exit_loop, disconnect, bind, gets, modify, emit, tell, ret.
  destruct (is_connected w); reflexivity.
Qed.

Lemma transmits_pending (env : tick) (w : SerialWorker) (m : string) :
  transmits env w = Some m ->
  message_to_send w = Some m /\ m <> EmptyString /\ gate_open env w = true.
Proof.
  unfold transmits, pending.
  destruct (device_type w =? "Transmitter")%string; [| discriminate].
  destruct (message_to_send w) as [m'|]; [| discriminate].
  destruct m' as [|c m']; cbn [Py.is_empty]; [discriminate |].
  destruct (gate_open env w); [| discriminate].
  intros [= <-]. repeat split. discriminate.
Qed.

(** One test of the loop by a transmitter: it returns, keeps the role, the
    pending message and the interval, and either sends nothing and keeps the
    time of the last send, or sends the message the branch fires for. *)
Lemma loop_step_transmitter (env : tick) (w : SerialWorker) :
  device_type w = "Transmitter" ->
  exists w' t,
    loop_step env w = (Ok tt, w', t)
    /\ device_type w' = "Transmitter"
    /\ message_to_send w' = message_to_send w
    /\ send_interval w' = send_interval w
    /\ (running w = true -> looping w = true ->
        running w' = true /\ looping w' = true)
    /\ ((writes t = [] /\ received t = []
         /\ last_send_time w' = last_send_time w)
        \/ (exists m,
               transmits env w = Some m
               /\ writes t = [transmit_command m]
               /\ received t
                  = [message_received "Transmitter" ("Sent message: " ++ m)])).
Proof.
  intros Hdev. unfold loop_step, bind, gets.
  destruct (looping w) eqn:Halive.
  - destruct (running w) eqn:Hrun; cbn [app].
    + destruct (iteration_cases env w) as [tr (Hw & Hs & Hr & E)].
      rewrite Hdev in Hr. specialize (Hr eq_refl).
      rewrite E, Hdev.
      destruct (fault env w); [| destruct (transmits env w) as [m|]];
        eexists; eexists; (split; [reflexivity |]);
        rewrite writes_app, received_app, Hw, Hr;
        repeat split; try assumption; try reflexivity.
      * left. repeat split.
      * right. exists m. repeat split.
      * left. repeat split.
    + rewrite exit_loop_cases.
      destruct (is_connected w); eexists; eexists; (split; [reflexivity |]);
        repeat split; try assumption; try discriminate; left; repeat split.
  - exists w, []. repeat split; try assumption; try discriminate.
    left. repeat split.
Qed.

(** With [m] pending, whatever a transmitter sends is [m]. *)
Lemma loop_sends_pending (ticks : list tick) :
  forall (w : SerialWorker) (m : string),
    device_type w = "Transmitter" ->
    message_to_send w = Some m ->
    exists w' t,
      loop ticks w = (Ok tt, w', t)
      /\ device_type w' = "Transmitter"
      /\ message_to_send w' = Some m
      /\ (running w = true -> looping w = true ->
          running w' = true /\ looping w' = true)
      /\ Forall (eq (transmit_command m)) (writes t)
      /\ Forall (eq (message_received "Transmitter" ("Sent message: " ++ m)))
           (received t).
Proof.
  induction ticks as [|env ticks IH]; intros w m Hdev Hmsg.
  - exists w, []. repeat split; try assumption; constructor.
  - destruct (loop_step_transmitter env w Hdev)
      as [w1 [t1 (E1 & Hdev1 & Hmsg1 & _ & Hrun1 & Hsent)]].
    rewrite Hmsg in Hmsg1.
    destruct (IH w1 m Hdev1 Hmsg1) as [w2 [t2 (E2 & Hdev2 & Hmsg2 & Hrun2 & Hw2 & Hr2)]].
    exists w2, (t1 ++ t2). cbn [loop]. unfold bind. rewrite E1, E2.
    rewrite writes_app, received_app.
    repeat split; try assumption.
    + apply Hrun2; apply Hrun1; assumption.
    + apply Hrun2; apply Hrun1; assumption.
    + apply Forall_app. split; [| exact Hw2].
      destruct Hsent as [(-> & _ & _) | [m' (Ht & -> & _)]]; [constructor |].
      apply transmits_pending in Ht as [Ht _].
      rewrite Hmsg in Ht. injection Ht as <-. repeat constructor.
    + apply Forall_app. split; [| exact Hr2].
      destruct Hsent as [(_ & -> & _) | [m' (Ht & _ & ->)]]; [constructor |].
      apply transmits_pending in Ht as [Ht _].
      rewrite Hmsg in Ht. injection Ht as <-. repeat constructor.
Qed.

Lemma gate_open_ext (env : tick) (w w' : SerialWorker) :
  send_interval w' = send_interval w ->
  last_send_time w' = last_send_time w ->
  gate_open env w' = gate_open env w.
Proof. unfold gate_open. now intros -> ->. Qed.

(** While the branch does not fire, a transmitter sends nothing. *)
Lemma loop_sends_nothing (ticks : list tick) :
  forall w : SerialWorker,
    device_type w = "Transmitter" ->
    (pending w = None \/ Forall (fun env => gate_open env w = false) ticks) ->
    exists w' t,
      loop ticks w = (Ok tt, w', t)
      /\ device_type w' = "Transmitter"
      /\ message_to_send w' = message_to_send w
      /\ (running w = true -> looping w = true ->
          running w' = true /\ looping w' = true)
      /\ writes t = [] /\ received t = [].
Proof.
  induction ticks as [|env ticks IH]; intros w Hdev Hquiet.
  - exists w, []. repeat split; try assumption.
  - destruct (loop_step_transmitter env w Hdev)
      as [w1 [t1 (E1 & Hdev1 & Hmsg1 & Hint1 & Hrun1 & Hsent)]].
    assert (Hnone : transmits env w = None).
    { unfold transmits. rewrite Hdev. cbn [String.eqb Ascii.eqb Bool.eqb].
      destruct Hquiet as [-> | Hall]; [reflexivity |].
      inversion Hall as [|? ? Hg _]; subst. rewrite Hg.
      now destruct (pending w). }
    destruct Hsent as [(Hw1 & Hr1 & Hlast1) | [m (Ht & _)]]; [| congruence].
    assert (Hquiet1 : pending w1 = None
                      \/ Forall (fun env => gate_open env w1 = false) ticks).
    { destruct Hquiet as [Hp | Hall].
      - left. unfold pending in *. now rewrite Hmsg1.
      - right. inversion Hall as [|? ? _ Hall']; subst.
        eapply Forall_impl; [| exact Hall'].
        intros e He. cbn beta in *.
        now rewrite (gate_open_ext e w w1 Hint1 Hlast1). }
    destruct (IH w1 Hdev1 Hquiet1) as [w2 [t2 (E2 & Hdev2 & Hmsg2 & Hrun2 & Hw2 & Hr2)]].
    exists w2, (t1 ++ t2). cbn [loop]. unfold bind. rewrite E1, E2.
    rewrite writes_app, received_app, Hw1, Hr1, Hw2, Hr2.
    repeat split; try assumption; try congruence.
    + apply Hrun2; apply Hrun1; assumption.
    + apply Hrun2; apply Hrun1; assumption.
Qed.

End Pending_facts.

(** C10: while the empty string is the pending message a transmitter writes
    nothing to the port and emits no message signal, although the test for
    hexadecimal digits holds of the empty string. *)
Theorem empty_message_never_sent :
  forall (ticks : list tick) (w : SerialWorker),
    device_type w = "Transmitter" ->
    message_to_send w = Some "" ->
    Py.all Hex.is_hex_char "" = true
    /\ exists w' t,
         loop ticks w = (Ok tt, w', t)
         /\ writes t = [] /\ received t = []
         /\ message_to_send w' = Some "".
Proof.
  intros ticks w Hdev Hmsg. split; [reflexivity |].
  destruct (Pending_facts.loop_sends_nothing ticks w Hdev)
    as [w' [t (E & _ & Hmsg' & _ & Hw & Hr)]].
  - left. unfold pending. rewrite Hmsg. reflexivity.
  - exists w', t. repeat split; try assumption. congruence.
Qed.

Lemma empty_message_never_sent_witness :
  Py.all Hex.is_hex_char "" = true
  /\ exists w' t,
       loop [idle 1700000000; idle 1700000005]
         (set_message_to_send (Some "") transmitter)
       = (Ok tt, w', t)
       /\ writes t = [] /\ received t = []
       /\ message_to_send w' = Some "".
Proof.
  exact (empty_message_never_sent [idle 1700000000; idle 1700000005]
           (set_message_to_send (Some "") transmitter) eq_refl eq_refl).
Defined.

(** C1, as the code has it: of two messages queued while the send interval
    keeps the gate closed, the first is never transmitted; every
    transmission from then on carries the second, which stays pending after
    it has been sent and is sent again at every later iteration that finds
    the interval elapsed. *)
Theorem latest_message_only :
  forall (w : SerialWorker) (m1 m2 : string) (mid rest : list tick),
    device_type w = "Transmitter" ->
    running w = true -> looping w = true ->
    Forall (fun env => gate_open env w = false) mid ->
    exists w' t,
      (send_message m1 ;; loop mid ;; send_message m2 ;; loop rest) w
      = (Ok tt, w', t)
      /\ Forall (eq (transmit_command m2)) (writes t)
      /\ Forall (eq (message_received "Transmitter" ("Sent message: " ++ m2)))
           (received t)
      /\ message_to_send w' = Some m2
      /\ (forall env,
             transmits env w' = Some m2 ->
             quiet (rx env) = true -> tx_fault env = None ->
             exists tr,
               loop_step env w'
               = (Ok tt, set_last_send_time (now env) w',
                  tr ++ [Write (transmit_command m2);
                         Emit (message_received "Transmitter"
                                 ("Sent message: " ++ m2));
                         Sleep (1#10)])).
Proof.
  intros w m1 m2 mid rest Hdev Hrun Halive Hmid.
  set (w1 := set_message_to_send (Some m1) w).
  destruct (Pending_facts.loop_sends_nothing mid w1 Hdev)
    as [w2 [t2 (E2 & Hdev2 & _ & Hrun2 & Hw2 & Hr2)]].
  { right. exact Hmid. }
  set (w3 := set_message_to_send (Some m2) w2).
  destruct (Pending_facts.loop_sends_pending rest w3 m2 Hdev2 eq_refl)
    as [w4 [t4 (E4 & Hdev4 & Hmsg4 & Hrun4 & Hw4 & Hr4)]].
  destruct (Hrun4 (proj1 (Hrun2 Hrun Halive)) (proj2 (Hrun2 Hrun Halive)))
    as [Hrun' Halive'].
  eexists w4, _. split; [| split; [| split; [| split]]].
  - unfold send_message. unfold bind, gets, modify, emit, tell. cbn beta iota.
    fold w1. rewrite E2. cbn beta iota. fold w3. rewrite E4. reflexivity.
  - cbn [app writes]. rewrite Loop_facts.writes_app, Hw2. exact Hw4.
  - cbn [app received]. rewrite Loop_facts.received_app, Hr2. exact Hr4.
  - exact Hmsg4.
  - intros env Ht Hq Hf.
    destruct (Loop_facts.iteration_cases env w4) as [tr (_ & _ & _ & E)].
    exists tr. unfold loop_step, bind, gets. rewrite Halive', Hrun'.
    cbn [app]. rewrite E. unfold fault. rewrite Ht, Hf, Hdev4.
    destruct (rx env); try discriminate Hq; reflexivity.
Qed.

Lemma latest_message_only_witness :
  exists w' t,
    (send_message "22.75" ;; loop [idle 101] ;;
     send_message "23.50" ;; loop [idle 105; idle 107]) sent_at_100
    = (Ok tt, w', t)
    /\ Forall (eq (transmit_command "23.50")) (writes t)
    /\ Forall (eq (message_received "Transmitter" "Sent message: 23.50"))
         (received t)
    /\ message_to_send w' = Some "23.50".
Proof.
  destruct (latest_message_only sent_at_100 "22.75" "23.50"
              [idle 101] [idle 105; idle 107] eq_refl eq_refl eq_refl)
    as [w' [t (E & Hw & Hr & Hm & _)]].
  - repeat constructor.
  - exists w', t. repeat split; assumption.
Defined.

(** C1, as stated, fails: the second message is transmitted once per elapsed
    send interval, here twice, not exactly once. *)
Lemma latest_message_counterexample :
  gate_open (idle 101) sent_at_100 = false
  /\ writes (trace_of ((send_message "22.75" ;; loop [idle 101] ;;
                        send_message "23.50" ;; loop [idle 105; idle 110])
                         sent_at_100))
     = [transmit_command "23.50"; transmit_command "23.50"]
  /\ received (trace_of ((send_message "22.75" ;; loop [idle 101] ;;
                          send_message "23.50" ;; loop [idle 105; idle 110])
                           sent_at_100))
     = [message_received "Transmitter" "Sent message: 23.50";
        message_received "Transmitter" "Sent message: 23.50"].
Proof.
  repeat split.
Qed.

(** ** Start and stop *)

Module Lifecycle_facts.

Lemma set_running_same (w : SerialWorker) :
  set_running (running w) w = w.
Proof. destruct w; reflexivity. Qed.

Lemma stop_cases (w : SerialWorker) :
  stop w
  = if looping w
    then if is_connected w
         then (Ok tt,
               set_looping false
                 (set_serial (Some {| is_open := false |}) (set_running false w)),
               [Close; Emit (status_update (device_type w) "Disconnected");
                Emit (connection_status (device_type w) false)])
         else (Ok tt, set_looping false (set_running false w), [])
    else (Ok tt, set_running false w, []).
Proof.
  unfold stop, bind, gets, modify. cbn [looping set_running app].
  destruct (looping w); [| reflexivity].
  rewrite Pending_facts.exit_loop_cases.
  change (is_connected (set_running false w)) with (is_connected w).
  destruct (is_connected w); reflexivity.
Qed.

(** A successful start leaves a running worker with an open connection. *)
Lemma startup_entered (w0 : SerialWorker) (cfg : config_env) :
  result_of (startup None cfg w0) = Ok true ->
  running (worker_of (startup None cfg w0)) = true
  /\ looping (worker_of (startup None cfg w0)) = true
  /\ is_connected (worker_of (startup None cfg w0)) = true.
Proof.
  unfold startup, connect, configure_device, disconnect, bind, gets, modify,
    try_except, Exception, serial_write, port_call, emit, sleep, tell, ret,
    raise, result_of, worker_of.
  cbn [port device_type set_running].
  destruct (mode_fault cfg); cbn; try discriminate.
  destruct (rfcfg_fault cfg); cbn; try discriminate.
  destruct (device_type w0 =? "Receiver")%string; cbn; [| auto].
  destruct (rxlrpkt_fault cfg); cbn; try discriminate; auto.
Qed.

(** In the active loop the flag is set and the connection is open. *)
Lemma in_loop_connected (w : SerialWorker) :
  in_loop w ->
  running w = true /\ looping w = true /\ is_connected w = true.
Proof.
  induction 1 as [w0 cfg H | w env _ (Hrun & Halive & Hconn) | w m _ IH].
  - apply startup_entered. exact H.
  - unfold loop_step, bind, gets, worker_of. rewrite Halive, Hrun. cbn [app].
    destruct (Survival.iteration_returns env w) as [w' [t (E & [-> | ->] & _)]];
      rewrite E; cbn [fst snd]; auto.
  - exact IH.
Qed.

End Lifecycle_facts.

Module Position_facts.






End Position_facts.


(** C7: when a write of the configuration sequence fails, [run] emits the
    error as a status, closes the connection and returns without making an
    iteration of the loop, whatever the loop would have met. *)
Theorem configuration_failure_aborts :
  forall (w : SerialWorker) (cfg : config_env) (e : exn) (ticks : list tick),
    looping w = false ->
    config_fault (device_type w) cfg = Some e ->
    exists w' pre,
      run None cfg ticks w
      = (Ok tt, w',
         pre ++ [Emit (status_update (device_type w)
                         ("Configuration error: " ++ str e));
                 Close;
                 Emit (status_update (device_type w) "Disconnected");
                 Emit (connection_status (device_type w) false)])
      /\ running w' = false /\ looping w' = false
      /\ is_connected w' = false
      /\ sleeps pre = map (fun _ => 1#2) (writes pre)
      /\ run None cfg ticks w = run None cfg [] w
      /\ loop ticks w' = (Ok tt, w', []).
Proof.
  intros w cfg e ticks Halive Hf.
  assert (Hloop : forall w', looping w' = false -> loop ticks w' = (Ok tt, w', [])).
  { clear. induction ticks as [|env ticks IH]; intros w' H; [reflexivity |].
    cbn [loop]. unfold bind at 1, loop_step, bind, gets, ret. rewrite H.
    cbn [app]. rewrite (IH w' H). reflexivity. }
  unfold config_fault in Hf.
  unfold run, startup, connect, configure_device, disconnect, bind, gets, modify,
    try_except, Exception, serial_write, port_call, emit, sleep, tell, ret, raise.
  cbn [port device_type set_running].
  destruct (mode_fault cfg) as [e1|].
  { injection Hf as ->. cbn.
    eexists; exists [Open (port w); Emit (status_update (device_type w)
                                             ("Connected to " ++ port w));
                     Emit (connection_status (device_type w) true)].
    split; [reflexivity |]. repeat split; try assumption.
    apply Hloop. exact Halive. }
  destruct (rfcfg_fault cfg) as [e2|].
  { injection Hf as ->. cbn.
    eexists; exists [Open (port w); Emit (status_update (device_type w)
                                             ("Connected to " ++ port w));
                     Emit (connection_status (device_type w) true);
                     Write ("AT+MODE=TEST" ++ Py.CRLF); Sleep (1#2);
                     Emit (status_update (device_type w) "Set TEST mode")].
    split; [reflexivity |]. repeat split; try assumption.
    apply Hloop. exact Halive. }
  destruct (device_type w =? "Receiver")%string eqn:Hrecv; [| discriminate].
  rewrite Hf. cbn. rewrite Hrecv. cbn.
  eexists; exists [Open (port w); Emit (status_update (device_type w)
                                           ("Connected to " ++ port w));
                   Emit (connection_status (device_type w) true);
                   Write ("AT+MODE=TEST" ++ Py.CRLF); Sleep (1#2);
                   Emit (status_update (device_type w) "Set TEST mode");
                   Write rf_config; Sleep (1#2);
                   Emit (status_update (device_type w)
                           "Configured LoRa parameters")].
  split; [reflexivity |]. repeat split; try assumption.
  apply Hloop. exact Halive.
Qed.


Lemma configuration_failure_aborts_witness :
  exists w' pre,
    run None {| mode_fault := None;
                rfcfg_fault := Some (SerialException "write timeout");
                rxlrpkt_fault := None |}
        [idle 1; idle 2] (init "/dev/cu.usbserial-1120" "Receiver")
    = (Ok tt, w',
       pre ++ [Emit (status_update "Receiver" "Configuration error: write timeout");
               Close;
               Emit (status_update "Receiver" "Disconnected");
               Emit (connection_status "Receiver" false)])
    /\ running w' = false /\ looping w' = false /\ is_connected w' = false.
Proof.
  destruct (configuration_failure_aborts
              (init "/dev/cu.usbserial-1120" "Receiver")
              {| mode_fault := None;
                 rfcfg_fault := Some (SerialException "write timeout");
                 rxlrpkt_fault := None |}
              (SerialException "write timeout") [idle 1; idle 2]
              eq_refl eq_refl)
    as [w' [pre (E & Hrun & Halive & Hconn & _)]].
  exists w', pre. repeat split; assumption.
Defined.

(** ** The temperature read *)

Section Temperature_facts.

Variable number : Type.
Variable float : string -> option number.
Variable repr : number -> string.


Lemma to_float_cases (s : string) :
  match float s with
  | Some v => to_float float s = Ok v
  | None => exists m, to_float float s = Raise (ValueError m)
  end.
Proof.
  unfold to_float. destruct (float s); [reflexivity |].
  eexists; reflexivity.
Qed.

(** The scan stops at the first token equal to the marker that has a
    successor. *)
Lemma scan_parts_first (before : list string) (tok : string)
    (after : list string) (tv : option number) :
  ~ In "TEMP" before ->
  scan_parts float (before ++ "TEMP" :: tok :: after) tv
  = match to_float float tok with
    | Ok v => Ok (Some v)
    | Raise e => Raise e
    end.
Proof.
  induction before as [|part before IH]; intros Hnot.
  - reflexivity.
  - cbn [app scan_parts].
    destruct (part =? "TEMP")%string eqn:E.
    + apply String.eqb_eq in E. subst. elim Hnot. now left.
    + apply IH. intros H. apply Hnot. now right.
Qed.

(** Without a token equal to the marker that has a successor the scan
    leaves the value as it is. *)
Lemma scan_parts_none (parts : list string) (tv : option number) :
  (forall before tok after, parts <> before ++ "TEMP" :: tok :: after) ->
  scan_parts float parts tv = Ok tv.
Proof.
  induction parts as [|part rest IH]; intros H; [reflexivity |].
  assert (Hrest : forall before tok after,
             rest <> before ++ "TEMP" :: tok :: after).
  { intros before tok after E. apply (H (part :: before) tok after).
    cbn [app]. now rewrite E. }
  cbn [scan_parts].
  destruct (part =? "TEMP")%string eqn:E; [| exact (IH Hrest)].
  destruct rest as [|next rest]; [reflexivity |].
  apply String.eqb_eq in E. subst part.
  elim (H [] next rest). reflexivity.
Qed.

Lemma to_float_uniform (s : string) :
  uniform (fun _ => match to_float float s with
                    | Ok v => Ok (Some v)
                    | Raise e => Raise e
                    end).
Proof.
  pose proof (to_float_cases s) as H. destruct (float s) as [v|].
  - left. exists v. intros _. now rewrite H.
  - right; left. destruct H as [m H]. exists (ValueError m).
    split; [reflexivity |]. intros _. now rewrite H.
Qed.

Lemma scan_parts_uniform (parts : list string) : uniform (scan_parts float parts).
Proof.
  induction parts as [|part rest IH].
  - right; right. reflexivity.
  - cbn [scan_parts].
    destruct (part =? "TEMP")%string; [| exact IH].
    destruct rest as [|next rest]; [exact IH |].
    apply to_float_uniform.
Qed.

Lemma parse_temperature_uniform (line : string) :
  uniform (parse_temperature float line).
Proof.
  unfold parse_temperature.
  destruct (Py.contains "TEMP," line).
  - unfold index. destruct (nth_error _ 1) as [part|].
    + apply to_float_uniform.
    + right; left. eexists. split; [| reflexivity]. reflexivity.
  - destruct (Py.contains ":" line && Py.contains "TEMP" line).
    + apply scan_parts_uniform.
    + right; right. reflexivity.
Qed.

(** The line handler returns, leaves the worker as it is, and updates the
    variables of the loop: the line joins the response, a completing line
    sets the flag, and the value is replaced exactly when the line yields
    one. *)
Lemma handle_line_cases (line : string) (a : accumulator number)
    (w : SerialWorker) :
  exists a' t,
    handle_line float repr line a w = (Ok a', w, t)
    /\ complete_response a' = completes line || complete_response a
    /\ temperature_value a'
       = match parsed float line with
         | Some v => Some v
         | None => temperature_value a
         end
    /\ writes t = []
    /\ (forall e,
           Py.contains "TEMP" line = true ->
           parse_temperature float line (temperature_value a) = Raise e ->
           exists pre,
             t = pre ++ [Emit (status_update (device_type w)
                                 ("Parse error: " ++ str e ++ " in '"
                                  ++ line ++ "'"))]).
Proof.
  assert (Hc : (if (line =? "OK")%string || Py.contains "ERROR" line
                then true else complete_response a)
               = completes line || complete_response a).
  { unfold completes. now destruct ((line =? "OK")%string || Py.contains "ERROR" line). }
  unfold handle_line, parsed, bind, gets, emit, tell, try_except, lift, ret.
  rewrite Hc. clear Hc.
  destruct (Py.contains "TEMP" line) eqn:Hmark.
  - destruct (parse_temperature_uniform line)
      as [[v Hv] | [[e [He Hraise]] | Hid]].
    + rewrite !Hv. eexists; eexists. split; [reflexivity |].
      repeat split. intros e _ H. discriminate H.
    + rewrite !Hraise, He. eexists; eexists. split; [reflexivity |].
      repeat split. intros e' _ [= <-].
      eexists [_; _]. reflexivity.
    + rewrite !Hid. eexists; eexists. split; [reflexivity |].
      repeat split. intros e _ H. discriminate H.
  - eexists; eexists. split; [reflexivity |].
    repeat split. intros e H. discriminate H.
Qed.

Lemma poll_loop_complete (polls : list poll) (a : accumulator number)
    (w : SerialWorker) :
  complete_response a = true ->
  poll_loop float repr polls a w = (Ok a, w, []).
Proof.
  intros H. destruct polls; cbn [poll_loop]; [| rewrite H]; reflexivity.
Qed.

(** The polling loop, when the port does not fail: it returns with the last
    value that a line read has yielded, if any, and with the flag telling
    whether a line read has completed the response. *)
Lemma poll_loop_cases (polls : list poll) :
  forall (a : accumulator number) (w : SerialWorker),
    forallb quiet polls = true ->
    complete_response a = false ->
    exists a' t,
      poll_loop float repr polls a w = (Ok a', w, t)
      /\ temperature_value a'
         = fold_left (fun acc line =>
                        match parsed float line with
                        | Some v => Some v
                        | None => acc
                        end) (lines_read polls) (temperature_value a)
      /\ complete_response a' = existsb completes (lines_read polls)
      /\ writes t = [].
Proof.
  induction polls as [|p polls IH]; intros a w Hq Hc.
  - exists a, []. repeat split. exact Hc.
  - cbn [forallb] in Hq. apply andb_prop in Hq as [Hp Hq].
    cbn [poll_loop lines_read]. rewrite Hc.
    destruct p as [e| |e|raw]; try discriminate Hp.
    + destruct (IH a w Hq Hc) as [a' [t (E & Hv & Hf & Hw)]].
      unfold bind, sleep, tell. rewrite E.
      eexists; eexists. split; [reflexivity |]. repeat split; assumption.
    + cbn [line_of].
      destruct (Py.is_empty (Hex.decode_line raw)).
      * apply IH; assumption.
      * set (line := Hex.decode_line raw).
        destruct (handle_line_cases line a w)
          as [a1 [t1 (E1 & Hc1 & Hv1 & Hw1 & _)]].
        rewrite Hc, orb_false_r in Hc1.
        unfold bind, sleep, tell. rewrite E1.
        destruct (completes line) eqn:Hdone.
        -- rewrite (poll_loop_complete polls a1 w Hc1).
           eexists; eexists. split; [reflexivity |].
           cbn [fold_left existsb]. rewrite Hdone.
           repeat split; try assumption.
           now rewrite !app_nil_r, Loop_facts.writes_app, Hw1.
        -- destruct (IH a1 w Hq Hc1) as [a' [t (E & Hv & Hf & Hw)]].
           rewrite E. eexists; eexists. split; [reflexivity |].
           cbn [fold_left existsb]. rewrite Hdone, <- Hv1.
           repeat split; try assumption.
           now rewrite Loop_facts.writes_app, Hw1.
Qed.

(** C9: without a connection handle, or with a closed one,
    [read_temperature] emits the status that the device is not connected
    and returns [None]; it writes nothing and does not touch the port. *)
Theorem read_temperature_not_connected :
  forall (env : temperature_env) (w : SerialWorker),
    serial w = None \/ serial w = Some {| is_open := false |} ->
    read_temperature float repr env w
    = (Ok None, w,
       [Emit (status_update (device_type w) "Error: Device not connected")]).
Proof.
  intros env w H.
  assert (Hconn : is_connected w = false).
  { unfold is_connected. destruct H as [-> | ->]; reflexivity. }
  unfold read_temperature, bind, gets, emit, tell, ret.
  rewrite Hconn. reflexivity.
Qed.

(** C4: when the port does not fail, [read_temperature] returns the value of
    the last line read that yields one, [None] when no line read does; a
    line whose extraction fails leaves the value of the earlier lines in
    place and the lines after it are still read; and the last status of a
    read without a value tells a response that was completed from one that
    was not before the time was up. *)
Theorem read_temperature_last_parsed :
  forall (env : temperature_env) (w : SerialWorker),
    is_connected w = true ->
    reset_input_fault env = None ->
    reset_output_fault env = None ->
    query_fault env = None ->
    forallb quiet (polls env) = true ->
    (exists pre,
        read_temperature float repr env w
        = (Ok (last_parsed float (lines_read (polls env))), w,
           pre ++ [Emit (status_update (device_type w)
                           (diagnostic float repr (lines_read (polls env))))])
        /\ writes pre = [("AT+TEST=TEMP" ++ Py.CRLF)%string])
    /\ (last_parsed float (lines_read (polls env)) = None ->
        diagnostic float repr (lines_read (polls env))
        = if existsb completes (lines_read (polls env))
          then "Temperature data not found in response"
          else "Timeout waiting for complete response")
    /\ (forall (earlier : list string) (line : string),
           parsed float line = None ->
           last_parsed float (earlier ++ [line]) = last_parsed float earlier)
    /\ (forall (earlier : list string) (line : string) (v : number),
           parsed float line = Some v ->
           last_parsed float (earlier ++ [line]) = Some v).
Proof.
  intros env w Hconn Hri Hro Hq Hpolls. set (lines := lines_read (polls env)).
  split; [| split; [| split]].
  - destruct (poll_loop_cases (polls env)
                {| response := ""; complete_response := false;
                   temperature_value := None |} w Hpolls eq_refl)
      as [a' [t (E & Hv & Hf & Hw)]].
    cbn [temperature_value] in Hv.
    fold (last_parsed float (lines_read (polls env))) in Hv. fold lines in Hv, Hf.
    exists ([ResetInput; ResetOutput;
             Emit (status_update (device_type w)
                     "Sending temperature read command...");
             Write ("AT+TEST=TEMP" ++ Py.CRLF); Sleep (1#2)]
            ++ t
            ++ [Emit (status_update (device_type w)
                        ("Complete response:" ++ Py.LF ++ response a'))]).
    split.
    + unfold read_temperature, bind, gets, try_except, serial_write, port_call,
        emit, sleep, tell, ret.
      rewrite Hconn, Hri, Hro, Hq. cbn [negb app]. rewrite E.
      unfold diagnostic. rewrite <- Hv, <- Hf.
      destruct (temperature_value a'); [| destruct (complete_response a')];
        cbn [app]; rewrite <- ?app_assoc; reflexivity.
    + rewrite !Loop_facts.writes_app, Hw. reflexivity.
  - intros H. unfold diagnostic. rewrite H. reflexivity.
  - intros earlier line H. unfold last_parsed.
    rewrite fold_left_app. cbn [fold_left]. rewrite H. reflexivity.
  - intros earlier line v H. unfold last_parsed.
    rewrite fold_left_app. cbn [fold_left]. rewrite H. reflexivity.
Qed.

Lemma parse_after_marker_comma (pre lit : string) (tv : option number) :
  Py.contains "TEMP," (pre ++ "TEMP") = false ->
  Py.contains "TEMP," lit = false ->
  parse_temperature float (pre ++ "TEMP," ++ lit) tv
  = match to_float float (Py.strip lit) with
    | Ok v => Ok (Some v)
    | Raise e => Raise e
    end.
Proof.
  intros Hpre Hlit. unfold parse_temperature.
  rewrite Py_facts.contains_append.
  pose proof (Py_facts.split_first "TEMP" ","%char lit pre Hpre) as F.
  change (Py.split "TEMP," (pre ++ "TEMP," ++ lit)
          = pre :: Py.split "TEMP," lit) in F.
  rewrite F, (Py_facts.split_none _ _ Hlit). reflexivity.
Qed.

Lemma parse_between_marker_commas (pre lit more : string)
    (tv : option number) :
  Py.contains "TEMP," (pre ++ "TEMP") = false ->
  Py.contains "TEMP," (lit ++ "TEMP") = false ->
  parse_temperature float (pre ++ "TEMP," ++ lit ++ "TEMP," ++ more) tv
  = match to_float float (Py.strip lit) with
    | Ok v => Ok (Some v)
    | Raise e => Raise e
    end.
Proof.
  intros Hpre Hlit. unfold parse_temperature.
  rewrite Py_facts.contains_append.
  pose proof (Py_facts.split_first "TEMP" ","%char
                (lit ++ "TEMP," ++ more) pre Hpre) as F.
  change (Py.split "TEMP," (pre ++ "TEMP," ++ lit ++ "TEMP," ++ more)
          = pre :: Py.split "TEMP," (lit ++ "TEMP," ++ more)) in F.
  pose proof (Py_facts.split_first "TEMP" ","%char more lit Hlit) as G.
  change (Py.split "TEMP," (lit ++ "TEMP," ++ more)
          = lit :: Py.split "TEMP," more) in G.
  rewrite F, G. reflexivity.
Qed.

Lemma parse_after_marker_token (line : string) (before : list string)
    (tok : string) (after : list string) (tv : option number) :
  Py.contains "TEMP," line = false ->
  Py.contains ":" line = true ->
  Py.contains "TEMP" line = true ->
  Py.split_ws line = before ++ "TEMP" :: tok :: after ->
  ~ In "TEMP" before ->
  parse_temperature float line tv
  = match to_float float tok with
    | Ok v => Ok (Some v)
    | Raise e => Raise e
    end.
Proof.
  intros Hcomma Hcolon Hmark Hsplit Hfirst. unfold parse_temperature.
  rewrite Hcomma, Hcolon, Hmark, Hsplit. cbn [andb].
  apply scan_parts_first. exact Hfirst.
Qed.

(** C3, as the code has it.  (a) When the line holds the marker followed by
    a comma, the text after the first such occurrence, up to the next one or
    to the end of the line, is read as the number.  (b) Otherwise, when the
    line holds a colon, the token that follows the first token equal to the
    marker is read as the number.  In no other case is anything read: a line
    without the marker followed by a comma yields no value when it holds no
    colon, and when no token equal to the marker has a successor.  A text
    that is no numeric literal raises [ValueError], which the line handler
    catches: it emits a parse error, keeps the value it had and returns; the
    handler takes the value the extraction yields, and leaves the value alone
    on a line without the marker. *)
Theorem temperature_formats :
  (forall (pre lit : string) (tv : option number),
      Py.contains "TEMP," (pre ++ "TEMP") = false ->
      Py.contains "TEMP," lit = false ->
      (forall v, float (Py.strip lit) = Some v ->
                 parse_temperature float (pre ++ "TEMP," ++ lit) tv = Ok (Some v))
      /\ (float (Py.strip lit) = None ->
          exists m,
            parse_temperature float (pre ++ "TEMP," ++ lit) tv
            = Raise (ValueError m)))
  /\ (forall (pre lit more : string) (tv : option number),
         Py.contains "TEMP," (pre ++ "TEMP") = false ->
         Py.contains "TEMP," (lit ++ "TEMP") = false ->
         (forall v, float (Py.strip lit) = Some v ->
                    parse_temperature float
                      (pre ++ "TEMP," ++ lit ++ "TEMP," ++ more) tv
                    = Ok (Some v))
         /\ (float (Py.strip lit) = None ->
             exists m,
               parse_temperature float
                 (pre ++ "TEMP," ++ lit ++ "TEMP," ++ more) tv
               = Raise (ValueError m)))
  /\ (forall (line : string) (before : list string) (tok : string)
             (after : list string) (tv : option number),
         Py.contains "TEMP," line = false ->
         Py.contains ":" line = true ->
         Py.contains "TEMP" line = true ->
         Py.split_ws line = before ++ "TEMP" :: tok :: after ->
         ~ In "TEMP" before ->
         (forall v, float tok = Some v ->
                    parse_temperature float line tv = Ok (Some v))
         /\ (float tok = None ->
             exists m, parse_temperature float line tv = Raise (ValueError m)))
  /\ (forall (line : string) (tv : option number),
         Py.contains "TEMP," line = false ->
         Py.contains ":" line = false ->
         parse_temperature float line tv = Ok tv)
  /\ (forall (line : string) (tv : option number),
         Py.contains "TEMP," line = false ->
         (forall before tok after,
             Py.split_ws line <> before ++ "TEMP" :: tok :: after) ->
         parse_temperature float line tv = Ok tv)
  /\ (forall (line : string) (a : accumulator number) (w : SerialWorker),
         exists a' t,
           handle_line float repr line a w = (Ok a', w, t)
           /\ (forall v,
                  Py.contains "TEMP" line = true ->
                  parse_temperature float line (temperature_value a) = Ok v ->
                  temperature_value a' = v)
           /\ (Py.contains "TEMP" line = false ->
               temperature_value a' = temperature_value a)
           /\ (forall e,
                  Py.contains "TEMP" line = true ->
                  parse_temperature float line (temperature_value a) = Raise e ->
                  temperature_value a' = temperature_value a
                  /\ exists pre,
                       t = pre ++ [Emit (status_update (device_type w)
                                           ("Parse error: " ++ str e ++ " in '"
                                            ++ line ++ "'"))])).
Proof.
  split; [| split; [| split; [| split; [| split]]]].
  - intros pre lit tv Hpre Hlit.
    rewrite (parse_after_marker_comma pre lit tv Hpre Hlit).
    pose proof (to_float_cases (Py.strip lit)) as H.
    split.
    + intros v Hv. rewrite Hv in H. now rewrite H.
    + intros Hn. rewrite Hn in H. destruct H as [m H]. exists m. now rewrite H.
  - intros pre lit more tv Hpre Hlit.
    rewrite (parse_between_marker_commas pre lit more tv Hpre Hlit).
    pose proof (to_float_cases (Py.strip lit)) as H.
    split.
    + intros v Hv. rewrite Hv in H. now rewrite H.
    + intros Hn. rewrite Hn in H. destruct H as [m H]. exists m. now rewrite H.
  - intros line before tok after tv Hcomma Hcolon Hmark Hsplit Hfirst.
    rewrite (parse_after_marker_token line before tok after tv
               Hcomma Hcolon Hmark Hsplit Hfirst).
    pose proof (to_float_cases tok) as H.
    split.
    + intros v Hv. rewrite Hv in H. now rewrite H.
    + intros Hn. rewrite Hn in H. destruct H as [m H]. exists m. now rewrite H.
  - intros line tv Hcomma Hcolon. unfold parse_temperature.
    rewrite Hcomma, Hcolon. reflexivity.
  - intros line tv Hcomma Hnone. unfold parse_temperature. rewrite Hcomma.
    destruct (Py.contains ":" line && Py.contains "TEMP" line); [| reflexivity].
    apply scan_parts_none. exact Hnone.
  - intros line a w.
    destruct (handle_line_cases line a w) as [a' [t (E & _ & Hv & _ & Herr)]].
    exists a', t. split; [exact E |].
    unfold parsed in Hv.
    split; [| split].
    + intros v Hmark Hok. rewrite Hv, Hmark.
      destruct (parse_temperature_uniform line)
        as [[v' Hu] | [[e' [_ Hu]] | Hu]].
      * rewrite Hu in Hok |- *. now injection Hok as <-.
      * rewrite Hu in Hok. discriminate Hok.
      * rewrite Hu in Hok |- *. now injection Hok as <-.
    + intros Hmark. now rewrite Hv, Hmark.
    + intros e Hmark Hraise. split; [| exact (Herr e Hmark Hraise)].
      rewrite Hv, Hmark.
      destruct (parse_temperature_uniform line)
        as [[v Hu] | [[e' [_ Hu]] | Hu]].
      * rewrite Hu in Hraise. discriminate Hraise.
      * now rewrite Hu.
      * rewrite Hu in Hraise. discriminate Hraise.
Qed.

End Temperature_facts.

Lemma temperature_formats_witness :
  parse_temperature Decimal_float.float "+TEST: TEMP,23.50" None
  = Ok (Some (2350 # 100))
  /\ parse_temperature Decimal_float.float "+TEST: TEMP 23.50" None
     = Ok (Some (2350 # 100))
  /\ (exists m,
         parse_temperature Decimal_float.float "+TEST: TEMP,23.5C" None
         = Raise (ValueError m))
  /\ parse_temperature Decimal_float.float "TEMP 23.50" (Some (1900 # 100))
     = Ok (Some (1900 # 100))
  /\ parse_temperature Decimal_float.float "+TEST: TEMP" (Some (1900 # 100))
     = Ok (Some (1900 # 100)).
Proof.
  destruct (temperature_formats Q Decimal_float.float Decimal_float.repr)
    as (Ha & _ & Hb & Hc & Hd & _).
  split; [| split; [| split; [| split]]].
  - exact (proj1 (Ha "+TEST: " "23.50" None eq_refl eq_refl) _ eq_refl).
  - refine (proj1 (Hb "+TEST: TEMP 23.50" ["+TEST:"] "23.50" [] None
                      eq_refl eq_refl eq_refl eq_refl _) _ eq_refl).
    intros [H | []]. discriminate H.
  - exact (proj2 (Ha "+TEST: " "23.5C" None eq_refl eq_refl) eq_refl).
  - exact (Hc "TEMP 23.50" (Some (1900 # 100)) eq_refl eq_refl).
  - apply (Hd "+TEST: TEMP" (Some (1900 # 100)) eq_refl).
    intros [|b1 [|b2 before]] tok after H; try discriminate H.
    destruct before; discriminate H.
Defined.

(** C3, as stated, fails: a line without a colon whose marker token is
    followed by a numeric token yields no value. *)
Lemma temperature_formats_counterexample :
  Py.contains "TEMP" "TEMP 23.50" = true
  /\ Py.split_ws "TEMP 23.50" = ["TEMP"; "23.50"]
  /\ Decimal_float.float "23.50" = Some (2350 # 100)
  /\ parse_temperature Decimal_float.float "TEMP 23.50" None = Ok None
  /\ result_of (read_temperature Decimal_float.float Decimal_float.repr
                  (delivers [Line "TEMP 23.50"; Line "OK"])
                  transmitter)
     = Ok None.
Proof.
  repeat split.
Qed.

Lemma read_temperature_last_parsed_witness :
  result_of (read_temperature Decimal_float.float Decimal_float.repr
               (delivers [NoData; Line "+TEST: TEMP,23.50"; Line "+TEST: TEMP,2x";
                          Line "OK"; Line "+TEST: TEMP,99"])
               transmitter)
  = Ok (Some (2350 # 100))
  /\ exists pre,
       read_temperature Decimal_float.float Decimal_float.repr
         (delivers [NoData; NoData])
         transmitter
       = (Ok None, active "/dev/cu.usbserial-10" "Transmitter",
          pre ++ [Emit (status_update "Transmitter"
                          "Timeout waiting for complete response")]).
Proof.
  split.
  - destruct (read_temperature_last_parsed Q Decimal_float.float Decimal_float.repr
                (delivers [NoData; Line "+TEST: TEMP,23.50"; Line "+TEST: TEMP,2x";
                           Line "OK"; Line "+TEST: TEMP,99"])
                transmitter
                eq_refl eq_refl eq_refl eq_refl eq_refl)
      as [[pre [E _]] _].
    rewrite E. reflexivity.
  - destruct (read_temperature_last_parsed Q Decimal_float.float Decimal_float.repr
                (delivers [NoData; NoData])
                transmitter
                eq_refl eq_refl eq_refl eq_refl eq_refl)
      as [[pre [E _]] _].
    exists pre. exact E.
Defined.

Lemma read_temperature_not_connected_witness :
  read_temperature Decimal_float.float Decimal_float.repr
    (delivers [Line "+TEST: TEMP,23.50"])
    (init "/dev/cu.usbserial-10" "Transmitter")
  = (Ok None, init "/dev/cu.usbserial-10" "Transmitter",
     [Emit (status_update "Transmitter" "Error: Device not connected")]).
Proof.
  exact (read_temperature_not_connected Q Decimal_float.float Decimal_float.repr
           (delivers [Line "+TEST: TEMP,23.50"])
           (init "/dev/cu.usbserial-10" "Transmitter") (or_introl eq_refl)).
Defined.

(** * Further properties *)

(** ** A session from start to stop *)

Module Session_facts.
Import Loop_facts.

Lemma connection_events_app (t u : list effect) :
  connection_events (t ++ u) = connection_events t ++ connection_events u.
Proof.
  induction t as [|[[]| | | | | |] t IH]; simpl; try exact IH;
    [reflexivity | now rewrite IH].
Qed.

(** The receive half emits no connection signal. *)
Lemma receive_connection_events (p : poll) (w : SerialWorker) :
  connection_events (trace_of (receive p w)) = [].
Proof.
  unfold receive, bind, gets, emit, tell, try_except, lift, ret, raise, trace_of.
  destruct p as [e| |e|raw]; try reflexivity.
  destruct (Py.is_empty _); [reflexivity |].
  destruct ((device_type w =? "Receiver")%string && Py.contains _ _);
    [| reflexivity].
  destruct (decode_packet _); reflexivity.
Qed.

(** An iteration, case by case, with the trace of its receive half named. *)
Lemma iteration_trace (env : tick) (w : SerialWorker) :
  iteration env w
  = match fault env w with
    | Some e =>
        (Ok tt, w,
         trace_of (receive (rx env) w)
         ++ [Emit (status_update (device_type w) ("Error: " ++ str e));
             Sleep 1])
    | None =>
        match transmits env w with
        | Some m =>
            (Ok tt, set_last_send_time (now env) w,
             trace_of (receive (rx env) w)
             ++ [Write (transmit_command m);
                 Emit (message_received (device_type w) ("Sent message: " ++ m));
                 Sleep (1#10)])
        | None => (Ok tt, w, trace_of (receive (rx env) w) ++ [Sleep (1#10)])
        end
    end.
Proof.
  pose proof (receive_cases (rx env) w) as R.
  pose proof (transmit_cases env w) as T.
  unfold iteration, fault, bind, gets, try_except, Exception, emit, sleep, tell.
  destruct (rx env) as [e| |e|raw].
  - rewrite R. reflexivity.
  - destruct R as [tr (R & _)]. rewrite R, T. unfold trace_of. cbn [snd].
    destruct (transmits env w); [destruct (tx_fault env) |];
      cbn [app]; rewrite ?app_nil_r; reflexivity.
  - rewrite R. reflexivity.
  - destruct R as [tr (R & _)]. rewrite R, T. unfold trace_of. cbn [snd].
    destruct (transmits env w); [destruct (tx_fault env) |];
      cbn [app]; rewrite ?app_nil_r; reflexivity.
Qed.

(** A running loop keeps the connection and emits no connection signal. *)
Lemma loop_keeps_connection (ticks : list tick) :
  forall w, running w = true -> looping w = true ->
    exists w' t,
      loop ticks w = (Ok tt, w', t)
      /\ running w' = true /\ looping w' = true
      /\ is_connected w' = is_connected w
      /\ connection_events t = [].
Proof.
  induction ticks as [|env ticks IH]; intros w Hrun Halive.
  - exists w, []. repeat split; assumption.
  - pose proof (iteration_trace env w) as E1.
    pose proof (receive_connection_events (rx env) w) as Hc.
    assert (H1 : exists w1 t1,
               iteration env w = (Ok tt, w1, t1)
               /\ running w1 = true /\ looping w1 = true
               /\ is_connected w1 = is_connected w
               /\ connection_events t1 = []).
    { rewrite E1.
      destruct (fault env w); [| destruct (transmits env w)];
        eexists; eexists; (split; [reflexivity |]);
        rewrite connection_events_app, Hc; repeat split; assumption. }
    destruct H1 as [w1 [t1 (E & Hrun1 & Halive1 & Hconn1 & Hc1)]].
    destruct (IH w1 Hrun1 Halive1) as [w2 [t2 (E2 & Hrun2 & Halive2 & Hconn2 & Hc2)]].
    exists w2, (t1 ++ t2).
    cbn [loop]. unfold bind at 1, loop_step, bind, gets.
    rewrite Halive, Hrun. cbn [app]. rewrite E, E2.
    repeat split; try assumption; [congruence |].
    rewrite connection_events_app, Hc1, Hc2. reflexivity.
Qed.

(** [run] up to its loop, when the port opens. *)
Lemma startup_outcome (w : SerialWorker) (cfg : config_env) :
  exists w' t,
    startup None cfg w = (Ok (match config_fault (device_type w) cfg with
                              | None => true
                              | Some _ => false
                              end), w', t)
    /\ match config_fault (device_type w) cfg with
       | None =>
           running w' = true /\ looping w' = true /\ is_connected w' = true
           /\ connection_events t = [true]
           /\ writes t
              = ("AT+MODE=TEST" ++ Py.CRLF)%string :: rf_config
                :: (if (device_type w =? "Receiver")%string
                    then [("AT+TEST=RXLRPKT" ++ Py.CRLF)%string] else [])
           /\ sleeps t = map (fun _ => 1#2) (writes t)
       | Some _ =>
           running w' = false /\ looping w' = looping w
           /\ is_connected w' = false
           /\ connection_events t = [true; false]
       end.
Proof.
  unfold config_fault.
  unfold startup, connect, configure_device, disconnect, bind, gets, modify,
    try_except, Exception, serial_write, port_call, emit, sleep, tell, ret, raise.
  cbn [port device_type set_running].
  destruct (mode_fault cfg) as [e1|].
  { cbn. eexists; eexists. split; [reflexivity |]. repeat split. }
  destruct (rfcfg_fault cfg) as [e2|].
  { cbn. eexists; eexists. split; [reflexivity |]. repeat split. }
  destruct (device_type w =? "Receiver")%string eqn:Hrecv.
  - destruct (rxlrpkt_fault cfg) as [e3|]; cbn; rewrite Hrecv; cbn;
      eexists; eexists; (split; [reflexivity |]); repeat split.
  - cbn. rewrite Hrecv. cbn.
    eexists; eexists. split; [reflexivity |]. repeat split.
Qed.

(** What [run] does up to its loop when nothing fails, in order. *)
Lemma startup_trace (w : SerialWorker) (cfg : config_env) :
  config_fault (device_type w) cfg = None ->
  trace_of (startup None cfg w)
  = [Open (port w);
     Emit (status_update (device_type w) ("Connected to " ++ port w));
     Emit (connection_status (device_type w) true);
     Write ("AT+MODE=TEST" ++ Py.CRLF); Sleep (1#2);
     Emit (status_update (device_type w) "Set TEST mode");
     Write rf_config; Sleep (1#2);
     Emit (status_update (device_type w) "Configured LoRa parameters")]
    ++ (if (device_type w =? "Receiver")%string
        then [Write ("AT+TEST=RXLRPKT" ++ Py.CRLF); Sleep (1#2);
              Emit (status_update (device_type w)
                      "Started listening for packets")]
        else []).
Proof.
  unfold config_fault, trace_of.
  unfold startup, connect, configure_device, disconnect, bind, gets, modify,
    try_except, Exception, serial_write, port_call, emit, sleep, tell, ret, raise.
  cbn [port device_type set_running].
  destruct (mode_fault cfg) as [e1|]; [discriminate |].
  destruct (rfcfg_fault cfg) as [e2|]; [discriminate |].
  destruct (device_type w =? "Receiver")%string eqn:Hrecv.
  - intros ->. cbn. rewrite Hrecv. cbn. reflexivity.
  - intros _. cbn. rewrite Hrecv. cbn. reflexivity.
Qed.

Lemma connection_failure_aborts_eq (w : SerialWorker) (e : exn)
    (cfg : config_env) (ticks : list tick) :
  run (Some e) cfg ticks w
  = (Ok tt, set_running false w,
     [Emit (status_update (device_type w) ("Connection error: " ++ str e));
      Emit (connection_status (device_type w) false)]).
Proof. reflexivity. Qed.

Lemma stop_not_looping (w : SerialWorker) :
  looping w = false -> running w = false -> stop w = (Ok tt, w, []).
Proof.
  intros Halive Hrun. rewrite Lifecycle_facts.stop_cases, Halive.
  rewrite <- Hrun at 1. rewrite Lifecycle_facts.set_running_same. reflexivity.
Qed.

End Session_facts.

(** X1: when the port cannot be opened, [run] reports the error and a
    lost connection, writes nothing, makes no iteration of the loop and
    leaves the worker as it was, the flag cleared; a [run] after it goes as it
    would have gone in its place. *)
Theorem connection_failure_aborts :
  forall (w : SerialWorker) (e : exn) (cfg : config_env) (ticks : list tick),
    run (Some e) cfg ticks w
    = (Ok tt, set_running false w,
       [Emit (status_update (device_type w) ("Connection error: " ++ str e));
        Emit (connection_status (device_type w) false)])
    /\ (forall (open_fault : option exn) (cfg' : config_env)
               (ticks' : list tick),
           worker_of ((run (Some e) cfg ticks ;; run open_fault cfg' ticks') w)
           = worker_of (run open_fault cfg' ticks' w)
           /\ trace_of ((run (Some e) cfg ticks ;; run open_fault cfg' ticks') w)
              = [Emit (status_update (device_type w)
                         ("Connection error: " ++ str e));
                 Emit (connection_status (device_type w) false)]
                ++ trace_of (run open_fault cfg' ticks' w)).
Proof.
  intros w e cfg ticks. split; [reflexivity |].
  intros open_fault cfg' ticks'.
  unfold bind. rewrite Session_facts.connection_failure_aborts_eq.
  change (run open_fault cfg' ticks' (set_running false w))
    with (run open_fault cfg' ticks' w).
  destruct (run open_fault cfg' ticks' w) as [[r w'] t].
  split; reflexivity.
Qed.

(** X2: once the port is open, [run] enters its loop exactly when no write
    of the configuration fails; it has then written the mode command and the
    RF configuration, and a receiver the receive command after them, each
    followed at once by a sleep of half a second and then by its status
    signal, the next command coming only after that. *)
Theorem startup_commands :
  forall (w : SerialWorker) (cfg : config_env),
    (result_of (startup None cfg w) = Ok true
     <-> config_fault (device_type w) cfg = None)
    /\ (config_fault (device_type w) cfg = None ->
        writes (trace_of (startup None cfg w))
        = ("AT+MODE=TEST" ++ Py.CRLF)%string :: rf_config
          :: (if (device_type w =? "Receiver")%string
              then [("AT+TEST=RXLRPKT" ++ Py.CRLF)%string] else [])
        /\ sleeps (trace_of (startup None cfg w))
           = map (fun _ => 1#2) (writes (trace_of (startup None cfg w)))
        /\ in_loop (worker_of (startup None cfg w))
        /\ trace_of (startup None cfg w)
           = [Open (port w);
              Emit (status_update (device_type w) ("Connected to " ++ port w));
              Emit (connection_status (device_type w) true);
              Write ("AT+MODE=TEST" ++ Py.CRLF); Sleep (1#2);
              Emit (status_update (device_type w) "Set TEST mode");
              Write rf_config; Sleep (1#2);
              Emit (status_update (device_type w) "Configured LoRa parameters")]
             ++ (if (device_type w =? "Receiver")%string
                 then [Write ("AT+TEST=RXLRPKT" ++ Py.CRLF); Sleep (1#2);
                       Emit (status_update (device_type w)
                               "Started listening for packets")]
                 else [])).
Proof.
  intros w cfg.
  destruct (Session_facts.startup_outcome w cfg) as [w' [t (E & H)]].
  split.
  - unfold result_of. rewrite E. cbn [fst].
    destruct (config_fault (device_type w) cfg); split; intros H';
      try discriminate H'; reflexivity.
  - intros Hnone.
    pose proof (Session_facts.startup_trace w cfg Hnone) as Htrace.
    rewrite Hnone in H, E.
    destruct H as (_ & _ & _ & _ & Hw & Hs).
    split; [| split; [| split]].
    + unfold trace_of. rewrite E. exact Hw.
    + unfold trace_of. rewrite E. exact Hs.
    + apply in_loop_entered. unfold result_of. rewrite E. reflexivity.
    + exact Htrace.
Qed.

Lemma startup_commands_witness :
  writes (trace_of (startup None no_faults (init "/dev/cu.usbserial-10" "Transmitter")))
  = [("AT+MODE=TEST" ++ Py.CRLF)%string; rf_config]
  /\ writes (trace_of (startup None no_faults (init "/dev/cu.usbserial-1120" "Receiver")))
     = [("AT+MODE=TEST" ++ Py.CRLF)%string; rf_config;
        ("AT+TEST=RXLRPKT" ++ Py.CRLF)%string]
  /\ trace_of (startup None no_faults (init "/dev/cu.usbserial-1120" "Receiver"))
     = [Open "/dev/cu.usbserial-1120";
        Emit (status_update "Receiver" "Connected to /dev/cu.usbserial-1120");
        Emit (connection_status "Receiver" true);
        Write ("AT+MODE=TEST" ++ Py.CRLF); Sleep (1#2);
        Emit (status_update "Receiver" "Set TEST mode");
        Write rf_config; Sleep (1#2);
        Emit (status_update "Receiver" "Configured LoRa parameters");
        Write ("AT+TEST=RXLRPKT" ++ Py.CRLF); Sleep (1#2);
        Emit (status_update "Receiver" "Started listening for packets")].
Proof.
  split; [| split].
  - exact (proj1 (proj2 (startup_commands
                           (init "/dev/cu.usbserial-10" "Transmitter") no_faults)
                    eq_refl)).
  - exact (proj1 (proj2 (startup_commands
                           (init "/dev/cu.usbserial-1120" "Receiver") no_faults)
                    eq_refl)).
  - exact (proj2 (proj2 (proj2 (proj2 (startup_commands
                           (init "/dev/cu.usbserial-1120" "Receiver") no_faults)
                    eq_refl)))).
Defined.

(** A session from its start to its stop, whatever fails. *)
Lemma session_outcome :
  forall (open_fault : option exn) (cfg : config_env) (ticks : list tick)
         (w : SerialWorker),
    looping w = false -> is_connected w = false ->
    exists w' t,
      (run open_fault cfg ticks ;; stop) w = (Ok tt, w', t)
      /\ connection_events t
         = match open_fault with
           | None => [true; false]
           | Some _ => [false]
           end
      /\ running w' = false /\ looping w' = false /\ is_connected w' = false.
Proof.
  intros open_fault cfg ticks w Halive Hconn.
  destruct open_fault as [e|].
  - unfold bind. rewrite Session_facts.connection_failure_aborts_eq.
    rewrite (Session_facts.stop_not_looping (set_running false w) Halive eq_refl).
    eexists; eexists. split; [reflexivity |]. repeat split; assumption.
  - destruct (Session_facts.startup_outcome w cfg) as [w1 [t1 (E1 & H1)]].
    unfold run. unfold bind at 1 2. rewrite E1.
    destruct (config_fault (device_type w) cfg) as [e|].
    + destruct H1 as (Hrun1 & Halive1 & Hconn1 & Hc1).
      unfold ret. rewrite Halive in Halive1.
      rewrite (Session_facts.stop_not_looping w1 Halive1 Hrun1).
      eexists; eexists. split; [reflexivity |].
      rewrite !app_nil_r. repeat split; assumption.
    + destruct H1 as (Hrun1 & Halive1 & Hconn1 & Hc1 & _).
      destruct (Session_facts.loop_keeps_connection ticks w1 Hrun1 Halive1)
        as [w2 [t2 (E2 & Hrun2 & Halive2 & Hconn2 & Hc2)]].
      rewrite E2, Lifecycle_facts.stop_cases.
      cbn [looping set_running]. rewrite Halive2.
      change (is_connected (set_running false w2)) with (is_connected w2).
      rewrite Hconn2, Hconn1.
      eexists; eexists. split; [reflexivity |].
      rewrite !Session_facts.connection_events_app, Hc1, Hc2.
      repeat split.
Qed.

(** X3: a session that is started and later stopped reports its connection
    once when the port opens and its loss exactly once, whatever fails and
    whatever the loop meets, and ends with the flag cleared, the thread out
    of its loop and no open connection. *)
Theorem session_connection_events :
  forall (open_fault : option exn) (cfg : config_env) (ticks : list tick)
         (w : SerialWorker),
    looping w = false -> is_connected w = false ->
    exists w' t,
      (run open_fault cfg ticks ;; stop) w = (Ok tt, w', t)
      /\ connection_events t
         = match open_fault with
           | None => [true; false]
           | Some _ => [false]
           end
      /\ running w' = false /\ looping w' = false /\ is_connected w' = false.
Proof.
  exact session_outcome.
Qed.

Lemma session_connection_events_witness :
  (exists w' t,
      (run None no_faults [idle 1700000000; unplugged 1700000001] ;; stop)
        (init "/dev/cu.usbserial-10" "Transmitter")
      = (Ok tt, w', t)
      /\ connection_events t = [true; false]
      /\ running w' = false /\ looping w' = false /\ is_connected w' = false)
  /\ (exists w' t,
         (run (Some (SerialException "could not open port")) no_faults [] ;; stop)
           (init "/dev/cu.usbserial-10" "Transmitter")
         = (Ok tt, w', t)
         /\ connection_events t = [false]
         /\ running w' = false /\ looping w' = false /\ is_connected w' = false).
Proof.
  split.
  - exact (session_connection_events None no_faults
             [idle 1700000000; unplugged 1700000001]
             (init "/dev/cu.usbserial-10" "Transmitter") eq_refl eq_refl).
  - exact (session_connection_events
             (Some (SerialException "could not open port")) no_faults []
             (init "/dev/cu.usbserial-10" "Transmitter") eq_refl eq_refl).
Defined.

(** ** The transmit schedule *)

Module Schedule_facts.
Import Loop_facts.

(** One test of the loop by any worker: it returns, keeps the role, the
    pending message and the interval, and either writes nothing and keeps the
    time of the last send, or writes the command of the message the transmit
    branch fires for and records the reading of the clock. *)
Lemma loop_step_sends (env : tick) (w : SerialWorker) :
  exists w' t,
    loop_step env w = (Ok tt, w', t)
    /\ device_type w' = device_type w
    /\ message_to_send w' = message_to_send w
    /\ send_interval w' = send_interval w
    /\ ((writes t = [] /\ last_send_time w' = last_send_time w)
        \/ (exists m,
               transmits env w = Some m
               /\ writes t = [transmit_command m]
               /\ last_send_time w' = now env)).
Proof.
  unfold loop_step, bind, gets.
  destruct (looping w) eqn:Halive.
  - destruct (running w) eqn:Hrun; cbn [app].
    + destruct (iteration_cases env w) as [tr (Hw & _ & _ & E)].
      rewrite E.
      destruct (fault env w); [| destruct (transmits env w) as [m|]];
        eexists; eexists; (split; [reflexivity |]);
        rewrite writes_app, Hw; repeat split.
      * left. split; reflexivity.
      * right. exists m. repeat split.
      * left. split; reflexivity.
    + rewrite Pending_facts.exit_loop_cases.
      destruct (is_connected w); eexists; eexists; (split; [reflexivity |]);
        repeat split; left; split; reflexivity.
  - exists w, []. repeat split. left. split; reflexivity.
Qed.

Lemma gate_open_le (env : tick) (w : SerialWorker) :
  gate_open env w = true -> (send_interval w <= now env - last_send_time w)%Q.
Proof. unfold gate_open. apply Qle_bool_imp_le. Qed.

End Schedule_facts.

(** X4: the loop never transmits twice within the send interval: by the
    readings of the clock at which it writes to the port, each transmission
    comes at least [send_interval] after the one before it, and the first at
    least [send_interval] after the last send the worker has recorded. *)
Theorem transmissions_spaced :
  forall (ticks : list tick) (w : SerialWorker),
    spaced (send_interval w) (last_send_time w) (send_times ticks w).
Proof.
  induction ticks as [|env ticks IH]; intros w; [exact I |].
  cbn [send_times].
  destruct (Schedule_facts.loop_step_sends env w)
    as [w1 [t1 (E & _ & _ & Hint & Hsent)]].
  rewrite E. unfold trace_of, worker_of. cbn [fst snd].
  specialize (IH w1). rewrite Hint in IH.
  destruct Hsent as [(Hw & Hlast) | [m (Ht & Hw & Hlast)]]; rewrite Hw.
  - rewrite <- Hlast. exact IH.
  - cbn [spaced]. split.
    + apply Schedule_facts.gate_open_le.
      apply Pending_facts.transmits_pending in Ht. apply Ht.
    + rewrite <- Hlast. exact IH.
Qed.

(** X5: a transmission whose write fails is not counted as sent: the error
    is reported, no message signal is emitted for it, the time of the last
    send is kept, and the next iteration writes the message. *)
Theorem failed_write_retried :
  forall (w : SerialWorker) (m : string) (env1 env2 : tick) (e : exn),
    running w = true -> looping w = true ->
    transmits env1 w = Some m -> transmits env2 w = Some m ->
    quiet (rx env1) = true -> quiet (rx env2) = true ->
    tx_fault env1 = Some e -> tx_fault env2 = None ->
    exists w1 t1 w2 t2,
      loop_step env1 w = (Ok tt, w1, t1)
      /\ writes t1 = [] /\ received t1 = []
      /\ last_send_time w1 = last_send_time w
      /\ In (Emit (status_update (device_type w) ("Error: " ++ str e))) t1
      /\ sleeps t1 = [1%Q]
      /\ loop_step env2 w1 = (Ok tt, w2, t2)
      /\ writes t2 = [transmit_command m]
      /\ last_send_time w2 = now env2.
Proof.
  intros w m env1 env2 e Hrun Halive Ht1 Ht2 Hq1 Hq2 Hf1 Hf2.
  assert (Hdev : (device_type w =? "Receiver")%string = false).
  { unfold transmits in Ht1.
    destruct (device_type w =? "Transmitter")%string eqn:E; [| discriminate Ht1].
    apply String.eqb_eq in E. rewrite E. reflexivity. }
  destruct (Loop_facts.iteration_cases env1 w) as [tr1 (Hw1 & Hs1 & Hr1 & E1)].
  destruct (Loop_facts.iteration_cases env2 w) as [tr2 (Hw2 & Hs2 & Hr2 & E2)].
  assert (F1 : fault env1 w = Some e).
  { unfold fault. rewrite Ht1, Hf1. now destruct (rx env1). }
  assert (F2 : fault env2 w = None).
  { unfold fault. rewrite Ht2, Hf2. now destruct (rx env2). }
  rewrite F1 in E1. rewrite F2, Ht2 in E2.
  exists w, (tr1 ++ [Emit (status_update (device_type w) ("Error: " ++ str e));
                     Sleep 1]).
  eexists; eexists.
  unfold loop_step, bind, gets. rewrite Halive, Hrun. cbn [app].
  rewrite E1, E2.
  repeat split.
  - now rewrite Loop_facts.writes_app, Hw1.
  - now rewrite Loop_facts.received_app, (Hr1 Hdev).
  - apply in_or_app. right. now left.
  - now rewrite Loop_facts.sleeps_app, Hs1.
  - now rewrite Loop_facts.writes_app, Hw2.
Qed.

(** X6: only a transmitter transmits: in any other role the loop writes
    nothing to the port, and a message queued there stays queued. *)
Theorem only_transmitter_writes :
  forall (ticks : list tick) (w : SerialWorker),
    device_type w <> "Transmitter" ->
    exists w' t,
      loop ticks w = (Ok tt, w', t)
      /\ writes t = []
      /\ message_to_send w' = message_to_send w.
Proof.
  induction ticks as [|env ticks IH]; intros w Hdev.
  - exists w, []. repeat split.
  - destruct (Schedule_facts.loop_step_sends env w)
      as [w1 [t1 (E1 & Hdev1 & Hmsg1 & _ & Hsent)]].
    assert (Hnone : transmits env w = None).
    { unfold transmits.
      destruct (device_type w =? "Transmitter")%string eqn:E; [| reflexivity].
      apply String.eqb_eq in E. contradiction. }
    destruct Hsent as [(Hw1 & _) | [m (Ht & _)]]; [| congruence].
    rewrite <- Hdev1 in Hdev.
    destruct (IH w1 Hdev) as [w2 [t2 (E2 & Hw2 & Hmsg2)]].
    exists w2, (t1 ++ t2). cbn [loop]. unfold bind. rewrite E1, E2.
    rewrite Loop_facts.writes_app, Hw1, Hw2.
    repeat split. congruence.
Qed.

Lemma failed_write_retried_witness :
  exists w1 t1 w2 t2,
    loop_step {| rx := NoData; now := 105; tx_fault := Some (SerialException "write timeout") |}
      (set_message_to_send (Some "23.50") sent_at_100)
    = (Ok tt, w1, t1)
    /\ writes t1 = [] /\ received t1 = []
    /\ last_send_time w1 = 100%Q
    /\ In (Emit (status_update "Transmitter" "Error: write timeout")) t1
    /\ sleeps t1 = [1%Q]
    /\ loop_step (idle 106) w1 = (Ok tt, w2, t2)
    /\ writes t2 = [transmit_command "23.50"]
    /\ last_send_time w2 = 106%Q.
Proof.
  exact (failed_write_retried
           (set_message_to_send (Some "23.50") sent_at_100) "23.50"
           {| rx := NoData; now := 105;
              tx_fault := Some (SerialException "write timeout") |}
           (idle 106) (SerialException "write timeout")
           eq_refl eq_refl eq_refl eq_refl eq_refl eq_refl eq_refl eq_refl).
Defined.

Lemma only_transmitter_writes_witness :
  exists w' t,
    loop [idle 1700000000; idle 1700000005]
      (set_message_to_send (Some "23.50")
         (active "/dev/cu.usbserial-1120" "Receiver"))
    = (Ok tt, w', t)
    /\ writes t = []
    /\ message_to_send w' = Some "23.50".
Proof.
  refine (only_transmitter_writes [idle 1700000000; idle 1700000005]
            (set_message_to_send (Some "23.50")
               (active "/dev/cu.usbserial-1120" "Receiver")) _).
  discriminate.
Defined.

(** ** The command on the wire *)

Module Wire_facts.
Import Py Hex.

Lemma all_append (p : ascii -> bool) (a b : string) :
  all p (a ++ b) = all p a && all p b.
Proof.
  induction a as [|c a IH]; cbn [append all]; [reflexivity |].
  now rewrite IH, andb_assoc.
Qed.

Lemma all_impl (p q : ascii -> bool) (s : string) :
  (forall c, p c = true -> q c = true) -> all p s = true -> all q s = true.
Proof.
  intros Hpq. induction s as [|c s IH]; cbn [all]; [reflexivity |].
  intros H. apply andb_prop in H as [Hc Hs].
  now rewrite (Hpq c Hc), (IH Hs).
Qed.

Lemma format_02X_hex (c : ascii) : all is_hex_char (format_02X c) = true.
Proof. destruct c as [[] [] [] [] [] [] [] []]; reflexivity. Qed.

Lemma hex_char_ascii (c : ascii) : is_hex_char c = true -> is_ascii c = true.
Proof.
  destruct c as [[] [] [] [] [] [] [] []]; intros H;
    try discriminate H; reflexivity.
Qed.

(** What is sent is made of hexadecimal digits, whatever the message. *)
Lemma hex_message_hex (m : string) : all is_hex_char (hex_message m) = true.
Proof.
  unfold hex_message. destruct (all is_hex_char m) eqn:E; [exact E |].
  clear E. induction m as [|c m IH]; cbn [join_map]; [reflexivity |].
  now rewrite all_append, format_02X_hex, IH.
Qed.

Lemma hex_no_quote (s : string) :
  all is_hex_char s = true -> contains QUOTE s = false.
Proof.
  induction s as [|c s IH]; cbn [all]; intros H; [reflexivity |].
  apply andb_prop in H as [Hc Hs].
  cbn [contains]. rewrite (IH Hs), orb_false_r.
  unfold QUOTE. cbn [String.prefix].
  destruct (ascii_dec (ascii_of_nat 34) c) as [<- | _]; [| reflexivity].
  discriminate Hc.
Qed.

Lemma split_at_quote (pre post : string) :
  contains QUOTE pre = false ->
  split QUOTE (pre ++ QUOTE ++ post) = pre :: split QUOTE post.
Proof.
  intros H.
  apply (Py_facts.split_first EmptyString (ascii_of_nat 34) post pre).
  rewrite Py_facts.append_empty_r. exact H.
Qed.

Lemma length_join_format (m : string) :
  String.length (join_map format_02X m) = 2 * String.length m.
Proof.
  induction m as [|c m IH]; [reflexivity |].
  cbn [join_map]. rewrite Py_facts.length_append, IH. cbn [String.length format_02X].
  lia.
Qed.

Lemma decode_ascii_ignore_text (s : string) :
  all is_ascii s = true -> decode_ascii_ignore s = s.
Proof.
  induction s as [|c s IH]; cbn [all decode_ascii_ignore]; [reflexivity |].
  intros H. apply andb_prop in H as [Hc Hs]. now rewrite Hc, (IH Hs).
Qed.

(** Trailing white space is stripped, and nothing before a character that
    is not white space. *)
Lemma rstrip_spaces (s t : string) :
  all isspace t = true -> rstrip (s ++ t) = rstrip s.
Proof.
  intros Ht. induction s as [|c s IH].
  - cbn [append]. induction t as [|d t IHt]; [reflexivity |].
    cbn [all] in Ht. apply andb_prop in Ht as [Hd Ht].
    cbn [rstrip]. now rewrite (IHt Ht), Hd.
  - cbn [append rstrip]. now rewrite IH.
Qed.

Lemma rstrip_ends (s : string) (c : ascii) :
  isspace c = false -> rstrip (s ++ String c "") = (s ++ String c "")%string.
Proof.
  intros Hc. induction s as [|d s IH].
  - cbn [append rstrip]. now rewrite Hc.
  - cbn [append rstrip]. rewrite IH.
    destruct (s ++ String c "")%string eqn:E.
    + destruct s; discriminate E.
    + cbn [is_empty]. now rewrite andb_false_r.
Qed.

(** A line made of white space and bytes that are not ASCII decodes to the
    empty line. *)
Lemma decode_line_blank (raw : string) :
  all blank raw = true -> decode_line raw = EmptyString.
Proof.
  intros H. unfold decode_line, strip.
  assert (E : lstrip (decode_ascii_ignore raw) = EmptyString).
  { induction raw as [|c raw IH]; [reflexivity |].
    cbn [all] in H. apply andb_prop in H as [Hc Hraw].
    cbn [decode_ascii_ignore]. unfold blank in Hc.
    destruct (is_ascii c); cbn [negb] in Hc.
    - rewrite orb_false_r in Hc. cbn [lstrip]. rewrite Hc. exact (IH Hraw).
    - exact (IH Hraw). }
  rewrite E. reflexivity.
Qed.

(** The report of a packet reaches the loop without its line end. *)
Lemma decode_line_rx_report (h : string) :
  all is_hex_char h = true ->
  decode_line (rx_report h) = ("+TEST: RX " ++ QUOTE ++ h ++ QUOTE)%string.
Proof.
  intros Hh. unfold decode_line, rx_report.
  rewrite decode_ascii_ignore_text.
  - unfold strip.
    change (lstrip ("+TEST: RX " ++ QUOTE ++ h ++ QUOTE ++ CRLF))
      with ("+TEST: RX " ++ QUOTE ++ h ++ QUOTE ++ CRLF)%string.
    replace ("+TEST: RX " ++ QUOTE ++ h ++ QUOTE ++ CRLF)%string
      with ((("+TEST: RX " ++ QUOTE ++ h) ++ QUOTE) ++ CRLF)%string
      by (rewrite !Py_facts.append_assoc; reflexivity).
    rewrite rstrip_spaces by reflexivity.
    unfold QUOTE at 2. rewrite rstrip_ends by reflexivity.
    rewrite !Py_facts.append_assoc. reflexivity.
  - rewrite !all_append, (all_impl _ _ h hex_char_ascii Hh). reflexivity.
Qed.

End Wire_facts.

(** X7: whatever the message, the payload of the transmit command is made
    of hexadecimal digits only, so that the command holds exactly the two
    quote characters around it: split at the quote character, the command
    gives back the payload as its second field. *)
Theorem transmit_command_fields :
  forall message : string,
    Py.all Hex.is_hex_char (Hex.hex_message message) = true
    /\ Py.split Py.QUOTE (transmit_command message)
       = ["AT+TEST=TXLRPKT,"; Hex.hex_message message; Py.CRLF].
Proof.
  intros message.
  pose proof (Wire_facts.hex_message_hex message) as Hh.
  split; [exact Hh |].
  unfold transmit_command.
  rewrite Wire_facts.split_at_quote by reflexivity.
  rewrite Wire_facts.split_at_quote by (apply Wire_facts.hex_no_quote; exact Hh).
  reflexivity.
Qed.

(** X8: on the messages that are encoded, those that hold a character other
    than a hexadecimal digit, and with every code point below 256 as the
    characters of a [string] are, the encoding has two digits for each
    character and different messages have different payloads.  The
    restriction is needed: [format_02X] is [f'{ord(c):02X}'] on these
    characters, and above them the format has more than two digits, so that
    the one character U+20AC and the two characters U+0020 U+00AC have the
    same payload. *)
Theorem hex_message_injective :
  (forall m1 m2 : string,
      Py.all Hex.is_hex_char m1 = false ->
      Py.all Hex.is_hex_char m2 = false ->
      String.length (Hex.hex_message m1) = 2 * String.length m1
      /\ (Hex.hex_message m1 = Hex.hex_message m2 -> m1 = m2)
      /\ (m1 <> m2 -> Hex.hex_message m1 <> Hex.hex_message m2))
  /\ (forall c : ascii, Hex.format_02X_ord (N_of_ascii c) = Hex.format_02X c)
  /\ Hex.format_02X_ord 8364 = "20AC"
  /\ (Hex.format_02X_ord 32 ++ Hex.format_02X_ord 172)%string = "20AC".
Proof.
  split; [| split; [| split]].
  - intros m1 m2 H1 H2. unfold Hex.hex_message. rewrite H1, H2.
    assert (Hinj : Py.join_map Hex.format_02X m1 = Py.join_map Hex.format_02X m2 ->
                   m1 = m2).
    { intros E.
      pose proof (Hex_facts.fromhex_join_format m1 0) as E1.
      pose proof (Hex_facts.fromhex_join_format m2 0) as E2.
      rewrite E in E1. rewrite E1 in E2. now injection E2. }
    split; [| split].
    + apply Wire_facts.length_join_format.
    + exact Hinj.
    + intros Hne E. apply Hne, Hinj, E.
  - intros c. destruct c as [[] [] [] [] [] [] [] []]; vm_compute; reflexivity.
  - vm_compute. reflexivity.
  - vm_compute. reflexivity.
Qed.

Lemma hex_message_injective_witness :
  String.length (Hex.hex_message "23.50") = 10
  /\ Hex.hex_message "23.50" = "32332E3530"
  /\ Hex.hex_message "23.51" = "32332E3531"
  /\ Hex.hex_message "23.50" <> Hex.hex_message "23.51".
Proof.
  destruct (proj1 hex_message_injective "23.50" "23.51" eq_refl eq_refl)
    as (Hlen & _ & Hne).
  split; [exact Hlen | split; [reflexivity | split; [reflexivity |]]].
  apply Hne. discriminate.
Defined.

(** X9: the text a transmitter encodes is the text a receiver shows: for an
    ASCII message that holds a character other than a hexadecimal digit, the
    report of a packet carrying the payload of its transmit command makes a
    receiver emit the message itself. *)
Theorem transmitted_text_received :
  forall (w : SerialWorker) (message : string),
    device_type w = "Receiver" ->
    Py.all Hex.is_ascii message = true ->
    Py.all Hex.is_hex_char message = false ->
    receive (Line (rx_report (Hex.hex_message message))) w
    = (Ok tt, w,
       [Emit (status_update "Receiver"
                ("Received: +TEST: RX " ++ Py.QUOTE
                 ++ Hex.hex_message message ++ Py.QUOTE));
        Emit (message_received "Receiver" ("Received message: " ++ message))]).
Proof.
  intros w message Hdev Hascii Hhex.
  pose proof (Wire_facts.hex_message_hex message) as Hh.
  assert (Hpacket :
            decode_packet ("+TEST: RX " ++ Py.QUOTE ++ Hex.hex_message message
                           ++ Py.QUOTE)
            = Ok message).
  { rewrite <- (Py_facts.append_empty_r Py.QUOTE) at 2.
    rewrite (Packet_facts.decode_packet_between_quotes
               "+TEST: RX " (Hex.hex_message message) "" eq_refl
               (Wire_facts.hex_no_quote _ Hh)).
    unfold Hex.decode_payload, Hex.fromhex, Hex.hex_message.
    rewrite Hhex, Hex_facts.fromhex_join_format.
    apply Hex_facts.decode_ascii_text. exact Hascii. }
  unfold receive, bind, gets, emit, tell, try_except, lift, ret.
  rewrite Hdev, (Wire_facts.decode_line_rx_report _ Hh), Hpacket.
  reflexivity.
Qed.

Lemma transmitted_text_received_witness :
  receive (Line (rx_report (Hex.hex_message "23.50")))
    (active "/dev/cu.usbserial-1120" "Receiver")
  = (Ok tt, active "/dev/cu.usbserial-1120" "Receiver",
     [Emit (status_update "Receiver"
              ("Received: +TEST: RX " ++ Py.QUOTE ++ "32332E3530" ++ Py.QUOTE));
      Emit (message_received "Receiver" "Received message: 23.50")]).
Proof.
  exact (transmitted_text_received (active "/dev/cu.usbserial-1120" "Receiver")
           "23.50" eq_refl eq_refl eq_refl).
Defined.

(** ** The temperature read and the port *)

Section Temperature_port.

Variable number : Type.
Variable float : string -> option number.
Variable repr : number -> string.

Lemma completes_nonempty (line : string) :
  completes line = true -> Py.is_empty line = false.
Proof. destruct line; [discriminate | reflexivity]. Qed.

(** The polling loop whatever the port does: it leaves the worker as it is
    and writes nothing; it raises the first exception the port raises before
    a line completes the response, and otherwise returns as it does at a
    port that does not fail. *)
Lemma poll_loop_outcome (polls : list poll) :
  forall (a : accumulator number) (w : SerialWorker),
    complete_response a = false ->
    exists t,
      writes t = []
      /\ match polls_fault polls with
         | Some e => poll_loop float repr polls a w = (Raise e, w, t)
         | None =>
             exists a',
               poll_loop float repr polls a w = (Ok a', w, t)
               /\ temperature_value a'
                  = fold_left (fun acc line =>
                                 match parsed float line with
                                 | Some v => Some v
                                 | None => acc
                                 end) (lines_read polls) (temperature_value a)
               /\ complete_response a' = existsb completes (lines_read polls)
         end.
Proof.
  induction polls as [|p polls IH]; intros a w Hc.
  - exists []. split; [reflexivity |]. exists a. repeat split. exact Hc.
  - cbn [poll_loop polls_fault lines_read]. rewrite Hc.
    destruct p as [e| |e|raw].
    + exists []. split; reflexivity.
    + destruct (IH a w Hc) as [t (Hw & H)].
      exists (Sleep (1#10) :: t). split; [exact Hw |].
      unfold bind, sleep, tell. cbn [line_of].
      destruct (polls_fault polls) as [e|].
      * rewrite H. reflexivity.
      * destruct H as [a' (E & Hv & Hf)]. exists a'. rewrite E.
        repeat split; assumption.
    + exists []. split; reflexivity.
    + cbn [line_of].
      destruct (Py.is_empty (Hex.decode_line raw)) eqn:Hempty.
      * assert (Hn : completes (Hex.decode_line raw) = false).
        { destruct (completes (Hex.decode_line raw)) eqn:E; [| reflexivity].
          apply completes_nonempty in E. congruence. }
        rewrite Hn. apply IH. exact Hc.
      * set (line := Hex.decode_line raw) in *.
        destruct (handle_line_cases number float repr line a w)
          as [a1 [t1 (E1 & Hc1 & Hv1 & Hw1 & _)]].
        rewrite Hc, orb_false_r in Hc1.
        unfold bind, sleep, tell. rewrite E1.
        destruct (completes line) eqn:Hdone.
        -- rewrite (poll_loop_complete number float repr polls a1 w Hc1).
           exists (t1 ++ [Sleep (1#10)] ++ []).
           split; [now rewrite Loop_facts.writes_app, Hw1 |].
           exists a1. split; [reflexivity |].
           cbn [fold_left existsb]. rewrite Hdone. split; assumption.
        -- destruct (IH a1 w Hc1) as [t (Hw & H)].
           exists (t1 ++ [Sleep (1#10)] ++ t).
           split; [now rewrite Loop_facts.writes_app, Hw1 |].
           destruct (polls_fault polls) as [e|].
           ++ rewrite H. reflexivity.
           ++ destruct H as [a' (E & Hv & Hf)]. exists a'. rewrite E.
              split; [reflexivity |].
              cbn [fold_left existsb]. rewrite Hdone, <- Hv1.
              split; assumption.
Qed.

(** Past a line that completes the response the loop reads nothing. *)
Lemma poll_loop_stops (raw : string) (rest : list poll) :
  completes (Hex.decode_line raw) = true ->
  forall (before : list poll) (a : accumulator number) (w : SerialWorker),
    poll_loop float repr (before ++ Line raw :: rest) a w
    = poll_loop float repr (before ++ [Line raw]) a w.
Proof.
  intros Hdone.
  assert (Hlast : forall a w,
             poll_loop float repr (Line raw :: rest) a w
             = poll_loop float repr [Line raw] a w).
  { intros a w. cbn [poll_loop].
    destruct (complete_response a) eqn:Hc; [reflexivity |].
    rewrite (completes_nonempty _ Hdone).
    destruct (handle_line_cases number float repr (Hex.decode_line raw) a w)
      as [a1 [t1 (E1 & Hc1 & _)]].
    rewrite Hdone in Hc1. cbn [orb] in Hc1.
    unfold bind, sleep, tell. rewrite E1.
    rewrite (poll_loop_complete number float repr rest a1 w Hc1).
    reflexivity. }
  induction before as [|p before IH]; intros a w; [apply Hlast |].
  cbn [app poll_loop].
  destruct (complete_response a); [reflexivity |].
  destruct p as [e| |e|raw']; try reflexivity.
  - unfold bind, sleep, tell. now rewrite IH.
  - destruct (Py.is_empty (Hex.decode_line raw')); [apply IH |].
    unfold bind, sleep, tell.
    destruct (handle_line float repr (Hex.decode_line raw') a w) as [[[a1|e] w1] t1];
      [| reflexivity].
    now rewrite IH.
Qed.

(** A read returns, whatever the port does. *)
Lemma read_temperature_ok :
  forall (env : temperature_env) (w : SerialWorker),
    exists (r : option number) (t : list effect),
      read_temperature float repr env w = (Ok r, w, t)
      /\ (writes t = [] \/ writes t = [("AT+TEST=TEMP" ++ Py.CRLF)%string]).
Proof.
  intros env w.
  unfold read_temperature, bind, gets, try_except, Exception, serial_write,
    port_call, emit, sleep, tell, ret, raise.
  destruct (is_connected w); cbn [negb app].
  2:{ eexists; eexists. split; [reflexivity |]. now left. }
  destruct (reset_input_fault env).
  { eexists; eexists. split; [reflexivity |]. now left. }
  destruct (reset_output_fault env).
  { eexists; eexists. split; [reflexivity |]. now left. }
  destruct (query_fault env).
  { eexists; eexists. split; [reflexivity |]. now left. }
  destruct (poll_loop_outcome (polls env)
              {| response := ""; complete_response := false;
                 temperature_value := None |} w eq_refl)
    as [t (Hw & H)].
  destruct (polls_fault (polls env)) as [e|].
  - rewrite H. eexists; eexists. split; [reflexivity |].
    right. cbn [app writes]. now rewrite Loop_facts.writes_app, Hw.
  - destruct H as [a' (E & _)]. rewrite E.
    destruct (temperature_value a'); [| destruct (complete_response a')];
      eexists; eexists; (split; [reflexivity |]);
      right; cbn [app writes]; now rewrite Loop_facts.writes_app, Hw.
Qed.

(** X10: a read never raises and never changes the worker, whatever the
    port does, and it writes nothing but the one query.  What it returns is
    settled by the port: nothing without an open connection or when the port
    fails before a line has completed the response, and otherwise the value
    of the last line read that yields one. *)
Theorem read_temperature_returns :
  forall (env : temperature_env) (w : SerialWorker),
    exists t : list effect,
      read_temperature float repr env w
      = (Ok (if is_connected w
             then match read_fault env with
                  | Some _ => None
                  | None => last_parsed float (lines_read (polls env))
                  end
             else None), w, t)
      /\ (writes t = [] \/ writes t = [("AT+TEST=TEMP" ++ Py.CRLF)%string]).
Proof.
  intros env w.
  unfold read_fault, read_temperature, bind, gets, try_except, Exception,
    serial_write, port_call, emit, sleep, tell, ret, raise.
  destruct (is_connected w); cbn [negb app].
  2:{ eexists. split; [reflexivity |]. now left. }
  destruct (reset_input_fault env).
  { eexists. split; [reflexivity |]. now left. }
  destruct (reset_output_fault env).
  { eexists. split; [reflexivity |]. now left. }
  destruct (query_fault env).
  { eexists. split; [reflexivity |]. now left. }
  destruct (poll_loop_outcome (polls env)
              {| response := ""; complete_response := false;
                 temperature_value := None |} w eq_refl)
    as [t (Hw & H)].
  destruct (polls_fault (polls env)) as [e|].
  - rewrite H. eexists. split; [reflexivity |].
    right. cbn [app writes]. now rewrite Loop_facts.writes_app, Hw.
  - destruct H as [a' (E & Hv & _)]. rewrite E.
    cbn [temperature_value] in Hv.
    fold (last_parsed float (lines_read (polls env))) in Hv. rewrite <- Hv.
    destruct (temperature_value a'); [| destruct (complete_response a')];
      eexists; (split; [reflexivity |]);
      right; cbn [app writes]; now rewrite Loop_facts.writes_app, Hw.
Qed.

(** X11: when the port fails during a read, before a line has completed
    the response, the read reports the error and returns [None], also when
    lines read before the failure have yielded a value. *)
Theorem read_temperature_port_failure :
  forall (env : temperature_env) (w : SerialWorker) (e : exn),
    is_connected w = true ->
    read_fault env = Some e ->
    exists pre,
      read_temperature float repr env w
      = (Ok None, w,
         pre ++ [Emit (status_update (device_type w)
                         ("Temperature reading error: " ++ str e))]).
Proof.
  intros env w e Hconn Hf.
  unfold read_fault in Hf.
  unfold read_temperature, bind, gets, try_except, Exception, serial_write,
    port_call, emit, sleep, tell, ret, raise.
  rewrite Hconn. cbn [negb app].
  destruct (reset_input_fault env).
  { injection Hf as ->. exists []. reflexivity. }
  destruct (reset_output_fault env).
  { injection Hf as ->. exists [ResetInput]. reflexivity. }
  destruct (query_fault env).
  { injection Hf as ->. eexists [_; _; _]. reflexivity. }
  destruct (poll_loop_outcome (polls env)
              {| response := ""; complete_response := false;
                 temperature_value := None |} w eq_refl)
    as [t (_ & H)].
  rewrite Hf in H. rewrite H.
  exists ([ResetInput; ResetOutput;
           Emit (status_update (device_type w)
                   "Sending temperature read command...");
           Write ("AT+TEST=TEMP" ++ Py.CRLF); Sleep (1#2)] ++ t).
  cbn [app]. rewrite <- ?app_assoc. reflexivity.
Qed.

(** X12: a read ends with the line that completes the response: what the
    port holds or does after that line has no part in the read. *)
Theorem read_temperature_stops_at_completion :
  forall (env : temperature_env) (w : SerialWorker) (before : list poll)
         (raw : string) (rest : list poll),
    completes (Hex.decode_line raw) = true ->
    read_temperature float repr (with_polls env (before ++ Line raw :: rest)) w
    = read_temperature float repr (with_polls env (before ++ [Line raw])) w.
Proof.
  intros env w before raw rest Hdone.
  unfold read_temperature, bind, gets, try_except, Exception, serial_write,
    port_call, emit, sleep, tell, ret, raise.
  cbn [polls with_polls reset_input_fault reset_output_fault query_fault].
  destruct (is_connected w); cbn [negb]; [| reflexivity].
  destruct (reset_input_fault env); [reflexivity |].
  destruct (reset_output_fault env); [reflexivity |].
  destruct (query_fault env); [reflexivity |].
  now rewrite (poll_loop_stops raw rest Hdone before).
Qed.

(** X13: a line that holds nothing but white space and bytes outside ASCII
    is no line at all: the loop emits nothing for it, and a read passes it
    over. *)
Theorem blank_line_ignored :
  forall (raw : string),
    Py.all blank raw = true ->
    (forall w : SerialWorker, receive (Line raw) w = (Ok tt, w, []))
    /\ (forall (rest : list poll) (a : accumulator number) (w : SerialWorker),
           poll_loop float repr (Line raw :: rest) a w
           = poll_loop float repr rest a w).
Proof.
  intros raw H. pose proof (Wire_facts.decode_line_blank raw H) as E.
  split.
  - intros w. unfold receive, bind, gets. rewrite E. reflexivity.
  - intros rest a w. cbn [poll_loop]. rewrite E. cbn [Py.is_empty].
    destruct (complete_response a) eqn:Hc; [| reflexivity].
    now rewrite (poll_loop_complete number float repr rest a w Hc).
Qed.

End Temperature_port.

Lemma read_temperature_port_failure_witness :
  exists pre,
    read_temperature Decimal_float.float Decimal_float.repr
      (delivers [Line "+TEST: TEMP,23.50";
                 ReadlineFails (SerialException "device disconnected");
                 Line "OK"])
      transmitter
    = (Ok None, transmitter,
       pre ++ [Emit (status_update "Transmitter"
                       "Temperature reading error: device disconnected")]).
Proof.
  exact (read_temperature_port_failure Q Decimal_float.float Decimal_float.repr
           (delivers [Line "+TEST: TEMP,23.50";
                      ReadlineFails (SerialException "device disconnected");
                      Line "OK"])
           transmitter (SerialException "device disconnected")
           eq_refl eq_refl).
Defined.

Lemma read_temperature_stops_at_completion_witness :
  read_temperature Decimal_float.float Decimal_float.repr
    (delivers [Line "+TEST: TEMP,23.50"; Line "OK"; Line "+TEST: TEMP,99";
               ReadlineFails (SerialException "device disconnected")])
    transmitter
  = read_temperature Decimal_float.float Decimal_float.repr
      (delivers [Line "+TEST: TEMP,23.50"; Line "OK"]) transmitter.
Proof.
  exact (read_temperature_stops_at_completion Q Decimal_float.float
           Decimal_float.repr (delivers []) transmitter
           [Line "+TEST: TEMP,23.50"] "OK"
           [Line "+TEST: TEMP,99";
            ReadlineFails (SerialException "device disconnected")]
           eq_refl).
Defined.

Lemma blank_line_ignored_witness :
  receive (Line Py.CRLF) transmitter = (Ok tt, transmitter, []).
Proof.
  exact (proj1 (blank_line_ignored Q Decimal_float.float Decimal_float.repr
                  Py.CRLF eq_refl) transmitter).
Defined.

(** ** The device a signal names *)

Module Signal_facts.

Lemma signals_app (t u : list effect) : signals (t ++ u) = signals t ++ signals u.
Proof.
  induction t as [|[] t IH]; simpl; try exact IH; [reflexivity | now rewrite IH].
Qed.

Lemma named_app (device : string) (t u : list effect) :
  named device t -> named device u -> named device (t ++ u).
Proof.
  unfold named. intros Ht Hu. rewrite signals_app. apply Forall_app. now split.
Qed.

Lemma named_nil (device : string) : named device [].
Proof. constructor. Qed.

Lemma receive_named (p : poll) (w : SerialWorker) :
  named (device_type w) (trace_of (receive p w)).
Proof.
  unfold receive, bind, gets, emit, tell, try_except, lift, ret, raise, trace_of.
  destruct p as [e| |e|raw]; try apply named_nil.
  destruct (Py.is_empty _); [apply named_nil |].
  destruct ((device_type w =? "Receiver")%string && Py.contains _ _).
  - destruct (decode_packet _); cbn; repeat constructor.
  - cbn. repeat constructor.
Qed.

(** One test of the loop keeps the role and names it in every signal. *)
Lemma loop_step_named (env : tick) (w : SerialWorker) :
  exists w' t,
    loop_step env w = (Ok tt, w', t)
    /\ device_type w' = device_type w
    /\ named (device_type w) t.
Proof.
  unfold loop_step, bind, gets.
  destruct (looping w).
  - destruct (running w); cbn [app].
    + rewrite Session_facts.iteration_trace.
      pose proof (receive_named (rx env) w) as Hr.
      destruct (fault env w); [| destruct (transmits env w)];
        eexists; eexists; (split; [reflexivity |]);
        (split; [reflexivity |]);
        (apply named_app; [exact Hr | repeat constructor]).
    + rewrite Pending_facts.exit_loop_cases.
      destruct (is_connected w); eexists; eexists; (split; [reflexivity |]);
        (split; [reflexivity |]); repeat constructor.
  - exists w, []. repeat split. apply named_nil.
Qed.

Lemma loop_named (ticks : list tick) :
  forall w,
    exists w' t,
      loop ticks w = (Ok tt, w', t)
      /\ device_type w' = device_type w
      /\ named (device_type w) t.
Proof.
  induction ticks as [|env ticks IH]; intros w.
  - exists w, []. repeat split. apply named_nil.
  - destruct (loop_step_named env w) as [w1 [t1 (E1 & Hdev1 & Hn1)]].
    destruct (IH w1) as [w2 [t2 (E2 & Hdev2 & Hn2)]].
    exists w2, (t1 ++ t2). cbn [loop]. unfold bind. rewrite E1, E2.
    repeat split; [congruence |].
    apply named_app; [exact Hn1 | now rewrite <- Hdev1].
Qed.

Lemma startup_named (open_fault : option exn) (cfg : config_env)
    (w : SerialWorker) :
  exists b w' t,
    startup open_fault cfg w = (Ok b, w', t)
    /\ device_type w' = device_type w
    /\ named (device_type w) t.
Proof.
  unfold startup, connect, configure_device, disconnect, bind, gets, modify,
    try_except, Exception, serial_write, port_call, emit, sleep, tell, ret, raise.
  cbn [port device_type set_running].
  destruct open_fault as [e|].
  { cbn. do 3 eexists. split; [reflexivity |]. split; [reflexivity |].
    repeat constructor. }
  destruct (mode_fault cfg) as [e1|].
  { cbn. do 3 eexists. split; [reflexivity |]. split; [reflexivity |].
    repeat constructor. }
  destruct (rfcfg_fault cfg) as [e2|].
  { cbn. do 3 eexists. split; [reflexivity |]. split; [reflexivity |].
    repeat constructor. }
  destruct (device_type w =? "Receiver")%string eqn:Hrecv.
  - destruct (rxlrpkt_fault cfg) as [e3|]; cbn; rewrite Hrecv; cbn;
      do 3 eexists; (split; [reflexivity |]); (split; [reflexivity |]);
      repeat constructor.
  - cbn. rewrite Hrecv. cbn.
    do 3 eexists. split; [reflexivity |]. split; [reflexivity |].
    repeat constructor.
Qed.

Lemma stop_named (w : SerialWorker) :
  exists w' t,
    stop w = (Ok tt, w', t)
    /\ device_type w' = device_type w
    /\ named (device_type w) t.
Proof.
  rewrite Lifecycle_facts.stop_cases.
  destruct (looping w); [destruct (is_connected w) |];
    eexists; eexists; (split; [reflexivity |]); (split; [reflexivity |]);
    repeat constructor.
Qed.

(** A whole session keeps the role and names it in every signal. *)
Lemma session_named (open_fault : option exn) (cfg : config_env)
    (ticks : list tick) (w : SerialWorker) :
  exists w' t,
    (run open_fault cfg ticks ;; stop) w = (Ok tt, w', t)
    /\ device_type w' = device_type w
    /\ named (device_type w) t.
Proof.
  destruct (startup_named open_fault cfg w) as [b [w1 [t1 (E1 & Hdev1 & Hn1)]]].
  assert (H : exists w2 t2,
             run open_fault cfg ticks w = (Ok tt, w2, t2)
             /\ device_type w2 = device_type w
             /\ named (device_type w) t2).
  { unfold run. unfold bind at 1. rewrite E1. destruct b.
    - destruct (loop_named ticks w1) as [w2 [t2 (E2 & Hdev2 & Hn2)]].
      rewrite E2. eexists; eexists. split; [reflexivity |].
      split; [congruence |].
      apply named_app; [exact Hn1 | now rewrite <- Hdev1].
    - unfold ret. eexists; eexists. split; [reflexivity |].
      split; [exact Hdev1 |]. now rewrite app_nil_r. }
  destruct H as [w2 [t2 (E2 & Hdev2 & Hn2)]].
  destruct (stop_named w2) as [w3 [t3 (E3 & Hdev3 & Hn3)]].
  exists w3, (t2 ++ t3). unfold bind. rewrite E2, E3.
  repeat split; [congruence |].
  apply named_app; [exact Hn2 | now rewrite <- Hdev2].
Qed.

End Signal_facts.

Section Signals.

Variable number : Type.
Variable float : string -> option number.
Variable repr : number -> string.

Lemma handle_line_named (line : string) (a : accumulator number)
    (w : SerialWorker) :
  exists r t,
    handle_line float repr line a w = (r, w, t)
    /\ named (device_type w) t.
Proof.
  unfold handle_line, bind, gets, emit, tell, try_except, lift, ret.
  destruct (Py.contains "TEMP" line).
  - destruct (parse_temperature float line (temperature_value a)) as [v|e].
    + eexists; eexists. split; [reflexivity |]. repeat constructor.
    + destruct (IndexError_or_ValueError e);
        eexists; eexists; (split; [reflexivity |]); repeat constructor.
  - eexists; eexists. split; [reflexivity |]. repeat constructor.
Qed.

Lemma poll_loop_named (polls : list poll) :
  forall (a : accumulator number) (w : SerialWorker),
    exists r t,
      poll_loop float repr polls a w = (r, w, t)
      /\ named (device_type w) t.
Proof.
  induction polls as [|p polls IH]; intros a w.
  - eexists; eexists. split; [reflexivity |]. apply Signal_facts.named_nil.
  - cbn [poll_loop].
    destruct (complete_response a).
    { eexists; eexists. split; [reflexivity |]. apply Signal_facts.named_nil. }
    destruct p as [e| |e|raw].
    + eexists; eexists. split; [reflexivity |]. apply Signal_facts.named_nil.
    + destruct (IH a w) as [r [t (E & Hn)]].
      unfold bind, sleep, tell. rewrite E.
      eexists; eexists. split; [reflexivity |]. exact Hn.
    + eexists; eexists. split; [reflexivity |]. apply Signal_facts.named_nil.
    + destruct (Py.is_empty (Hex.decode_line raw)); [apply IH |].
      destruct (handle_line_named (Hex.decode_line raw) a w)
        as [r1 [t1 (E1 & Hn1)]].
      unfold bind, sleep, tell. rewrite E1.
      destruct r1 as [a1|e].
      * destruct (IH a1 w) as [r [t (E & Hn)]]. rewrite E.
        eexists; eexists. split; [reflexivity |].
        apply Signal_facts.named_app; [exact Hn1 | exact Hn].
      * eexists; eexists. split; [reflexivity |]. exact Hn1.
Qed.

Lemma read_temperature_named (env : temperature_env) (w : SerialWorker) :
  exists r t,
    read_temperature float repr env w = (r, w, t)
    /\ named (device_type w) t.
Proof.
  unfold read_temperature, bind, gets, try_except, Exception, serial_write,
    port_call, emit, sleep, tell, ret, raise.
  destruct (is_connected w); cbn [negb app].
  2:{ eexists; eexists. split; [reflexivity |]. repeat constructor. }
  destruct (reset_input_fault env).
  { eexists; eexists. split; [reflexivity |]. repeat constructor. }
  destruct (reset_output_fault env).
  { eexists; eexists. split; [reflexivity |]. repeat constructor. }
  destruct (query_fault env).
  { eexists; eexists. split; [reflexivity |]. repeat constructor. }
  destruct (poll_loop_named (polls env)
              {| response := ""; complete_response := false;
                 temperature_value := None |} w)
    as [r [t (E & Hn)]].
  rewrite E.
  destruct r as [a'|e].
  - destruct (temperature_value a'); [| destruct (complete_response a')];
      eexists; eexists; (split; [reflexivity |]);
      unfold named; cbn [app signals];
      (constructor; [reflexivity |]);
      rewrite Signal_facts.signals_app; (apply Forall_app; split; [exact Hn |]);
      repeat constructor.
  - eexists; eexists. split; [reflexivity |].
    unfold named; cbn [app signals].
    constructor; [reflexivity |].
    rewrite Signal_facts.signals_app. apply Forall_app. split; [exact Hn |].
    repeat constructor.
Qed.

(** X14: every signal of a worker names the worker's own device: those of
    a session from its start to its stop, whatever fails, those of queueing
    a message and those of a temperature read. *)
Theorem signals_name_device :
  (forall (open_fault : option exn) (cfg : config_env) (ticks : list tick)
          (w : SerialWorker),
      named (device_type w) (trace_of ((run open_fault cfg ticks ;; stop) w)))
  /\ (forall (message : string) (w : SerialWorker),
         named (device_type w) (trace_of (send_message message w)))
  /\ (forall (env : temperature_env) (w : SerialWorker),
         named (device_type w) (trace_of (read_temperature float repr env w))).
Proof.
  split; [| split].
  - intros open_fault cfg ticks w.
    destruct (Signal_facts.session_named open_fault cfg ticks w)
      as [w' [t (E & _ & Hn)]].
    rewrite E. exact Hn.
  - intros message w. repeat constructor.
  - intros env w.
    destruct (read_temperature_named env w) as [r [t (E & Hn)]].
    rewrite E. exact Hn.
Qed.

End Signals.

(** ** The window *)

Section Window_facts.

Variable timestamp : nat -> string.
Variable number : Type.
Variable float : string -> option number.
Variable repr : number -> string.
Variable format_2f : number -> string.

(** No slot touches the workers, the temperature label or the buttons. *)
Lemma deliver_controls (ev : event) (ui : UI.Window) :
  UI.transmitter (UI.deliver timestamp ev ui) = UI.transmitter ui
  /\ UI.receiver (UI.deliver timestamp ev ui) = UI.receiver ui
  /\ UI.temp_label (UI.deliver timestamp ev ui) = UI.temp_label ui
  /\ UI.temp_style (UI.deliver timestamp ev ui) = UI.temp_style ui
  /\ UI.start_btn (UI.deliver timestamp ev ui) = UI.start_btn ui
  /\ UI.stop_btn (UI.deliver timestamp ev ui) = UI.stop_btn ui
  /\ UI.send_btn (UI.deliver timestamp ev ui) = UI.send_btn ui.
Proof.
  destruct ev as [d m | d m | d b];
    unfold UI.deliver, UI.update_status, UI.log_message,
      UI.update_status_indicator;
    destruct (d =? "Transmitter")%string; repeat split.
Qed.

Lemma deliver_all_controls (t : list effect) :
  forall ui : UI.Window,
    UI.transmitter (UI.deliver_all timestamp t ui) = UI.transmitter ui
    /\ UI.receiver (UI.deliver_all timestamp t ui) = UI.receiver ui
    /\ UI.temp_label (UI.deliver_all timestamp t ui) = UI.temp_label ui
    /\ UI.temp_style (UI.deliver_all timestamp t ui) = UI.temp_style ui
    /\ UI.start_btn (UI.deliver_all timestamp t ui) = UI.start_btn ui
    /\ UI.stop_btn (UI.deliver_all timestamp t ui) = UI.stop_btn ui
    /\ UI.send_btn (UI.deliver_all timestamp t ui) = UI.send_btn ui.
Proof.
  unfold UI.deliver_all. induction (signals t) as [|ev evs IH]; intros ui.
  - repeat split.
  - cbn [fold_left].
    destruct (IH (UI.deliver timestamp ev ui)) as (H1 & H2 & H3 & H4 & H5 & H6 & H7).
    destruct (deliver_controls ev ui) as (G1 & G2 & G3 & G4 & G5 & G6 & G7).
    repeat split; congruence.
Qed.

(** A signal of the transmitter leaves the receiver's log and indicator as
    they are, and sets the transmitter's indicator when it is a connection
    signal. *)
Lemma deliver_transmitter (ev : event) (ui : UI.Window) :
  device_of ev = "Transmitter" ->
  UI.rx_log (UI.deliver timestamp ev ui) = UI.rx_log ui
  /\ UI.rx_status (UI.deliver timestamp ev ui) = UI.rx_status ui
  /\ UI.tx_status (UI.deliver timestamp ev ui)
     = match ev with
       | connection_status _ status => indicator status
       | status_update _ _ | message_received _ _ => UI.tx_status ui
       end.
Proof.
  destruct ev as [d m | d m | d b]; cbn [device_of]; intros ->;
    repeat split; now destruct b.
Qed.

(** A signal of any other device leaves the transmitter's log and indicator
    as they are, and sets the receiver's indicator when it is a connection
    signal. *)
Lemma deliver_other (ev : event) (ui : UI.Window) :
  device_of ev <> "Transmitter" ->
  UI.tx_log (UI.deliver timestamp ev ui) = UI.tx_log ui
  /\ UI.tx_status (UI.deliver timestamp ev ui) = UI.tx_status ui
  /\ UI.rx_status (UI.deliver timestamp ev ui)
     = match ev with
       | connection_status _ status => indicator status
       | status_update _ _ | message_received _ _ => UI.rx_status ui
       end.
Proof.
  intros H.
  assert (E : (device_of ev =? "Transmitter")%string = false)
    by (now apply String.eqb_neq).
  destruct ev as [d m | d m | d b]; cbn [device_of] in E;
    unfold UI.deliver, UI.update_status, UI.log_message,
      UI.update_status_indicator; cbn [UI.clock_reads UI.set_status_bar];
    rewrite E; repeat split; now destruct b.
Qed.

Lemma connection_events_cons_cases (e : effect) (t : list effect) :
  connection_events (e :: t)
  = match e with
    | Emit (connection_status _ status) => status :: connection_events t
    | _ => connection_events t
    end.
Proof. destruct e as [[]| | | | | |]; reflexivity. Qed.

(** The transmitter's signals, delivered: the receiver's side is untouched
    and the transmitter's indicator shows the last connection signal. *)
Lemma deliver_all_transmitter (t : list effect) :
  forall ui : UI.Window,
    named "Transmitter" t ->
    UI.rx_log (UI.deliver_all timestamp t ui) = UI.rx_log ui
    /\ UI.rx_status (UI.deliver_all timestamp t ui) = UI.rx_status ui
    /\ UI.tx_status (UI.deliver_all timestamp t ui)
       = fold_left (fun _ status => indicator status) (connection_events t)
           (UI.tx_status ui).
Proof.
  unfold named, UI.deliver_all.
  induction t as [|e t IH]; intros ui Hn; [repeat split |].
  rewrite connection_events_cons_cases.
  destruct e as [ev| | | | | |]; cbn [signals] in *; try (apply IH; exact Hn).
  inversion Hn as [|? ? Hev Hrest]; subst.
  cbn [fold_left].
  destruct (IH (UI.deliver timestamp ev ui) Hrest) as (H1 & H2 & H3).
  destruct (deliver_transmitter ev ui Hev) as (G1 & G2 & G3).
  rewrite H1, H2, H3, G1, G2, G3.
  destruct ev as [d m | d m | d b]; repeat split.
Qed.

(** The signals of any other device, delivered: the transmitter's side is
    untouched and the receiver's indicator shows the last connection
    signal. *)
Lemma deliver_all_other (device : string) (t : list effect) :
  device <> "Transmitter" ->
  forall ui : UI.Window,
    named device t ->
    UI.tx_log (UI.deliver_all timestamp t ui) = UI.tx_log ui
    /\ UI.tx_status (UI.deliver_all timestamp t ui) = UI.tx_status ui
    /\ UI.rx_status (UI.deliver_all timestamp t ui)
       = fold_left (fun _ status => indicator status) (connection_events t)
           (UI.rx_status ui).
Proof.
  intros Hdev. unfold named, UI.deliver_all.
  induction t as [|e t IH]; intros ui Hn; [repeat split |].
  rewrite connection_events_cons_cases.
  destruct e as [ev| | | | | |]; cbn [signals] in *; try (apply IH; exact Hn).
  inversion Hn as [|? ? Hev Hrest]; subst.
  cbn [fold_left].
  destruct (IH (UI.deliver timestamp ev ui) Hrest) as (H1 & H2 & H3).
  destruct (deliver_other ev ui Hdev) as (G1 & G2 & G3).
  rewrite H1, H2, H3, G1, G2, G3.
  destruct ev as [d m | d m | d b]; repeat split.
Qed.

(** X15: the window keeps the two devices apart: the signals of the
    transmitter change neither the log nor the indicator of the receiver, and
    the signals of any other device, the receiver or the window's own
    ["System"], change neither the log nor the indicator of the transmitter;
    and no signal changes the workers, the temperature label or the
    buttons. *)
Theorem deliver_routing :
  forall (t : list effect) (ui : UI.Window),
    (named "Transmitter" t ->
     UI.rx_log (UI.deliver_all timestamp t ui) = UI.rx_log ui
     /\ UI.rx_status (UI.deliver_all timestamp t ui) = UI.rx_status ui)
    /\ (forall device,
           device <> "Transmitter" -> named device t ->
           UI.tx_log (UI.deliver_all timestamp t ui) = UI.tx_log ui
           /\ UI.tx_status (UI.deliver_all timestamp t ui) = UI.tx_status ui)
    /\ UI.transmitter (UI.deliver_all timestamp t ui) = UI.transmitter ui
    /\ UI.receiver (UI.deliver_all timestamp t ui) = UI.receiver ui
    /\ UI.temp_label (UI.deliver_all timestamp t ui) = UI.temp_label ui
    /\ UI.send_btn (UI.deliver_all timestamp t ui) = UI.send_btn ui.
Proof.
  intros t ui.
  destruct (deliver_all_controls t ui) as (H1 & H2 & H3 & _ & _ & _ & H7).
  repeat split; try assumption.
  - now apply deliver_all_transmitter.
  - now apply deliver_all_transmitter.
  - now apply (deliver_all_other device).
  - now apply (deliver_all_other device).
Qed.

(** The connection signals of [run]: one, of a connection, when its loop
    is entered. *)
Lemma run_entered (cfg : config_env) (ticks : list tick) (w : SerialWorker) :
  config_fault (device_type w) cfg = None ->
  exists w' t,
    run None cfg ticks w = (Ok tt, w', t)
    /\ named (device_type w) t
    /\ connection_events t = [true].
Proof.
  intros Hf.
  destruct (Session_facts.startup_outcome w cfg) as [w1 [t1 (E1 & H1)]].
  destruct (Signal_facts.startup_named None cfg w) as [b [w1' [t1' (E1' & Hdev1 & Hn1)]]].
  rewrite E1 in E1'. injection E1' as <- <- <-.
  rewrite Hf in H1, E1. destruct H1 as (Hrun1 & Halive1 & _ & Hc1 & _).
  destruct (Session_facts.loop_keeps_connection ticks w1 Hrun1 Halive1)
    as [w2 [t2 (E2 & _ & _ & _ & Hc2)]].
  destruct (Signal_facts.loop_named ticks w1) as [w2' [t2' (E2' & _ & Hn2)]].
  rewrite E2 in E2'. injection E2' as <- <-.
  exists w2, (t1 ++ t2). unfold run, bind. rewrite E1, E2.
  split; [reflexivity |]. split.
  - apply Signal_facts.named_app; [exact Hn1 | now rewrite <- Hdev1].
  - now rewrite Session_facts.connection_events_app, Hc1, Hc2.
Qed.

(** X16: the indicator of a device follows its session: green once the
    signals of a [run] that has entered its loop are delivered, red once
    those of a whole session, from its start to its stop, are delivered,
    whatever has failed; and the indicator of the other device is left as it
    is. *)
Theorem indicator_follows_session :
  forall (open_fault : option exn) (cfg : config_env) (ticks : list tick)
         (w : SerialWorker) (ui : UI.Window),
    looping w = false -> is_connected w = false ->
    (device_type w = "Transmitter" ->
     UI.tx_status (UI.deliver_all timestamp
                     (trace_of ((run open_fault cfg ticks ;; stop) w)) ui)
     = "color: red;"
     /\ UI.rx_status (UI.deliver_all timestamp
                        (trace_of ((run open_fault cfg ticks ;; stop) w)) ui)
        = UI.rx_status ui
     /\ (config_fault (device_type w) cfg = None ->
         UI.tx_status (UI.deliver_all timestamp
                         (trace_of (run None cfg ticks w)) ui)
         = "color: green;"))
    /\ (device_type w <> "Transmitter" ->
        UI.rx_status (UI.deliver_all timestamp
                        (trace_of ((run open_fault cfg ticks ;; stop) w)) ui)
        = "color: red;"
        /\ UI.tx_status (UI.deliver_all timestamp
                           (trace_of ((run open_fault cfg ticks ;; stop) w)) ui)
           = UI.tx_status ui
        /\ (config_fault (device_type w) cfg = None ->
            UI.rx_status (UI.deliver_all timestamp
                            (trace_of (run None cfg ticks w)) ui)
            = "color: green;")).
Proof.
  intros open_fault cfg ticks w ui Halive Hconn.
  destruct (session_outcome open_fault cfg ticks w Halive Hconn)
    as [w' [t (E & Hc & _)]].
  destruct (Signal_facts.session_named open_fault cfg ticks w)
    as [w'' [t' (E' & _ & Hn)]].
  rewrite E in E'. injection E' as <- <-.
  rewrite E. unfold trace_of at 1 2 4 5. cbn [snd].
  split.
  - intros Hdev. rewrite Hdev in Hn.
    destruct (deliver_all_transmitter t ui Hn) as (_ & Hrx & Htx).
    rewrite Htx, Hc. split; [| split].
    + now destruct open_fault.
    + exact Hrx.
    + intros Hf.
      destruct (run_entered cfg ticks w Hf) as [w1 [t1 (E1 & Hn1 & Hc1)]].
      rewrite E1. unfold trace_of. cbn [snd]. rewrite Hdev in Hn1.
      destruct (deliver_all_transmitter t1 ui Hn1) as (_ & _ & Htx1).
      now rewrite Htx1, Hc1.
  - intros Hdev.
    destruct (deliver_all_other (device_type w) t Hdev ui Hn) as (_ & Htx & Hrx).
    rewrite Hrx, Hc. split; [| split].
    + now destruct open_fault.
    + exact Htx.
    + intros Hf.
      destruct (run_entered cfg ticks w Hf) as [w1 [t1 (E1 & Hn1 & Hc1)]].
      rewrite E1. unfold trace_of. cbn [snd].
      destruct (deliver_all_other (device_type w) t1 Hdev ui Hn1) as (_ & _ & Hrx1).
      now rewrite Hrx1, Hc1.
Qed.

(** Reads a control of the window through the slots that leave it alone. *)
Ltac controls :=
  repeat first
    [ rewrite (proj1 (deliver_controls _ _))
    | rewrite (proj1 (proj2 (deliver_controls _ _)))
    | rewrite (proj1 (proj2 (proj2 (deliver_controls _ _))))
    | rewrite (proj1 (deliver_all_controls _ _))
    | rewrite (proj1 (proj2 (deliver_all_controls _ _)))
    | rewrite (proj1 (proj2 (proj2 (deliver_all_controls _ _))))
    | progress cbn [UI.transmitter UI.receiver UI.temp_label
                    UI.set_temp UI.set_transmitter] ];
  reflexivity.

(** X17: the button that reads and sends the temperature never raises.
    Without a transmitter, or with one whose thread is not running, it only
    logs that the transmitter is not running and leaves the port alone.  With
    a transmitter whose thread is running, whatever the thread has reached, it
    reads the temperature once: a value is shown on the label and queued,
    formatted, as the message to send; without a value, whatever the port has
    done, the label shows an error and the pending message is left as it was.
    So with a thread that has not opened its port yet the handler emits that
    the device is not connected, writes nothing and shows the error. *)
Theorem send_temperature_queues :
  forall (env : temperature_env) (ui : UI.Window),
    (forall tx,
        UI.transmitter ui = Some tx ->
        exists (r : option number) (t : list effect) (ui' : UI.Window)
               (t' : list effect),
          read_temperature float repr env tx = (Ok r, tx, t)
          /\ UI.send_temperature timestamp number float repr format_2f
               true env ui
             = (Ok tt, ui', t')
          /\ writes t' = writes t
          /\ UI.transmitter ui'
             = Some (match r with
                     | Some v => set_message_to_send (Some (format_2f v)) tx
                     | None => tx
                     end)
          /\ UI.temp_label ui'
             = match r with
               | Some v => ("Temperature: " ++ format_2f v ++ Py.DEGREE ++ "C")%string
               | None => "Temperature: Error"
               end
          /\ UI.receiver ui' = UI.receiver ui)
    /\ (forall isRunning : bool,
           UI.transmitter ui = None \/ isRunning = false ->
           UI.send_temperature timestamp number float repr format_2f
             isRunning env ui
           = (Ok tt,
              UI.log_message timestamp "Transmitter"
                "Error: Transmitter not running" ui,
              []))
    /\ (forall tx,
           UI.transmitter ui = Some tx -> is_connected tx = false ->
           exists ui',
             UI.send_temperature timestamp number float repr format_2f
               true env ui
             = (Ok tt, ui',
                [Emit (status_update (device_type tx)
                         "Error: Device not connected")])
             /\ UI.transmitter ui' = Some tx
             /\ UI.temp_label ui' = "Temperature: Error"
             /\ UI.temp_style ui' = "font-weight: bold; color: red;").
Proof.
  intros env ui. split; [| split].
  - intros tx Htx.
    destruct (read_temperature_ok number float repr env tx) as [r [t (E & _)]].
    exists r, t. unfold UI.send_temperature. rewrite Htx. cbn [negb].
    rewrite E.
    destruct r as [v|].
    + unfold send_message, bind, gets, modify, emit, tell. cbn [app].
      eexists; eexists. split; [reflexivity |]. split; [reflexivity |].
      split; [now rewrite Loop_facts.writes_app, app_nil_r |].
      change (UI.log_message timestamp "System" ?m ?u)
        with (UI.deliver timestamp (message_received "System" m) u).
      repeat split; controls.
    + eexists; eexists. split; [reflexivity |]. split; [reflexivity |].
      split; [reflexivity |].
      change (UI.log_message timestamp "System" ?m ?u)
        with (UI.deliver timestamp (message_received "System" m) u).
      repeat split; controls.
  - intros isRunning [Hnone | ->]; unfold UI.send_temperature.
    + rewrite Hnone. reflexivity.
    + destruct (UI.transmitter ui); reflexivity.
  - intros tx Htx Hconn. unfold UI.send_temperature. rewrite Htx. cbn [negb].
    assert (E : read_temperature float repr env tx
                = (Ok None, tx,
                   [Emit (status_update (device_type tx)
                            "Error: Device not connected")])).
    { unfold read_temperature, bind, gets, emit, tell, ret.
      rewrite Hconn. reflexivity. }
    rewrite E.
    eexists. split; [reflexivity |].
    change (UI.log_message timestamp "System" ?m ?u)
      with (UI.deliver timestamp (message_received "System" m) u).
    repeat split; controls.
Qed.

(** X18: the stop button stops both workers: from their loops, each ends
    with the flag cleared and its port closed, and once the signals of their
    exits are delivered both indicators are red; the start button is enabled
    again, the stop and send buttons are not. *)
Theorem stop_communication_stops_both :
  forall (ui : UI.Window) (tx rx : SerialWorker),
    UI.transmitter ui = Some tx -> UI.receiver ui = Some rx ->
    in_loop tx -> in_loop rx ->
    device_type tx = "Transmitter" -> device_type rx = "Receiver" ->
    exists tx' rx' ui' t,
      UI.stop_communication timestamp ui = (ui', t)
      /\ UI.transmitter ui' = Some tx' /\ UI.receiver ui' = Some rx'
      /\ running tx' = false /\ looping tx' = false /\ is_connected tx' = false
      /\ running rx' = false /\ looping rx' = false /\ is_connected rx' = false
      /\ UI.tx_status ui' = "color: red;" /\ UI.rx_status ui' = "color: red;"
      /\ UI.start_btn ui' = true /\ UI.stop_btn ui' = false
      /\ UI.send_btn ui' = false
      /\ t = [Close; Emit (status_update "Transmitter" "Disconnected");
              Emit (connection_status "Transmitter" false);
              Close; Emit (status_update "Receiver" "Disconnected");
              Emit (connection_status "Receiver" false)].
Proof.
  intros ui tx rx Htx Hrx Hin_tx Hin_rx Hdev_tx Hdev_rx.
  destruct (Lifecycle_facts.in_loop_connected tx Hin_tx) as (_ & Ha1 & Hc1).
  destruct (Lifecycle_facts.in_loop_connected rx Hin_rx) as (_ & Ha2 & Hc2).
  unfold UI.stop_communication, UI.stop_if_running.
  rewrite Htx, Hrx, Ha1, Ha2, !Lifecycle_facts.stop_cases, Ha1, Ha2, Hc1, Hc2,
    Hdev_tx, Hdev_rx.
  do 4 eexists. split; [reflexivity |]. repeat split.
Qed.

End Window_facts.

Lemma deliver_routing_witness :
  UI.rx_log (UI.deliver_all noon
               [Close; Emit (status_update "Transmitter" "Disconnected");
                Emit (connection_status "Transmitter" false)] both_running)
  = []
  /\ UI.tx_log (UI.deliver_all noon
                  [Emit (status_update "Receiver" "Received: OK")] both_running)
     = [].
Proof.
  split.
  - refine (proj1 (proj1 (deliver_routing noon
                            [Close; Emit (status_update "Transmitter" "Disconnected");
                             Emit (connection_status "Transmitter" false)]
                            both_running) _)).
    repeat constructor.
  - refine (proj1 (proj1 (proj2 (deliver_routing noon
                                   [Emit (status_update "Receiver" "Received: OK")]
                                   both_running)) "Receiver" _ _)).
    + discriminate.
    + repeat constructor.
Defined.

Lemma indicator_follows_session_witness :
  UI.tx_status
    (UI.deliver_all noon
       (trace_of ((run None no_faults [idle 1700000000] ;; stop)
                    (init TRANSMITTER_PORT "Transmitter")))
       UI.init_ui)
  = "color: red;"
  /\ UI.tx_status
       (UI.deliver_all noon
          (trace_of (run None no_faults [idle 1700000000]
                       (init TRANSMITTER_PORT "Transmitter")))
          UI.init_ui)
     = "color: green;".
Proof.
  destruct (proj1 (indicator_follows_session noon None no_faults
                     [idle 1700000000] (init TRANSMITTER_PORT "Transmitter")
                     UI.init_ui eq_refl eq_refl) eq_refl)
    as (Hred & _ & Hgreen).
  split; [exact Hred | exact (Hgreen eq_refl)].
Defined.

Lemma send_temperature_queues_witness :
  (exists (r : option Q) (t : list effect) (ui' : UI.Window) (t' : list effect),
      read_temperature Decimal_float.float Decimal_float.repr
        (delivers [Line "+TEST: TEMP,23.50"; Line "OK"])
        (active TRANSMITTER_PORT "Transmitter")
      = (Ok r, active TRANSMITTER_PORT "Transmitter", t)
      /\ UI.send_temperature noon Q Decimal_float.float Decimal_float.repr
           Decimal_float.repr true
           (delivers [Line "+TEST: TEMP,23.50"; Line "OK"]) both_running
         = (Ok tt, ui', t')
      /\ writes t' = writes t
      /\ UI.transmitter ui'
         = Some (match r with
                 | Some v =>
                     set_message_to_send (Some (Decimal_float.repr v))
                       (active TRANSMITTER_PORT "Transmitter")
                 | None => active TRANSMITTER_PORT "Transmitter"
                 end)
      /\ UI.temp_label ui'
         = match r with
           | Some v =>
               ("Temperature: " ++ Decimal_float.repr v ++ Py.DEGREE ++ "C")%string
           | None => "Temperature: Error"
           end
      /\ UI.receiver ui' = UI.receiver both_running)
  /\ (exists ui',
         UI.send_temperature noon Q Decimal_float.float Decimal_float.repr
           Decimal_float.repr true
           (delivers [Line "+TEST: TEMP,23.50"; Line "OK"])
           (UI.start_communication UI.init_ui)
         = (Ok tt, ui',
            [Emit (status_update "Transmitter" "Error: Device not connected")])
         /\ UI.transmitter ui' = Some (init TRANSMITTER_PORT "Transmitter")
         /\ UI.temp_label ui' = "Temperature: Error"
         /\ UI.temp_style ui' = "font-weight: bold; color: red;").
Proof.
  split.
  - exact (proj1 (send_temperature_queues noon Q Decimal_float.float
                    Decimal_float.repr Decimal_float.repr
                    (delivers [Line "+TEST: TEMP,23.50"; Line "OK"]) both_running)
             (active TRANSMITTER_PORT "Transmitter") eq_refl).
  - exact (proj2 (proj2 (send_temperature_queues noon Q Decimal_float.float
                           Decimal_float.repr Decimal_float.repr
                           (delivers [Line "+TEST: TEMP,23.50"; Line "OK"])
                           (UI.start_communication UI.init_ui)))
             (init TRANSMITTER_PORT "Transmitter") eq_refl eq_refl).
Defined.

Lemma stop_communication_stops_both_witness :
  exists tx' rx' ui' t,
    UI.stop_communication noon both_running = (ui', t)
    /\ UI.transmitter ui' = Some tx' /\ UI.receiver ui' = Some rx'
    /\ running tx' = false /\ looping tx' = false /\ is_connected tx' = false
    /\ running rx' = false /\ looping rx' = false /\ is_connected rx' = false
    /\ UI.tx_status ui' = "color: red;" /\ UI.rx_status ui' = "color: red;"
    /\ UI.start_btn ui' = true /\ UI.stop_btn ui' = false
    /\ UI.send_btn ui' = false
    /\ t = [Close; Emit (status_update "Transmitter" "Disconnected");
            Emit (connection_status "Transmitter" false);
            Close; Emit (status_update "Receiver" "Disconnected");
            Emit (connection_status "Receiver" false)].
Proof.
  exact (stop_communication_stops_both noon both_running
           (active TRANSMITTER_PORT "Transmitter")
           (active RECEIVER_PORT "Receiver") eq_refl eq_refl
           (in_loop_entered (init TRANSMITTER_PORT "Transmitter") no_faults eq_refl)
           (in_loop_entered (init RECEIVER_PORT "Receiver") no_faults eq_refl)
           eq_refl eq_refl).
Defined.

Section Window_logs.

Variable timestamp : nat -> string.

Lemma deliver_logs (ev : event) (ui : UI.Window) :
  length (UI.tx_log (UI.deliver timestamp ev ui))
  + length (UI.rx_log (UI.deliver timestamp ev ui))
  = length (UI.tx_log ui) + length (UI.rx_log ui) + logged [Emit ev]
  /\ UI.clock_reads (UI.deliver timestamp ev ui)
     = UI.clock_reads ui + logged [Emit ev].
Proof.
  destruct ev as [d m | d m | d b];
    unfold UI.deliver, UI.update_status, UI.log_message,
      UI.update_status_indicator;
    destruct (d =? "Transmitter")%string;
    cbn [UI.tx_log UI.rx_log UI.clock_reads UI.set_tx_log UI.set_rx_log
         UI.set_clock_reads UI.set_status_bar UI.set_tx_status UI.set_rx_status
         logged];
    rewrite ?length_app; cbn [length]; split; lia.
Qed.

(** X19: no line is lost and none is made up: delivering the signals of a
    trace adds to the two logs together exactly one line for each status and
    each message signal, none for a connection signal, and reads the clock
    once for each line. *)
Theorem every_signal_logged :
  forall (t : list effect) (ui : UI.Window),
    length (UI.tx_log (UI.deliver_all timestamp t ui))
    + length (UI.rx_log (UI.deliver_all timestamp t ui))
    = length (UI.tx_log ui) + length (UI.rx_log ui) + logged t
    /\ UI.clock_reads (UI.deliver_all timestamp t ui)
       = UI.clock_reads ui + logged t.
Proof.
  unfold UI.deliver_all.
  induction t as [|e t IH]; intros ui; [cbn; split; lia |].
  destruct e as [ev| | | | | |]; cbn [signals]; try apply IH.
  cbn [fold_left].
  destruct (IH (UI.deliver timestamp ev ui)) as [H1 H2].
  destruct (deliver_logs ev ui) as [G1 G2].
  rewrite H1, H2, G1, G2.
  destruct ev; cbn [logged]; split; lia.
Qed.

End Window_logs.
